(** * LexAdvisor: the chat stream parser, the role-gated views and the
      database schema they talk to

    Shallow embedding of
    - the chat page: the stream part of [sendMessage], and
      [deleteConversation];
    - the users page: [handleRoleChange];
    - the documents page: [handleUpload], [fetchDocuments];
    - the first migration: tables, constraints, row-level-security
      policies, [has_role], [get_user_role], [handle_new_user], with the
      statements the pages send to them.

    JavaScript strings are sequences of UTF-16 code units; a code unit is an
    [N].  The operations of the JavaScript runtime that the source calls but
    does not define ([TextDecoder], [JSON.parse], number formatting,
    [parseInt]) are the fields of the class [Runtime]; the development is
    generic in them, and [reference_runtime] gives one concrete runtime
    (WHATWG UTF-8 decoder, ECMA-404 JSON grammar) to evaluate examples. *)

From Stdlib Require Import List NArith ZArith Bool Lia String Ascii.
From Stdlib Require Import Strings.Byte.
Import ListNotations.

Set Warnings "-register-all".

(* ===================================================================== *)
(** ** JavaScript strings *)
(* ===================================================================== *)

Module JS.

Definition char := N.
Definition text := list char.

(** A string literal of the source, read as code units (the literals
    used are ASCII). *)
Definition lit (s : string) : text :=
  map N_of_ascii (list_ascii_of_string s).

(** JSON examples are written with ['] standing for the double quote. *)
Definition json_lit (s : string) : text :=
  map (fun c => if N.eqb c 39 then 34%N else c) (lit s).

Definition NL : char := 10%N.
Definition CR : char := 13%N.

Fixpoint text_eqb (a b : text) : bool :=
  match a, b with
  | [], [] => true
  | x :: a', y :: b' => N.eqb x y && text_eqb a' b'
  | _, _ => false
  end.

(** [s.indexOf(c)] for a one-character needle; [None] is JavaScript's -1. *)
Fixpoint indexOf (c : char) (s : text) : option nat :=
  match s with
  | [] => None
  | x :: r => if N.eqb x c then Some 0 else option_map S (indexOf c r)
  end.

(** [s.startsWith(p)] *)
Fixpoint startsWith (p s : text) : bool :=
  match p, s with
  | [], _ => true
  | x :: p', y :: s' => N.eqb x y && startsWith p' s'
  | _ :: _, [] => false
  end.

(** [s.endsWith(c)] for a one-character suffix. *)
Fixpoint endsWith (c : char) (s : text) : bool :=
  match s with
  | [] => false
  | [x] => N.eqb x c
  | _ :: r => endsWith c r
  end.

(** [s.slice(0, i)], [s.slice(i)] and [s.slice(0, -1)]. *)
Definition slice_to (i : nat) (s : text) : text := firstn i s.
Definition slice_from (i : nat) (s : text) : text := skipn i s.
Definition slice_drop_last (s : text) : text := removelast s.

(** ECMAScript WhiteSpace and LineTerminator code points: what
    [String.prototype.trim] strips. *)
Definition is_ws (c : char) : bool :=
  (N.eqb c 9 || N.eqb c 10 || N.eqb c 11 || N.eqb c 12 || N.eqb c 13
   || N.eqb c 32 || N.eqb c 160 || N.eqb c 5760
   || (N.leb 8192 c && N.leb c 8202)
   || N.eqb c 8232 || N.eqb c 8233 || N.eqb c 8239 || N.eqb c 8287
   || N.eqb c 12288 || N.eqb c 65279)%N.

Fixpoint trimStart (s : text) : text :=
  match s with
  | [] => []
  | c :: r => if is_ws c then trimStart r else s
  end.

Definition trimEnd (s : text) : text := rev (trimStart (rev s)).

Definition trim (s : text) : text := trimEnd (trimStart s).

(** [a.join(sep)] *)
Fixpoint join (sep : text) (parts : list text) : text :=
  match parts with
  | [] => []
  | [p] => p
  | p :: rest => p ++ sep ++ join sep rest
  end.

(** [s.split(',')]: the pieces between the separators; the empty string
    splits into one empty piece. *)
Fixpoint split_on (sep : char) (cur : text) (s : text) : list text :=
  match s with
  | [] => [rev cur]
  | c :: r => if N.eqb c sep then rev cur :: split_on sep [] r
              else split_on sep (c :: cur) r
  end.

Definition split (sep : char) (s : text) : list text := split_on sep [] s.

End JS.
Import JS.

(* ===================================================================== *)
(** ** JSON values and how the source reads them *)
(* ===================================================================== *)

Module Json.

(** What [JSON.parse] returns.  A number is kept as it is written; an
    object keeps its members in source order, duplicates included. *)
Inductive json : Type :=
| JNull
| JBool (b : bool)
| JNum (literal : text)
| JStr (s : text)
| JArr (elems : list json)
| JObj (members : list (text * json)).

(** A JavaScript value reached from a parsed payload. *)
Inductive value : Type :=
| Undefined
| Val (j : json).

(** Own property [key] of an object literal.  [JSON.parse] lets a later
    duplicate overwrite an earlier one. *)
Fixpoint own_property (key : text) (members : list (text * json)) : value :=
  match members with
  | [] => Undefined
  | (k, v) :: rest =>
      match own_property key rest with
      | Val w => Val w
      | Undefined => if text_eqb k key then Val v else Undefined
      end
  end.

Definition has_own_property (key : text) (members : list (text * json)) : bool :=
  existsb (fun kv => text_eqb (fst kv) key) members.

(** [v.name] for one of the names the source uses ([choices], [delta],
    [content]): only an object can have it; arrays, strings, numbers and
    booleans answer [undefined]. *)
Definition get_named (name : text) (v : json) : value :=
  match v with
  | JObj members => own_property name members
  | _ => Undefined
  end.

(** [v[0]] *)
Definition get_index0 (v : json) : value :=
  match v with
  | JArr (e :: _) => Val e
  | JStr (c :: _) => Val (JStr [c])
  | JObj members => own_property (lit "0") members
  | _ => Undefined
  end.

(** [x?.member]: [undefined] and [null] short-circuit to [undefined]. *)
Definition optional_chain (x : value) (get : json -> value) : value :=
  match x with
  | Undefined => Undefined
  | Val JNull => Undefined
  | Val j => get j
  end.

(** The result of running a piece of JavaScript that may throw. *)
Inductive completion (A : Type) : Type :=
| Returned (a : A)
| Thrown.
Arguments Returned {A} a.
Arguments Thrown {A}.

(** [parsed.choices?.[0]?.delta?.content].  The first access is a plain
    one: on [null] it throws a TypeError. *)
Definition delta_content (parsed : json) : completion value :=
  match parsed with
  | JNull => Thrown
  | _ =>
      let choices := get_named (lit "choices") parsed in
      let choice0 := optional_chain choices get_index0 in
      let delta := optional_chain choice0 (get_named (lit "delta")) in
      Returned (optional_chain delta (get_named (lit "content")))
  end.

End Json.
Import Json.

(* ===================================================================== *)
(** ** The JavaScript runtime *)
(* ===================================================================== *)

(** What the source takes from its platform.
    - [decode_byte]: [TextDecoder.decode(value, {stream: true})] consumes
      the bytes of a chunk one after the other, keeping the bytes of an
      unfinished character in the decoder.
    - [JSON_parse]: [None] when [JSON.parse] throws.
    - [Number_truthy], [Number_toString]: truthiness and string form of a
      number, given as it is written in the payload.
    - [parseInt]: [None] when the result is [NaN] or infinite. *)
Class Runtime : Type := {
  decoder_state : Type;
  decoder_start : decoder_state;
  decode_byte : decoder_state -> byte -> decoder_state * text;
  JSON_parse : text -> option json;
  Number_truthy : text -> bool;
  Number_toString : text -> text;
  parseInt : text -> option Z
}.

Section Coercions.
Context {RT : Runtime}.

(** [if (content)] *)
Definition truthy (v : value) : bool :=
  match v with
  | Undefined => false
  | Val JNull => false
  | Val (JBool b) => b
  | Val (JNum n) => Number_truthy n
  | Val (JStr s) => negb (text_eqb s [])
  | Val (JArr _) => true
  | Val (JObj _) => true
  end.

(** The string a value contributes to [assistantContent += content].
    An array is joined with commas, its [null] elements as empty
    strings; a plain object is ["[object Object]"], unless the payload
    gave it an own [toString] member, which is not callable, and the
    conversion throws. *)
Fixpoint ToString (j : json) : completion text :=
  match j with
  | JNull => Returned (lit "null")
  | JBool true => Returned (lit "true")
  | JBool false => Returned (lit "false")
  | JNum n => Returned (Number_toString n)
  | JStr s => Returned s
  | JArr elems =>
      (fix join_elems (first : bool) (l : list json) : completion text :=
         match l with
         | [] => Returned []
         | e :: rest =>
             match (match e with JNull => Returned [] | _ => ToString e end) with
             | Thrown => Thrown
             | Returned s =>
                 match join_elems false rest with
                 | Thrown => Thrown
                 | Returned r =>
                     Returned ((if first then [] else lit ",") ++ s ++ r)
                 end
             end
         end) true elems
  | JObj members =>
      if has_own_property (lit "toString") members then Thrown
      else Returned (lit "[object Object]")
  end.

End Coercions.

(* ===================================================================== *)
(** ** The stream parser of [sendMessage]  (page [Chat]) *)
(* ===================================================================== *)

Module Stream.

(** The variables of the read loop.  [emitted] records the calls of
    [setMessages], oldest first: for each call, the value [assistantContent]
    has when the call is made.  (The updater passed to [setMessages] reads
    the variable when React runs it; when that is, is React's business and
    is not modelled.) *)
Record parser_state : Type := {
  buffer : text;
  assistantContent : text;
  emitted : list text
}.

Definition initial : parser_state :=
  {| buffer := []; assistantContent := []; emitted := [] |}.

Definition set_buffer (b : text) (st : parser_state) : parser_state :=
  {| buffer := b;
     assistantContent := assistantContent st;
     emitted := emitted st |}.

(** Why the inner [while] loop was left: its condition failed (no
    newline in the buffer), or one of its two [break]s ran. *)
Inductive loop_exit : Type :=
| NoNewline
| Sentinel
| ParseFailure.

Inductive control : Type :=
| Continue
| Break (why : loop_exit).

(** What the reader of a response body delivers: chunks, and then
    either [done] or a read that rejects with an error. *)
Record body_stream : Type := {
  chunks : list (list byte);
  read_error : option text
}.

(** The response to the stream request. *)
Record response : Type := {
  status : Z;
  body : option body_stream
}.

Inductive fetched : Type :=
| Rejected (message : text)
| Resolved (r : response).

(** What [sendMessage] does with the reply: the error toast it shows, the
    snapshots it rendered, the assistant message it saves. *)
Record reply : Type := {
  toast_error : option text;
  snapshots : list text;
  saved : option text
}.

Section Parser.
Context {RT : Runtime}.

(** The [try] block: parse, read the delta, append and emit. *)
Definition try_block (jsonStr : text) (st : parser_state)
  : completion parser_state :=
  match JSON_parse jsonStr with
  | None => Thrown
  | Some parsed =>
      match delta_content parsed with
      | Thrown => Thrown
      | Returned content =>
          if truthy content then
            match content with
            | Undefined => Returned st
            | Val j =>
                match ToString j with
                | Thrown => Thrown
                | Returned s =>
                    let acc := assistantContent st ++ s in
                    Returned {| buffer := buffer st;
                                assistantContent := acc;
                                emitted := emitted st ++ [acc] |}
                end
            end
          else Returned st
      end
  end.

(** One iteration of the inner loop, after [line] was cut off the
    buffer: [st] already holds the rest of the buffer. *)
Definition loop_body (line : text) (st : parser_state)
  : control * parser_state :=
  let line := if endsWith CR line then slice_drop_last line else line in
  if startsWith (lit ":") line || text_eqb (trim line) [] then
    (Continue, st)
  else if negb (startsWith (lit "data: ") line) then
    (Continue, st)
  else
    let jsonStr := trim (slice_from 6 line) in
    if text_eqb jsonStr (lit "[DONE]") then (Break Sentinel, st)
    else
      match try_block jsonStr st with
      | Returned st' => (Continue, st')
      | Thrown =>
          (Break ParseFailure, set_buffer (line ++ NL :: buffer st) st)
      end.

(** [while ((newlineIndex = buffer.indexOf('\n')) !== -1) { ... }].
    Every iteration shortens the buffer by at least the newline, so
    [length buffer] iterations are enough ([drain_unfold] below gives
    the loop equation without the counter). *)
Fixpoint drain_fuel (fuel : nat) (st : parser_state)
  : loop_exit * parser_state :=
  match indexOf NL (buffer st) with
  | None => (NoNewline, st)
  | Some newlineIndex =>
      match fuel with
      | 0 => (NoNewline, st)
      | S fuel' =>
          let line := slice_to newlineIndex (buffer st) in
          let st1 :=
            set_buffer (slice_from (S newlineIndex) (buffer st)) st in
          match loop_body line st1 with
          | (Continue, st2) => drain_fuel fuel' st2
          | (Break why, st2) => (why, st2)
          end
      end
  end.

Definition drain (st : parser_state) : loop_exit * parser_state :=
  drain_fuel (List.length (buffer st)) st.

(** [decoder.decode(value, { stream: true })] *)
Fixpoint decode (d : decoder_state) (value : list byte)
  : decoder_state * text :=
  match value with
  | [] => (d, [])
  | b :: rest =>
      let (d1, t1) := decode_byte d b in
      let (d2, t2) := decode d1 rest in
      (d2, t1 ++ t2)
  end.

Record reader_state : Type := {
  decoder : decoder_state;
  parser : parser_state
}.

Definition reader_start : reader_state :=
  {| decoder := decoder_start; parser := initial |}.

(** The text of a chunk reaches the parser: [buffer += ...], then the
    inner loop. *)
Definition feed (t : text) (st : parser_state) : parser_state :=
  snd (drain (set_buffer (buffer st ++ t) st)).

(** One iteration of the outer loop, for a chunk [value]. *)
Definition on_chunk (rs : reader_state) (value : list byte)
  : reader_state :=
  let (d, t) := decode (decoder rs) value in
  {| decoder := d; parser := feed t (parser rs) |}.

(** [while (reader) { read(); if (done) break; ... }], for the
    chunks in the order [reader.read()] delivers them. *)
Definition read_loop (chunks : list (list byte)) (rs : reader_state)
  : reader_state :=
  fold_left on_chunk chunks rs.

Definition ok (r : response) : bool :=
  (200 <=? status r)%Z && (status r <=? 299)%Z.

(** The message of the [Error] thrown for a response that is not
    [ok]. *)
Definition status_error (status : Z) : text :=
  if (status =? 429)%Z then
    lit "Rate limit exceeded. Please try again later."
  else if (status =? 402)%Z then
    lit "Payment required. Please add credits to continue."
  else lit "Failed to get response".

(** The [try]/[catch] of [sendMessage] from [fetch] on.  A response
    without body has no reader and the loop is skipped.  A read that
    rejects ends the loop in the [catch]: the snapshots emitted so far
    stay on the page, and the assistant message is not saved. *)
Definition stream_reply (f : fetched) : reply :=
  match f with
  | Rejected message =>
      {| toast_error := Some message; snapshots := []; saved := None |}
  | Resolved r =>
      if negb (ok r) then
        {| toast_error := Some (status_error (status r));
           snapshots := []; saved := None |}
      else
        match body r with
        | None =>
            {| toast_error := None; snapshots := [];
               saved := Some (assistantContent initial) |}
        | Some b =>
            let rs := read_loop (chunks b) reader_start in
            match read_error b with
            | Some message =>
                {| toast_error := Some message;
                   snapshots := emitted (parser rs);
                   saved := None |}
            | None =>
                {| toast_error := None;
                   snapshots := emitted (parser rs);
                   saved := Some (assistantContent (parser rs)) |}
            end
        end
  end.

End Parser.

End Stream.
Import Stream.

(* ===================================================================== *)
(** ** A reference runtime *)
(* ===================================================================== *)

(** One concrete [Runtime], to run the model on concrete inputs: the
    UTF-8 decoder of the WHATWG Encoding standard (replacement mode, byte
    order mark removed), a parser for the JSON grammar of ECMA-404, and
    [parseInt] without a radix argument.  Numbers stay as they are written:
    [number_truthy] decides exactly whether the literal rounds to a
    non-zero double; [number_toString] is exact on integer literals below
    2^53 and returns any other literal unchanged. *)
Module Reference.

Local Open Scope N_scope.

(** *** UTF-8, streaming *)

Record utf8_state : Type := {
  bom_seen : bool;
  code_point : N;
  bytes_seen : N;
  bytes_needed : N;
  lower_boundary : N;
  upper_boundary : N
}.

Definition utf8_idle (bom : bool) : utf8_state :=
  {| bom_seen := bom; code_point := 0; bytes_seen := 0; bytes_needed := 0;
     lower_boundary := 128; upper_boundary := 191 |}.

Definition utf8_expect (bom : bool) (cp needed lo hi : N) : utf8_state :=
  {| bom_seen := bom; code_point := cp; bytes_seen := 0;
     bytes_needed := needed; lower_boundary := lo; upper_boundary := hi |}.

(** A byte met when no sequence is open.  The result lists the code
    points produced; 65533 is U+FFFD. *)
Definition utf8_lead (bom : bool) (b : N) : utf8_state * list N :=
  if b <=? 127 then (utf8_idle bom, [b])
  else if (194 <=? b) && (b <=? 223) then
    (utf8_expect bom (N.land b 31) 1 128 191, [])
  else if (224 <=? b) && (b <=? 239) then
    (utf8_expect bom (N.land b 15) 2
       (if b =? 224 then 160 else 128) (if b =? 237 then 159 else 191), [])
  else if (240 <=? b) && (b <=? 244) then
    (utf8_expect bom (N.land b 7) 3
       (if b =? 240 then 144 else 128) (if b =? 244 then 143 else 191), [])
  else (utf8_idle bom, [65533]).

Definition utf8_handler (st : utf8_state) (b : N) : utf8_state * list N :=
  if bytes_needed st =? 0 then utf8_lead (bom_seen st) b
  else if negb ((lower_boundary st <=? b) && (b <=? upper_boundary st)) then
    let (st', out) := utf8_lead (bom_seen st) b in (st', 65533 :: out)
  else
    let cp := N.lor (N.shiftl (code_point st) 6) (N.land b 63) in
    if bytes_seen st + 1 =? bytes_needed st then (utf8_idle (bom_seen st), [cp])
    else
      ({| bom_seen := bom_seen st; code_point := cp;
          bytes_seen := bytes_seen st + 1;
          bytes_needed := bytes_needed st;
          lower_boundary := 128; upper_boundary := 191 |}, []).

Definition utf16 (cp : N) : text :=
  if cp <? 65536 then [cp]
  else [55296 + (cp - 65536) / 1024; 56320 + (cp - 65536) mod 1024].

(** The first code point ever produced is dropped when it is U+FEFF. *)
Fixpoint serialize (bom : bool) (cps : list N) : bool * text :=
  match cps with
  | [] => (bom, [])
  | cp :: rest =>
      let (bom', t) := serialize true rest in
      if negb bom && (cp =? 65279) then (bom', t) else (bom', utf16 cp ++ t)
  end.

Definition utf8_decode_byte (st : utf8_state) (b : byte) : utf8_state * text :=
  let (st1, cps) := utf8_handler st (Byte.to_N b) in
  let (bom', t) := serialize (bom_seen st1) cps in
  ({| bom_seen := bom'; code_point := code_point st1;
      bytes_seen := bytes_seen st1; bytes_needed := bytes_needed st1;
      lower_boundary := lower_boundary st1;
      upper_boundary := upper_boundary st1 |}, t).

(** *** JSON *)

Definition json_ws (c : char) : bool :=
  (c =? 9) || (c =? 10) || (c =? 13) || (c =? 32).

Fixpoint skip_ws (s : text) : text :=
  match s with
  | [] => []
  | c :: r => if json_ws c then skip_ws r else s
  end.

Definition is_digit (c : char) : bool := (48 <=? c) && (c <=? 57).

Fixpoint span (p : char -> bool) (s : text) : text * text :=
  match s with
  | [] => ([], [])
  | c :: r => if p c then let (a, b) := span p r in (c :: a, b) else ([], s)
  end.

Definition hex_digit (c : char) : option N :=
  if is_digit c then Some (c - 48)
  else if (97 <=? c) && (c <=? 102) then Some (c - 87)
  else if (65 <=? c) && (c <=? 70) then Some (c - 55)
  else None.

Definition simple_escape (c : char) : option char :=
  if c =? 34 then Some 34 else if c =? 92 then Some 92
  else if c =? 47 then Some 47 else if c =? 98 then Some 8
  else if c =? 102 then Some 12 else if c =? 110 then Some 10
  else if c =? 114 then Some 13 else if c =? 116 then Some 9
  else None.

(** The characters of a string, after its opening quote. *)
Fixpoint parse_string (s : text) (acc : text) : option (text * text) :=
  match s with
  | [] => None
  | c :: r =>
      if c =? 34 then Some (rev acc, r)
      else if c =? 92 then
        match r with
        | [] => None
        | e :: r1 =>
            if e =? 117 then
              match r1 with
              | h1 :: h2 :: h3 :: h4 :: r2 =>
                  match hex_digit h1, hex_digit h2, hex_digit h3, hex_digit h4 with
                  | Some a, Some b, Some c', Some d =>
                      parse_string r2 ((((a * 16 + b) * 16 + c') * 16 + d) :: acc)
                  | _, _, _, _ => None
                  end
              | _ => None
              end
            else
              match simple_escape e with
              | Some x => parse_string r1 (x :: acc)
              | None => None
              end
        end
      else if c <? 32 then None
      else parse_string r (c :: acc)
  end.

(** A number: an optional minus, then a single 0 or digits not starting
    with 0, then an optional fraction (a dot and digits), then an
    optional exponent (e or E, an optional sign, digits). *)
Definition parse_number (s : text) : option (text * text) :=
  let (sign, s1) :=
    match s with
    | c :: r => if c =? 45 then ([c], r) else ([], s)
    | [] => ([], s)
    end in
  let (int, s2) :=
    match s1 with
    | c :: r => if c =? 48 then ([c], r) else span is_digit s1
    | [] => ([], s1)
    end in
  match int with
  | [] => None
  | _ =>
      let frac :=
        match s2 with
        | c :: r =>
            if c =? 46 then
              match span is_digit r with
              | ([], _) => None
              | (ds, r') => Some (c :: ds, r')
              end
            else Some ([], s2)
        | [] => Some ([], s2)
        end in
      match frac with
      | None => None
      | Some (fr, s3) =>
          let expo :=
            match s3 with
            | c :: r =>
                if (c =? 101) || (c =? 69) then
                  let (sg, r1) :=
                    match r with
                    | x :: r' => if (x =? 43) || (x =? 45) then ([x], r')
                                 else ([], r)
                    | [] => ([], r)
                    end in
                  match span is_digit r1 with
                  | ([], _) => None
                  | (ds, r') => Some (c :: sg ++ ds, r')
                  end
                else Some ([], s3)
            | [] => Some ([], s3)
            end in
          match expo with
          | None => None
          | Some (ex, s4) => Some (sign ++ int ++ fr ++ ex, s4)
          end
      end
  end.

Inductive mode : Type :=
| MValue
| MElements (done : list json)
| MMembers (done : list (text * json)).

(** Recursive descent; every call eats a character or is followed by one
    that does, so twice the length of the input bounds the calls. *)
Fixpoint parse (fuel : nat) (m : mode) (s : text) : option (json * text) :=
  match fuel with
  | O => None
  | S fuel' =>
      match m with
      | MValue =>
          match skip_ws s with
          | [] => None
          | c :: r =>
              if c =? 34 then
                match parse_string r [] with
                | Some (str, r') => Some (JStr str, r')
                | None => None
                end
              else if c =? 91 then
                match skip_ws r with
                | x :: r' => if x =? 93 then Some (JArr [], r')
                             else parse fuel' (MElements []) r
                | [] => None
                end
              else if c =? 123 then
                match skip_ws r with
                | x :: r' => if x =? 125 then Some (JObj [], r')
                             else parse fuel' (MMembers []) r
                | [] => None
                end
              else if startsWith (lit "null") (c :: r) then
                Some (JNull, skipn 3 r)
              else if startsWith (lit "true") (c :: r) then
                Some (JBool true, skipn 3 r)
              else if startsWith (lit "false") (c :: r) then
                Some (JBool false, skipn 4 r)
              else
                match parse_number (c :: r) with
                | Some (n, r') => Some (JNum n, r')
                | None => None
                end
          end
      | MElements done =>
          match parse fuel' MValue s with
          | None => None
          | Some (v, r) =>
              match skip_ws r with
              | x :: r' =>
                  if x =? 44 then parse fuel' (MElements (v :: done)) r'
                  else if x =? 93 then Some (JArr (rev (v :: done)), r')
                  else None
              | [] => None
              end
          end
      | MMembers done =>
          match skip_ws s with
          | q :: r0 =>
              if q =? 34 then
                match parse_string r0 [] with
                | None => None
                | Some (key, r1) =>
                    match skip_ws r1 with
                    | colon :: r2 =>
                        if colon =? 58 then
                          match parse fuel' MValue r2 with
                          | None => None
                          | Some (v, r3) =>
                              match skip_ws r3 with
                              | x :: r4 =>
                                  if x =? 44 then
                                    parse fuel' (MMembers ((key, v) :: done)) r4
                                  else if x =? 125 then
                                    Some (JObj (rev ((key, v) :: done)), r4)
                                  else None
                              | [] => None
                              end
                          end
                        else None
                    | [] => None
                    end
                end
              else None
          | [] => None
          end
      end
  end.

Definition json_parse (s : text) : option json :=
  match parse (S (2 * List.length s)) MValue s with
  | Some (v, r) => match skip_ws r with [] => Some v | _ => None end
  | None => None
  end.

(** *** Numbers *)

Definition digits_value (ds : text) : N :=
  fold_left (fun acc c => acc * 10 + (c - 48)) ds 0.

Definition is_exp_mark (c : char) : bool := (c =? 101) || (c =? 69).

(** The decimal [D * 10^E] a literal denotes, sign dropped. *)
Definition decimal_of (literal : text) : N * Z :=
  let unsigned :=
    match literal with
    | c :: r => if c =? 45 then r else literal
    | [] => literal
    end in
  let (mantissa, ex) := span (fun c => negb (is_exp_mark c)) unsigned in
  let (int, fr) := span is_digit mantissa in
  let frac := skipn 1 fr in
  let e :=
    match ex with
    | _ :: s :: ds =>
        if s =? 45 then (- Z.of_N (digits_value ds))%Z
        else if s =? 43 then Z.of_N (digits_value ds)
        else Z.of_N (digits_value (s :: ds))
    | _ => 0%Z
    end in
  (digits_value (int ++ frac), (e - Z.of_nat (List.length frac))%Z).

(** A double is zero exactly when the decimal is at most 2^-1075. *)
Definition number_truthy (literal : text) : bool :=
  let (d, e) := decimal_of literal in
  if d =? 0 then false
  else if (0 <=? e)%Z then true
  else if (Z.of_nat (List.length literal) + 400 <? - e)%Z then false
  else (10 ^ Z.to_N (- e) <? d * 2 ^ 1075).

Definition number_toString (literal : text) : text :=
  match literal with
  | c :: r =>
      if (c =? 45) && forallb is_digit r && (digits_value r =? 0) then r
      else literal
  | [] => literal
  end.

(** *** parseInt *)

Definition radix_digit (radix : N) (c : char) : option N :=
  match hex_digit c with
  | Some v => if v <? radix then Some v else None
  | None => None
  end.

Fixpoint radix_value (radix : N) (s : text) (acc : option N) : option N :=
  match s with
  | [] => acc
  | c :: r =>
      match radix_digit radix c with
      | Some v =>
          radix_value radix r
            (Some (match acc with Some a => a * radix + v | None => v end))
      | None => acc
      end
  end.

Definition parse_int (s : text) : option Z :=
  let s0 := trimStart s in
  let (negative, s1) :=
    match s0 with
    | c :: r => if c =? 45 then (true, r)
                else if c =? 43 then (false, r) else (false, s0)
    | [] => (false, s0)
    end in
  let (radix, s2) :=
    match s1 with
    | z :: x :: r =>
        if (z =? 48) && ((x =? 120) || (x =? 88)) then (16, r) else (10, s1)
    | _ => (10, s1)
    end in
  match radix_value radix s2 None with
  | None => None
  | Some v =>
      if 2 ^ 1024 - 2 ^ 970 <=? v then None
      else Some (if negative then (- Z.of_N v)%Z else Z.of_N v)
  end.

End Reference.

#[export] Instance reference_runtime : Runtime := {
  decoder_state := Reference.utf8_state;
  decoder_start := Reference.utf8_idle false;
  decode_byte := Reference.utf8_decode_byte;
  JSON_parse := Reference.json_parse;
  Number_truthy := Reference.number_truthy;
  Number_toString := Reference.number_toString;
  parseInt := Reference.parse_int
}.

(* ===================================================================== *)
(** ** The database  (first migration) *)
(* ===================================================================== *)

(** Tables as lists of rows, oldest first.  Left out: the columns
    [created_at] and [updated_at], the generated [id] of [profiles] and
    [user_roles] rows (nothing refers to them), and the tables
    [document_embeddings] and [system_logs] and the storage bucket, which
    none of the modelled requests touches. *)
Module Backend.

Definition uuid := text.

Inductive app_role : Type := admin | legal_analyst | user.

Inductive legal_domain : Type :=
| criminal | civil | corporate | constitutional | labor | tax | property
| family | environmental | intellectual_property | general.

Definition app_role_eqb (a b : app_role) : bool :=
  match a, b with
  | admin, admin | legal_analyst, legal_analyst | user, user => true
  | _, _ => false
  end.

Record profile : Type := {
  profile_user_id : uuid;
  full_name : option text
}.

Record user_role : Type := {
  user_id : uuid;
  role : app_role
}.

Record legal_document : Type := {
  doc_id : uuid;
  title : text;
  description : option text;
  content : option text;
  file_path : option text;
  domain : legal_domain;
  jurisdiction : option text;
  year : option Z;
  tags : option (list text);
  uploaded_by : option uuid;
  validated : option bool;
  validated_by : option uuid
}.

Record conversation : Type := {
  conv_id : uuid;
  conv_user_id : uuid;
  conv_title : text
}.

Record message : Type := {
  msg_id : uuid;
  conversation_id : uuid;
  msg_role : text;
  msg_content : text;
  sources : option json
}.

Record database : Type := {
  auth_users : list uuid;
  profiles : list profile;
  user_roles : list user_role;
  legal_documents : list legal_document;
  conversations : list conversation;
  messages : list message
}.

Definition empty : database :=
  {| auth_users := []; profiles := []; user_roles := [];
     legal_documents := []; conversations := []; messages := [] |}.

Inductive db_error : Type :=
| NetworkFailure
| RowLevelSecurity
| UniqueViolation
| ForeignKeyViolation
| CheckViolation
| OutOfRange
| InvalidText.

(** What a column of type [TEXT] can hold of a JavaScript string: the
    string reaches the database as JSON, and the conversion refuses the
    character U+0000 and a surrogate that is not part of a pair.  The
    statement fails with that error before any policy or constraint is
    looked at. *)
Definition is_high_surrogate (c : char) : bool :=
  (N.leb 55296 c && N.leb c 56319)%N.

Definition is_low_surrogate (c : char) : bool :=
  (N.leb 56320 c && N.leb c 57343)%N.

Fixpoint valid_text (t : text) : bool :=
  match t with
  | [] => true
  | c :: rest =>
      if N.eqb c 0 then false
      else if is_high_surrogate c then
        match rest with
        | d :: rest' => is_low_surrogate d && valid_text rest'
        | [] => false
        end
      else if is_low_surrogate c then false
      else valid_text rest
  end.

Definition valid_text_or_null (t : option text) : bool :=
  match t with
  | Some x => valid_text x
  | None => true
  end.

(** What a request answers: [{ error }] and the database afterwards. *)
Definition answer : Type := option db_error * database.

Definition uid_eqb (a : option uuid) (b : uuid) : bool :=
  match a with
  | Some x => text_eqb x b
  | None => false
  end.

(** [public.has_role(_user_id, _role)]; a null [_user_id] matches no row. *)
Definition has_role (db : database) (_user_id : option uuid) (_role : app_role)
  : bool :=
  existsb (fun r => uid_eqb _user_id (user_id r) && app_role_eqb (role r) _role)
          (user_roles db).

(** [public.get_user_role(_user_id)]: the highest role. *)
Definition get_user_role (db : database) (_user_id : option uuid)
  : option app_role :=
  if has_role db _user_id admin then Some admin
  else if has_role db _user_id legal_analyst then Some legal_analyst
  else if has_role db _user_id user then Some user
  else None.

Definition is_staff (db : database) (uid : option uuid) : bool :=
  has_role db uid admin || has_role db uid legal_analyst.

Definition known_user (db : database) (u : uuid) : bool :=
  existsb (text_eqb u) (auth_users db).

Definition known_user_or_null (db : database) (u : option uuid) : bool :=
  match u with
  | Some x => known_user db x
  | None => true
  end.

(** The role rows of one user, in table order. *)
Definition roles_of (db : database) (u : uuid) : list app_role :=
  map role (filter (fun r => text_eqb (user_id r) u) (user_roles db)).

(** The messages of one conversation. *)
Definition messages_of (db : database) (c : uuid) : list message :=
  filter (fun m => text_eqb (conversation_id m) c) (messages db).

Definition set_user_roles (rs : list user_role) (db : database) : database :=
  {| auth_users := auth_users db; profiles := profiles db;
     user_roles := rs; legal_documents := legal_documents db;
     conversations := conversations db; messages := messages db |}.

Definition set_legal_documents (ds : list legal_document) (db : database)
  : database :=
  {| auth_users := auth_users db; profiles := profiles db;
     user_roles := user_roles db; legal_documents := ds;
     conversations := conversations db; messages := messages db |}.

Definition set_conversations (cs : list conversation) (ms : list message)
  (db : database) : database :=
  {| auth_users := auth_users db; profiles := profiles db;
     user_roles := user_roles db; legal_documents := legal_documents db;
     conversations := cs; messages := ms |}.

(** *** Sign-up: a row in [auth.users] and the trigger [handle_new_user] *)

(** [handle_new_user] inserts the profile and the role ['user'] in the
    transaction of the sign-up: a violated constraint undoes all of it. *)
Definition sign_up (id : uuid) (name : option text) (db : database) : answer :=
  if known_user db id then (Some UniqueViolation, db)
  else if existsb (fun p => text_eqb (profile_user_id p) id) (profiles db)
  then (Some UniqueViolation, db)
  else if existsb (fun r => text_eqb (user_id r) id && app_role_eqb (role r) user)
                  (user_roles db)
  then (Some UniqueViolation, db)
  else
    (None,
     {| auth_users := auth_users db ++ [id];
        profiles := profiles db ++ [{| profile_user_id := id; full_name := name |}];
        user_roles := user_roles db ++ [{| user_id := id; role := user |}];
        legal_documents := legal_documents db;
        conversations := conversations db;
        messages := messages db |}).

(** *** [user_roles] *)

(** [.from('user_roles').delete().eq('user_id', target)].  Policy
    "Admins can manage all roles": the rows exist for the caller only
    when the caller is an admin; otherwise nothing is deleted, without
    an error. *)
Definition user_roles_delete (auth_uid : option uuid) (target : uuid)
  (db : database) : answer :=
  if has_role db auth_uid admin then
    (None,
     set_user_roles
       (filter (fun r => negb (text_eqb (user_id r) target)) (user_roles db)) db)
  else (None, db).

(** [.from('user_roles').insert({ user_id, role })].  The same policy
    checks the new row; [UNIQUE (user_id, role)]; [user_id] references
    [auth.users]. *)
Definition user_roles_insert (auth_uid : option uuid) (row : user_role)
  (db : database) : answer :=
  if negb (has_role db auth_uid admin) then (Some RowLevelSecurity, db)
  else if negb (known_user db (user_id row)) then (Some ForeignKeyViolation, db)
  else if existsb (fun r => text_eqb (user_id r) (user_id row)
                            && app_role_eqb (role r) (role row))
                  (user_roles db)
  then (Some UniqueViolation, db)
  else (None, set_user_roles (user_roles db ++ [row]) db).

(** *** [legal_documents] *)

(** SQL's three-valued [OR] and the test a policy applies to its result. *)
Definition sql_or (a b : option bool) : option bool :=
  match a, b with
  | Some true, _ | _, Some true => Some true
  | Some false, Some false => Some false
  | _, _ => None
  end.

Definition sql_is_true (a : option bool) : bool :=
  match a with
  | Some true => true
  | _ => false
  end.

(** [uploaded_by = auth.uid()] *)
Definition sql_uuid_eq (a b : option uuid) : option bool :=
  match a, b with
  | Some x, Some y => Some (text_eqb x y)
  | _, _ => None
  end.

(** Policy "All authenticated users can view validated documents":
    [validated = true OR uploaded_by = auth.uid() OR has_role(auth.uid(),
    'admin') OR has_role(auth.uid(), 'legal_analyst')], for the role
    [authenticated]. *)
Definition may_view (db : database) (auth_uid : option uuid)
  (d : legal_document) : bool :=
  match auth_uid with
  | None => false
  | Some _ =>
      sql_is_true
        (sql_or (sql_or (sql_or (validated d)
                                (sql_uuid_eq (uploaded_by d) auth_uid))
                        (Some (has_role db auth_uid admin)))
                (Some (has_role db auth_uid legal_analyst)))
  end.

(** [.from('legal_documents').select('*')]: the rows the policy shows,
    in table order (the [ORDER BY created_at] is not modelled). *)
Definition legal_documents_select (auth_uid : option uuid) (db : database)
  : list legal_document :=
  filter (may_view db auth_uid) (legal_documents db).

Definition int4 (z : Z) : bool :=
  ((-2147483648 <=? z) && (z <=? 2147483647))%Z.

(** The text columns of a document. *)
Definition document_text_valid (row : legal_document) : bool :=
  valid_text (title row)
  && valid_text_or_null (description row)
  && valid_text_or_null (content row)
  && valid_text_or_null (file_path row)
  && valid_text_or_null (jurisdiction row)
  && match tags row with
     | Some ts => forallb valid_text ts
     | None => true
     end.

(** [.from('legal_documents').insert(row)].  The values are converted
    first: the texts, and [year], which is an [INTEGER].  Then policy
    "Admins and analysts can insert documents"; primary key;
    [uploaded_by] and [validated_by] reference [auth.users]. *)
Definition legal_documents_insert (auth_uid : option uuid)
  (row : legal_document) (db : database) : answer :=
  if negb (document_text_valid row) then (Some InvalidText, db)
  else if negb (match year row with Some z => int4 z | None => true end)
  then (Some OutOfRange, db)
  else
    match auth_uid with
    | None => (Some RowLevelSecurity, db)
    | Some _ =>
        if negb (is_staff db auth_uid) then (Some RowLevelSecurity, db)
        else if existsb (fun d => text_eqb (doc_id d) (doc_id row))
                        (legal_documents db)
        then (Some UniqueViolation, db)
        else if negb (known_user_or_null db (uploaded_by row)
                      && known_user_or_null db (validated_by row))
        then (Some ForeignKeyViolation, db)
        else (None, set_legal_documents (legal_documents db ++ [row]) db)
    end.

Definition validate_row (validator : option uuid) (d : legal_document)
  : legal_document :=
  {| doc_id := doc_id d; title := title d; description := description d;
     content := content d; file_path := file_path d; domain := domain d;
     jurisdiction := jurisdiction d; year := year d; tags := tags d;
     uploaded_by := uploaded_by d;
     validated := Some true;
     validated_by := match validator with
                     | Some v => Some v
                     | None => validated_by d
                     end |}.

(** [.update({ validated: true, validated_by }).eq('id', id)]; an
    undefined [validated_by] is not sent.  Policy "Admins and analysts
    can update documents": for anybody else no row matches. *)
Definition legal_documents_validate (auth_uid : option uuid)
  (validator : option uuid) (id : uuid) (db : database) : answer :=
  match auth_uid with
  | None => (None, db)
  | Some _ =>
      if negb (is_staff db auth_uid) then (None, db)
      else if negb (known_user_or_null db validator)
              && existsb (fun d => text_eqb (doc_id d) id) (legal_documents db)
      then (Some ForeignKeyViolation, db)
      else
        (None,
         set_legal_documents
           (map (fun d => if text_eqb (doc_id d) id
                          then validate_row validator d else d)
                (legal_documents db)) db)
  end.

(** [.from('legal_documents').delete().eq('id', id)].  Policy "Admins
    can delete documents". *)
Definition legal_documents_delete (auth_uid : option uuid) (id : uuid)
  (db : database) : answer :=
  match auth_uid with
  | None => (None, db)
  | Some _ =>
      if has_role db auth_uid admin then
        (None,
         set_legal_documents
           (filter (fun d => negb (text_eqb (doc_id d) id))
                   (legal_documents db)) db)
      else (None, db)
  end.

(** *** [conversations] and [messages] *)

(** [.from('conversations').insert({ user_id, title })].  The title is
    converted first.  Policy "Users can create their own conversations". *)
Definition conversations_insert (auth_uid : option uuid) (row : conversation)
  (db : database) : answer :=
  if negb (valid_text (conv_title row)) then (Some InvalidText, db)
  else if negb (uid_eqb auth_uid (conv_user_id row))
  then (Some RowLevelSecurity, db)
  else if existsb (fun c => text_eqb (conv_id c) (conv_id row)) (conversations db)
  then (Some UniqueViolation, db)
  else if negb (known_user db (conv_user_id row))
  then (Some ForeignKeyViolation, db)
  else (None, set_conversations (conversations db ++ [row]) (messages db) db).

(** [.from('conversations').update({ title }).eq('id', id)].  A title
    that cannot be converted fails the statement; otherwise policy "Users
    can update their own conversations" hides the rows of other users,
    and an update that matches no row is no error. *)
Definition conversations_retitle (auth_uid : option uuid) (id : uuid)
  (new_title : text) (db : database) : answer :=
  if negb (valid_text new_title) then (Some InvalidText, db)
  else
    (None,
     set_conversations
       (map (fun c =>
               if text_eqb (conv_id c) id && uid_eqb auth_uid (conv_user_id c)
               then {| conv_id := conv_id c; conv_user_id := conv_user_id c;
                       conv_title := new_title |}
               else c)
            (conversations db))
       (messages db) db).

Definition deleted_by (auth_uid : option uuid) (id : uuid) (c : conversation)
  : bool :=
  text_eqb (conv_id c) id && uid_eqb auth_uid (conv_user_id c).

(** [.from('conversations').delete().eq('id', id)].  Policy "Users can
    delete their own conversations" hides the rows of other users.
    [messages.conversation_id] is declared [ON DELETE CASCADE]: the
    messages of every deleted conversation go with it. *)
Definition conversations_delete (auth_uid : option uuid) (id : uuid)
  (db : database) : answer :=
  let gone := filter (deleted_by auth_uid id) (conversations db) in
  (None,
   set_conversations
     (filter (fun c => negb (deleted_by auth_uid id c)) (conversations db))
     (filter (fun m =>
                negb (existsb (fun c => text_eqb (conv_id c) (conversation_id m))
                              gone))
             (messages db))
     db).

Definition role_check (r : text) : bool :=
  text_eqb r (lit "user") || text_eqb r (lit "assistant")
  || text_eqb r (lit "system").

(** [.from('messages').insert(row)].  The texts are converted first.
    Policy "Users can insert messages in their conversations"; the
    [CHECK] on [role]; the foreign key. *)
Definition messages_insert (auth_uid : option uuid) (row : message)
  (db : database) : answer :=
  if negb (valid_text (msg_role row) && valid_text (msg_content row))
  then (Some InvalidText, db)
  else if negb (existsb (fun c => text_eqb (conv_id c) (conversation_id row)
                             && uid_eqb auth_uid (conv_user_id c))
                   (conversations db))
  then (Some RowLevelSecurity, db)
  else if negb (role_check (msg_role row)) then (Some CheckViolation, db)
  else if existsb (fun m => text_eqb (msg_id m) (msg_id row)) (messages db)
  then (Some UniqueViolation, db)
  else (None, set_conversations (conversations db) (messages db ++ [row]) db).

(** *** Requests *)

(** The statements the pages send, with the identity of the caller. *)
Inductive request : Type :=
| SignUp (id : uuid) (name : option text)
| RolesDelete (auth_uid : option uuid) (target : uuid)
| RolesInsert (auth_uid : option uuid) (row : user_role)
| DocumentsInsert (auth_uid : option uuid) (row : legal_document)
| DocumentsValidate (auth_uid validator : option uuid) (id : uuid)
| DocumentsDelete (auth_uid : option uuid) (id : uuid)
| ConversationsInsert (auth_uid : option uuid) (row : conversation)
| ConversationsRetitle (auth_uid : option uuid) (id : uuid) (new_title : text)
| ConversationsDelete (auth_uid : option uuid) (id : uuid)
| MessagesInsert (auth_uid : option uuid) (row : message).

Definition execute (r : request) (db : database) : answer :=
  match r with
  | SignUp id name => sign_up id name db
  | RolesDelete a target => user_roles_delete a target db
  | RolesInsert a row => user_roles_insert a row db
  | DocumentsInsert a row => legal_documents_insert a row db
  | DocumentsValidate a v id => legal_documents_validate a v id db
  | DocumentsDelete a id => legal_documents_delete a id db
  | ConversationsInsert a row => conversations_insert a row db
  | ConversationsRetitle a id t => conversations_retitle a id t db
  | ConversationsDelete a id => conversations_delete a id db
  | MessagesInsert a row => messages_insert a row db
  end.

(** What the network does to a request: it is carried out and answered,
    it never arrives, or it is carried out and the answer is lost.  The
    client sees an error in the last two cases. *)
Inductive transport : Type :=
| Delivered
| RequestLost
| ResponseLost.

Definition send (t : transport) (r : request) (db : database) : answer :=
  match t with
  | Delivered => execute r db
  | RequestLost => (Some NetworkFailure, db)
  | ResponseLost => (Some NetworkFailure, snd (execute r db))
  end.

(** The databases that arise from [start] by requests. *)
Inductive reachable (start : database) : database -> Prop :=
| reach_start : reachable start start
| reach_step : forall db r,
    reachable start db -> reachable start (snd (execute r db)).

End Backend.
Import Backend.

(* ===================================================================== *)
(** ** The pages *)
(* ===================================================================== *)

Module Views.

(** [useAuth()]: the signed-in user and the role the session store
    resolved.  The requests of a page carry the identity of that user. *)
Record session : Type := {
  session_user : option uuid;
  session_role : option app_role
}.

Definition role_is (r : app_role) (s : session) : bool :=
  match session_role s with
  | Some r' => app_role_eqb r' r
  | None => false
  end.

Inductive toast_text : Type :=
| Plain (t : text)
| BackendMessage (e : db_error).

Record toast : Type := {
  toast_title : text;
  toast_description : option toast_text;
  destructive : bool
}.

Definition is_empty (t : text) : bool := text_eqb t [].

(** [value || null] on a string. *)
Definition or_null (t : text) : option text :=
  if is_empty t then None else Some t.

(** *** The page [Users] *)

(** [handleRoleChange(userId, newRole)].  [net] says what the network
    does to the delete and to the insert.  The [fetchUsers()] after a
    success only reads. *)
Definition handleRoleChange (net : transport * transport) (s : session)
  (userId : uuid) (newRole : app_role) (db : database)
  : database * option toast :=
  if negb (role_is admin s) then (db, None)
  else if uid_eqb (session_user s) userId then
    (db, Some {| toast_title := lit "Cannot change own role";
                 toast_description :=
                   Some (Plain (lit "You cannot change your own role."));
                 destructive := true |})
  else
    match send (fst net) (RolesDelete (session_user s) userId) db with
    | (Some deleteError, db1) =>
        (db1, Some {| toast_title := lit "Error updating role";
                      toast_description := Some (BackendMessage deleteError);
                      destructive := true |})
    | (None, db1) =>
        match send (snd net)
                (RolesInsert (session_user s)
                   {| user_id := userId; role := newRole |}) db1 with
        | (Some insertError, db2) =>
            (db2, Some {| toast_title := lit "Error updating role";
                          toast_description := Some (BackendMessage insertError);
                          destructive := true |})
        | (None, db2) =>
            (db2, Some {| toast_title := lit "Role updated";
                          toast_description :=
                            Some (Plain
                              (lit "User role has been changed to "
                               ++ match newRole with
                                  | admin => lit "admin"
                                  | legal_analyst => lit "legal_analyst"
                                  | user => lit "user"
                                  end ++ lit "."));
                          destructive := false |})
        end
    end.

(** The toast reports a failure. *)
Definition reports_error (t : option toast) : bool :=
  match t with
  | Some x => destructive x
  | None => false
  end.

(** *** The page [Chat] *)

Record chat_view : Type := {
  shown_conversations : list conversation;
  activeConversationId : option uuid
}.

(** [deleteConversation(id)].  The new active conversation is read from
    the list as it was when the handler started. *)
Definition deleteConversation (net : transport) (s : session) (id : uuid)
  (view : chat_view) (db : database) : database * chat_view * option toast :=
  match send net (ConversationsDelete (session_user s) id) db with
  | (Some _, db1) =>
      (db1, view,
       Some {| toast_title := lit "Error";
               toast_description :=
                 Some (Plain (lit "Failed to delete conversation"));
               destructive := true |})
  | (None, db1) =>
      (db1,
       {| shown_conversations :=
            filter (fun c => negb (text_eqb (conv_id c) id))
                   (shown_conversations view);
          activeConversationId :=
            if uid_eqb (activeConversationId view) id then
              match shown_conversations view with
              | c :: _ => or_null (conv_id c)
              | [] => None
              end
            else activeConversationId view |},
       None)
  end.

(** *** The page [Documents] *)

Record upload_form : Type := {
  uploadTitle : text;
  uploadDescription : text;
  uploadDomain : legal_domain;
  uploadJurisdiction : text;
  uploadYear : text;
  uploadTags : text;
  uploadContent : text
}.

Section WithRuntime.
Context {RT : Runtime}.

(** The row [handleUpload] sends; [id] is the key the database
    generates for it. *)
Definition upload_row (id : uuid) (uploader : uuid) (s : session)
  (f : upload_form) : legal_document :=
  {| doc_id := id;
     title := uploadTitle f;
     description := or_null (uploadDescription f);
     content := Some (uploadContent f);
     file_path := None;
     domain := uploadDomain f;
     jurisdiction := or_null (uploadJurisdiction f);
     year := if is_empty (uploadYear f) then None
             else parseInt (uploadYear f);
     tags := if is_empty (uploadTags f) then None
             else Some (map trim (split 44%N (uploadTags f)));
     uploaded_by := Some uploader;
     validated := Some (role_is admin s);
     validated_by := None |}.

(** [handleUpload()] *)
Definition handleUpload (net : transport) (id : uuid) (s : session)
  (f : upload_form) (db : database) : database * toast :=
  match session_user s with
  | Some uploader =>
      if is_empty (uploadTitle f) || is_empty (uploadContent f) then
        (db, {| toast_title := lit "Missing required fields";
                toast_description :=
                  Some (Plain (lit "Please fill in title and content."));
                destructive := true |})
      else
        match send net
                (DocumentsInsert (session_user s) (upload_row id uploader s f))
                db with
        | (Some error, db1) =>
            (db1, {| toast_title := lit "Upload failed";
                     toast_description := Some (BackendMessage error);
                     destructive := true |})
        | (None, db1) =>
            (db1, {| toast_title := lit "Document uploaded";
                     toast_description :=
                       Some (Plain
                         (if role_is admin s
                          then lit "Document has been added and validated."
                          else lit "Document has been added and is pending validation."));
                     destructive := false |})
        end
  | None =>
      (db, {| toast_title := lit "Missing required fields";
              toast_description :=
                Some (Plain (lit "Please fill in title and content."));
              destructive := true |})
  end.

End WithRuntime.

(** [fetchDocuments()]: the list the page shows afterwards; a failed
    request leaves the list as it was. *)
Definition fetchDocuments (net : transport) (s : session)
  (shown : list legal_document) (db : database) : list legal_document :=
  match net with
  | Delivered => legal_documents_select (session_user s) db
  | _ => shown
  end.

End Views.
Import Views.

(* ===================================================================== *)
(** ** Vocabulary of the statements *)
(* ===================================================================== *)

Module Vocabulary.

(** The line with a trailing carriage return removed, as the loop does
    first. *)
Definition strip_cr (line : text) : text :=
  if endsWith CR line then slice_drop_last line else line.

(** Complete lines, each followed by its newline. *)
Definition lines_text (ls : list text) : text :=
  List.concat (map (fun l => l ++ [NL]) ls).

(** A line whose payload is the end marker. *)
Definition is_sentinel_line (l : text) : bool :=
  startsWith (lit "data: ") (strip_cr l)
  && text_eqb (trim (slice_from 6 (strip_cr l))) (lit "[DONE]").

(** A comment line or a blank line. *)
Definition is_comment_line (l : text) : bool := startsWith (lit ":") l.
Definition is_blank_line (l : text) : bool := forallb is_ws l.

(** More text behind the buffer. *)
Definition extend (y : text) (st : parser_state) : parser_state :=
  set_buffer (buffer st ++ y) st.

(** The stream of [N] data lines and a sentinel line. *)
Definition sse_stream (payloads : list text) (sentinel : text) : text :=
  lines_text (map (fun p => lit "data: " ++ p) payloads)
  ++ sentinel ++ [NL].

(** The [i]-th snapshot is the concatenation of the first [i] deltas. *)
Definition snapshots_of (deltas : list text) : list text :=
  map (fun i => List.concat (firstn (S i) deltas)) (seq 0 (List.length deltas)).

Definition nonempty (t : text) : bool := negb (text_eqb t []).

(** The bytes of a text of ASCII characters. *)
Definition ascii_bytes (t : text) : list byte :=
  map (fun c => match Byte.of_N c with Some b => b | None => x00 end) t.

(** The snapshots the deltas [ds] add to the text [acc]: one for each
    delta that is not empty. *)
Fixpoint running_snapshots (acc : text) (ds : list text) : list text :=
  match ds with
  | [] => []
  | d :: rest =>
      if nonempty d then (acc ++ d) :: running_snapshots (acc ++ d) rest
      else running_snapshots acc rest
  end.

Section WithRuntime.
Context {RT : Runtime}.

(** The payload of a well-formed data line: it stays on its line, it
    is not the end marker, it parses, and it carries the text [delta]
    at [choices[0].delta.content]. *)
Definition well_formed_payload (payload delta : text) : Prop :=
  ~ In NL payload
  /\ trim payload <> lit "[DONE]"
  /\ exists parsed,
       JSON_parse (trim payload) = Some parsed
       /\ delta_content parsed = Returned (Val (JStr delta)).

(** The [try] block throws on this payload. *)
Definition throws (jsonStr : text) : bool :=
  match try_block jsonStr initial with
  | Thrown => true
  | Returned _ => false
  end.

(** A data line that is pushed back onto the buffer. *)
Definition is_failing_line (l : text) : bool :=
  startsWith (lit "data: ") (strip_cr l)
  && negb (text_eqb (trim (slice_from 6 (strip_cr l))) (lit "[DONE]"))
  && throws (trim (slice_from 6 (strip_cr l))).

(** The parser fed with the decoded text of one chunk after the other. *)
Definition feed_all (ts : list text) (st : parser_state) : parser_state :=
  fold_left (fun s t => feed t s) ts st.

(** The text each chunk decodes to, the decoder carried along. *)
Fixpoint chunk_texts (d : decoder_state) (chunks : list (list byte))
  : list text :=
  match chunks with
  | [] => []
  | c :: rest => snd (decode d c) :: chunk_texts (fst (decode d c)) rest
  end.

End WithRuntime.

(** Schema constraints the statements rely on: the unique key of
    [user_roles], the primary key of [conversations], and the foreign
    keys of [user_roles], [conversations] and [messages]. *)
Record consistent (db : database) : Prop := {
  roles_unique : NoDup (user_roles db);
  roles_refer : forall r, In r (user_roles db) -> In (user_id r) (auth_users db);
  conversations_key : NoDup (map conv_id (conversations db));
  conversations_refer :
    forall c, In c (conversations db) -> In (conv_user_id c) (auth_users db);
  messages_refer :
    forall m, In m (messages db) ->
              In (conversation_id m) (map conv_id (conversations db))
}.

End Vocabulary.
Import Vocabulary.

(* ===================================================================== *)
(** ** More of the pages *)
(* ===================================================================== *)

(** The rest of what the pages do with the database and with their own
    state: the other handlers of [Chat], [Users] and [Documents], and the
    navigation of the layout.  Effects that re-fetch after a change of
    state are not part of the handlers and are not modelled. *)
Module Pages.

(** [s.includes(needle)] *)
Fixpoint includes (needle hay : text) : bool :=
  match hay with
  | [] => startsWith needle []
  | _ :: rest => startsWith needle hay || includes needle rest
  end.

(** *** The layout *)

Record nav_item : Type := {
  nav_path : text;
  nav_label : text;
  nav_roles : list app_role
}.

Definition navItems : list nav_item :=
  [ {| nav_path := lit "/chat"; nav_label := lit "Chat";
       nav_roles := [user; legal_analyst; admin] |};
    {| nav_path := lit "/documents"; nav_label := lit "Documents";
       nav_roles := [legal_analyst; admin] |};
    {| nav_path := lit "/users"; nav_label := lit "Users";
       nav_roles := [admin] |};
    {| nav_path := lit "/logs"; nav_label := lit "System Logs";
       nav_roles := [admin] |} ].

(** [navItems.filter((item) => role && item.roles.includes(role))] *)
Definition visibleNavItems (role : option app_role) : list nav_item :=
  filter (fun item =>
            match role with
            | Some r => existsb (app_role_eqb r) (nav_roles item)
            | None => false
            end)
         navItems.

(** *** The page [Users] *)

Record listed_user : Type := {
  lu_id : uuid;
  lu_email : text;
  lu_full_name : option text;
  lu_role : app_role
}.

(** [.from('profiles').select(...)]: policies "Users can view their own
    profile" and "Admins can view all profiles". *)
Definition profiles_select (auth_uid : option uuid) (db : database)
  : list profile :=
  filter (fun p => uid_eqb auth_uid (profile_user_id p)
                   || has_role db auth_uid admin)
         (profiles db).

(** [.from('user_roles').select(...)]: policies "Users can view their
    own roles" and "Admins can manage all roles". *)
Definition user_roles_select (auth_uid : option uuid) (db : database)
  : list user_role :=
  filter (fun r => uid_eqb auth_uid (user_id r) || has_role db auth_uid admin)
         (user_roles db).

(** [roles?.find((r) => r.user_id === profile.user_id)] *)
Definition find_role (roles : list user_role) (u : uuid) : option user_role :=
  find (fun r => text_eqb (user_id r) u) roles.

(** [fetchUsers()]: the list the page shows afterwards.  [net] says what
    the network does to the two reads; a failed read leaves the list as
    it was. *)
Definition fetchUsers (net : transport * transport) (s : session)
  (shown : list listed_user) (db : database) : list listed_user :=
  match fst net with
  | Delivered =>
      match snd net with
      | Delivered =>
          map (fun p =>
                 {| lu_id := profile_user_id p;
                    lu_email := [];
                    lu_full_name := full_name p;
                    lu_role :=
                      match find_role (user_roles_select (session_user s) db)
                              (profile_user_id p) with
                      | Some r => role r
                      | None => user
                      end |})
              (profiles_select (session_user s) db)
      | _ => shown
      end
  | _ => shown
  end.

(** [roleStats]: the three counters of the page. *)
Definition count_role (r : app_role) (users : list listed_user) : nat :=
  List.length (filter (fun u => app_role_eqb (lu_role u) r) users).

(** *** The page [Documents] *)

Definition toast_of_error (title_text : text) (e : db_error) : toast :=
  {| toast_title := title_text;
     toast_description := Some (BackendMessage e);
     destructive := true |}.

(** [handleValidate(id)] *)
Definition handleValidate (net : transport) (s : session) (id : uuid)
  (db : database) : database * option toast :=
  if negb (role_is admin s) && negb (role_is legal_analyst s) then (db, None)
  else
    match send net
            (DocumentsValidate (session_user s) (session_user s) id) db with
    | (Some error, db1) => (db1, Some (toast_of_error (lit "Validation failed") error))
    | (None, db1) =>
        (db1, Some {| toast_title := lit "Document validated";
                      toast_description :=
                        Some (Plain
                          (lit "The document is now available for AI responses."));
                      destructive := false |})
    end.

(** [handleDelete(id)] *)
Definition handleDelete (net : transport) (s : session) (id : uuid)
  (db : database) : database * option toast :=
  if negb (role_is admin s) then (db, None)
  else
    match send net (DocumentsDelete (session_user s) id) db with
    | (Some error, db1) => (db1, Some (toast_of_error (lit "Delete failed") error))
    | (None, db1) =>
        (db1, Some {| toast_title := lit "Document deleted";
                      toast_description := None;
                      destructive := false |})
    end.

(** The names of the enum [legal_domain], as the rows carry them. *)
Definition domain_name (d : legal_domain) : text :=
  match d with
  | criminal => lit "criminal"
  | civil => lit "civil"
  | corporate => lit "corporate"
  | constitutional => lit "constitutional"
  | labor => lit "labor"
  | tax => lit "tax"
  | property => lit "property"
  | family => lit "family"
  | environmental => lit "environmental"
  | intellectual_property => lit "intellectual_property"
  | general => lit "general"
  end.

Section Search.

(** [String.prototype.toLowerCase], taken from the runtime. *)
Variable toLowerCase : text -> text.

(** [filteredDocuments] *)
Definition filteredDocuments (searchQuery filterDomain : text)
  (documents : list legal_document) : list legal_document :=
  filter (fun doc =>
            let matchesSearch :=
              includes (toLowerCase searchQuery) (toLowerCase (title doc))
              || match description doc with
                 | Some d => includes (toLowerCase searchQuery) (toLowerCase d)
                 | None => false
                 end in
            let matchesDomain :=
              text_eqb filterDomain (lit "all")
              || text_eqb (domain_name (domain doc)) filterDomain in
            matchesSearch && matchesDomain)
         documents.

(** [filteredUsers] *)
Definition filteredUsers (searchQuery : text) (users : list listed_user)
  : list listed_user :=
  filter (fun u =>
            match lu_full_name u with
            | Some n => includes (toLowerCase searchQuery) (toLowerCase n)
            | None => false
            end
            || includes (toLowerCase searchQuery) (toLowerCase (lu_id u)))
         users.

End Search.

(** *** The page [Chat] *)

(** A message as the page holds it.  [ui_role] is the column [role] of
    the row, cast but not checked. *)
Record ui_message : Type := {
  ui_id : uuid;
  ui_role : text;
  ui_content : text;
  ui_sources : option json;
  ui_created_at : text
}.

Definition with_content (c : text) (m : ui_message) : ui_message :=
  {| ui_id := ui_id m; ui_role := ui_role m; ui_content := c;
     ui_sources := ui_sources m; ui_created_at := ui_created_at m |}.

(** [prev.map((m, i) => i === prev.length - 1 ? { ...m, content } : m)] *)
Fixpoint replace_last_content (c : text) (prev : list ui_message)
  : list ui_message :=
  match prev with
  | [] => []
  | [m] => [with_content c m]
  | m :: rest => m :: replace_last_content c rest
  end.

(** The updater [sendMessage] passes to [setMessages] for a snapshot.
    [id] and [now] are what [crypto.randomUUID()] and the clock give when
    it runs; [assistantContent] is the value it finds in the variable. *)
Definition show_snapshot (id : uuid) (now : text) (assistantContent : text)
  (prev : list ui_message) : list ui_message :=
  let fresh_message :=
    {| ui_id := id; ui_role := lit "assistant";
       ui_content := assistantContent; ui_sources := None;
       ui_created_at := now |} in
  match last (map Some prev) None with
  | Some m =>
      if text_eqb (ui_role m) (lit "assistant")
      then replace_last_content assistantContent prev
      else prev ++ [fresh_message]
  | None => prev ++ [fresh_message]
  end.

(** The updaters of a reply, run in order; the [k]-th finds [fresh k]. *)
Fixpoint show_snapshots (fresh : nat -> uuid * text) (k : nat)
  (contents : list text) (prev : list ui_message) : list ui_message :=
  match contents with
  | [] => prev
  | c :: rest =>
      show_snapshots fresh (S k) rest
        (show_snapshot (fst (fresh k)) (snd (fresh k)) c prev)
  end.

(** [.from('messages').select('*').eq('conversation_id', id)]: policy
    "Users can view messages in their conversations".  The rows come in
    table order, oldest first, which is the order of [created_at]. *)
Definition messages_select (auth_uid : option uuid) (id : uuid) (db : database)
  : list message :=
  filter (fun m =>
            text_eqb (conversation_id m) id
            && existsb (fun c => text_eqb (conv_id c) (conversation_id m)
                                 && uid_eqb auth_uid (conv_user_id c))
                       (conversations db))
         (messages db).

(** The state of the page: the conversation list with the active id, the
    messages shown and the two flags. *)
Record chat_page : Type := {
  page_view : chat_view;
  shown_messages : list ui_message;
  isLoading : bool;
  isStreaming : bool
}.

Definition error_toast (description : text) : toast :=
  {| toast_title := lit "Error";
     toast_description := Some (Plain description);
     destructive := true |}.

(** [createNewConversation()]; [key] is the id the database generates.
    The insert asks for the new row back ([.select().single()]). *)
Definition createNewConversation (net : transport) (key : uuid) (s : session)
  (page : chat_page) (db : database) : database * chat_page * option toast :=
  match session_user s with
  | None => (db, page, None)
  | Some uid =>
      let row := {| conv_id := key; conv_user_id := uid;
                    conv_title := lit "New Conversation" |} in
      match send net (ConversationsInsert (Some uid) row) db with
      | (Some _, db1) =>
          (db1, page, Some (error_toast (lit "Failed to create conversation")))
      | (None, db1) =>
          (db1,
           {| page_view :=
                {| shown_conversations :=
                     row :: shown_conversations (page_view page);
                   activeConversationId := Some key |};
              shown_messages := [];
              isLoading := isLoading page;
              isStreaming := isStreaming page |},
           None)
      end
  end.

(** What [sendMessage] takes from outside: what the network does to its
    four requests, the keys the database generates, the id and the time
    given to the user's message, what the updaters find, and the answer
    to [fetch]. *)
Record send_env : Type := {
  net_create : transport;
  net_save_user : transport;
  net_retitle : transport;
  net_save_assistant : transport;
  conversation_key : uuid;
  user_row_key : uuid;
  assistant_row_key : uuid;
  user_message_id : uuid;
  now : text;
  fresh : nat -> uuid * text;
  fetch_answer : fetched
}.

(** [content.slice(0, 50) + (content.length > 50 ? '...' : '')] *)
Definition first_message_title (content : text) : text :=
  slice_to 50 content
  ++ (if Nat.ltb 50 (List.length content) then lit "..." else []).

Definition retitle_shown (id : uuid) (new_title : text) (view : chat_view)
  : chat_view :=
  {| shown_conversations :=
       map (fun c => if text_eqb (conv_id c) id
                     then {| conv_id := conv_id c; conv_user_id := conv_user_id c;
                             conv_title := new_title |}
                     else c)
           (shown_conversations view);
     activeConversationId := activeConversationId view |}.

Section WithRuntime.
Context {RT : Runtime}.

(** [sendMessage(content)] from the conversation on: [view1] and [db1]
    are the view and the database once the conversation [conversationId]
    is there. *)
Definition sendMessage_in (env : send_env) (uid : uuid) (content : text)
  (page : chat_page) (conversationId : uuid) (view1 : chat_view)
  (db1 : database) : database * chat_page * list toast :=
  let userMessage :=
    {| ui_id := user_message_id env; ui_role := lit "user";
       ui_content := content; ui_sources := None;
       ui_created_at := now env |} in
  let db2 :=
    snd (send (net_save_user env)
           (MessagesInsert (Some uid)
              {| msg_id := user_row_key env; conversation_id := conversationId;
                 msg_role := lit "user"; msg_content := content;
                 sources := None |}) db1) in
  let first := Nat.eqb (List.length (shown_messages page)) 0 in
  let db3 :=
    if first then
      snd (send (net_retitle env)
             (ConversationsRetitle (Some uid) conversationId
                (first_message_title content)) db2)
    else db2 in
  let view3 :=
    if first then retitle_shown conversationId (first_message_title content) view1
    else view1 in
  let reply := stream_reply (fetch_answer env) in
  let db4 :=
    match saved reply with
    | Some assistantContent =>
        snd (send (net_save_assistant env)
               (MessagesInsert (Some uid)
                  {| msg_id := assistant_row_key env;
                     conversation_id := conversationId;
                     msg_role := lit "assistant";
                     msg_content := assistantContent;
                     sources := None |}) db3)
    | None => db3
    end in
  (db4,
   {| page_view := view3;
      shown_messages :=
        show_snapshots (fresh env) 0 (snapshots reply)
          (shown_messages page ++ [userMessage]);
      isLoading := false;
      isStreaming := false |},
   match toast_error reply with
   | Some message => [error_toast message]
   | None => []
   end).

(** [sendMessage(content)] *)
Definition sendMessage (env : send_env) (s : session) (content : text)
  (page : chat_page) (db : database) : database * chat_page * list toast :=
  match session_user s with
  | None => (db, page, [])
  | Some uid =>
      match match activeConversationId (page_view page) with
            | Some id => or_null id
            | None => None
            end with
      | Some conversationId =>
          sendMessage_in env uid content page conversationId (page_view page) db
      | None =>
          let row := {| conv_id := conversation_key env; conv_user_id := uid;
                        conv_title := slice_to 50 content ++ lit "..." |} in
          match send (net_create env) (ConversationsInsert (Some uid) row) db with
          | (Some _, db1) =>
              (db1, page, [error_toast (lit "Failed to create conversation")])
          | (None, db1) =>
              sendMessage_in env uid content page (conversation_key env)
                {| shown_conversations :=
                     row :: shown_conversations (page_view page);
                   activeConversationId := Some (conversation_key env) |}
                db1
          end
      end
  end.

End WithRuntime.

End Pages.
Import Pages.

(* ===================================================================== *)
(** ** More vocabulary *)
(* ===================================================================== *)

Module Vocabulary2.

(** The line is a data line for the loop. *)
Definition is_data_line (l : text) : bool :=
  startsWith (lit "data: ") (strip_cr l).

(** Each text of the list continues the one before it, the first one
    continues [start]. *)
Fixpoint each_extends (start : text) (l : list text) : Prop :=
  match l with
  | [] => True
  | x :: rest => (exists d, x = start ++ d) /\ each_extends x rest
  end.

(** The snapshots continue one another, and the text is the last of
    them. *)
Definition chain (st : parser_state) : Prop :=
  each_extends [] (emitted st)
  /\ assistantContent st = last (emitted st) [].

(** Who sends the request; a sign-up is sent by nobody who is signed
    in. *)
Definition caller_of (r : request) : option uuid :=
  match r with
  | SignUp _ _ => None
  | RolesDelete a _ | RolesInsert a _ | DocumentsInsert a _
  | DocumentsValidate a _ _ | DocumentsDelete a _
  | ConversationsInsert a _ | ConversationsRetitle a _ _
  | ConversationsDelete a _ | MessagesInsert a _ => a
  end.

(** The order of [get_user_role]: [admin] first. *)
Definition rank (r : app_role) : nat :=
  match r with
  | admin => 1
  | legal_analyst => 2
  | user => 3
  end.

(** Neither the first nor the last character is white space. *)
Definition trimmed (t : text) : Prop :=
  match t with
  | [] => True
  | c :: _ => is_ws c = false /\ is_ws (last t c) = false
  end.

End Vocabulary2.
Import Vocabulary2.

(* ===================================================================== *)
(** * Properties *)
(* ===================================================================== *)

(** ** Strings *)

Lemma text_eqb_spec (a b : text) : text_eqb a b = true <-> a = b.
Proof.
  revert b; induction a as [|x a IH]; intros [|y b]; simpl;
    try (split; [discriminate | congruence]); try tauto.
  rewrite andb_true_iff, N.eqb_eq, IH.
  split; [intros [-> ->]; reflexivity | intros H; inversion H; auto].
Qed.

Lemma text_eqb_refl (a : text) : text_eqb a a = true.
Proof. apply text_eqb_spec; reflexivity. Qed.

Lemma text_eqb_neq (a b : text) : text_eqb a b = false <-> a <> b.
Proof.
  rewrite <- text_eqb_spec. destruct (text_eqb a b); split; congruence.
Qed.

Lemma text_eqb_sym (a b : text) : text_eqb a b = text_eqb b a.
Proof.
  destruct (text_eqb a b) eqn:E.
  - apply text_eqb_spec in E; subst; symmetry; apply text_eqb_refl.
  - destruct (text_eqb b a) eqn:E'; auto.
    apply text_eqb_spec in E'; subst; rewrite text_eqb_refl in E; discriminate.
Qed.

Lemma indexOf_notin (c : char) (s : text) : ~ In c s -> indexOf c s = None.
Proof.
  induction s as [|x s IH]; simpl; intros H; [reflexivity|].
  destruct (N.eqb_spec x c) as [->|Hne]; [exfalso; apply H; auto|].
  rewrite IH; [reflexivity | intros Hin; apply H; auto].
Qed.

Lemma indexOf_None_notin (c : char) (s : text) : indexOf c s = None -> ~ In c s.
Proof.
  induction s as [|x s IH]; simpl; [tauto|].
  destruct (N.eqb_spec x c) as [->|Hne]; [discriminate|].
  destruct (indexOf c s); simpl; [discriminate|].
  intros _ [H|H]; [congruence | apply IH; auto].
Qed.

Lemma indexOf_first (c : char) (l r : text) :
  ~ In c l -> indexOf c (l ++ c :: r) = Some (List.length l).
Proof.
  induction l as [|x l IH]; simpl; intros H.
  - rewrite N.eqb_refl; reflexivity.
  - destruct (N.eqb_spec x c) as [->|Hne]; [exfalso; apply H; auto|].
    rewrite IH; [reflexivity | intros Hin; apply H; auto].
Qed.

Lemma indexOf_Some_split (c : char) (s : text) (i : nat) :
  indexOf c s = Some i ->
  s = firstn i s ++ c :: skipn (S i) s /\ ~ In c (firstn i s).
Proof.
  revert i; induction s as [|x s IH]; simpl; intros i; [discriminate|].
  destruct (N.eqb_spec x c) as [->|Hne].
  - intros H; injection H as <-; simpl; split; [reflexivity | tauto].
  - destruct (indexOf c s) as [j|]; simpl; [|discriminate].
    intros H; injection H as <-.
    destruct (IH j eq_refl) as [Hs Hn]; simpl; split.
    + f_equal; exact Hs.
    + intros [H|H]; [congruence | exact (Hn H)].
Qed.

Lemma firstn_line (l r : text) (c : char) :
  firstn (List.length l) (l ++ c :: r) = l.
Proof.
  rewrite firstn_app, Nat.sub_diag, firstn_all; simpl; apply app_nil_r.
Qed.

Lemma skipn_line (l r : text) (c : char) :
  skipn (S (List.length l)) (l ++ c :: r) = r.
Proof.
  induction l as [|x l IH]; simpl; [reflexivity | exact IH].
Qed.

(** *** [trim] *)

Lemma trimStart_all_ws (s : text) : forallb is_ws s = true -> trimStart s = [].
Proof.
  induction s as [|c s IH]; simpl; [reflexivity|].
  destruct (is_ws c); simpl; [exact IH | discriminate].
Qed.

Lemma trimStart_nil_all_ws (s : text) : trimStart s = [] -> forallb is_ws s = true.
Proof.
  induction s as [|c s IH]; simpl; [reflexivity|].
  destruct (is_ws c); simpl; [exact IH | discriminate].
Qed.

Lemma trim_all_ws (s : text) : forallb is_ws s = true -> trim s = [].
Proof.
  intros H; unfold trim, trimEnd; rewrite (trimStart_all_ws s H); reflexivity.
Qed.

Lemma trimStart_app_ws (s : text) (c : char) :
  is_ws c = true ->
  trimStart (s ++ [c]) = match trimStart s with [] => [] | t => t ++ [c] end.
Proof.
  intros Hc; induction s as [|x s IH]; simpl.
  - rewrite Hc; reflexivity.
  - destruct (is_ws x); [exact IH | reflexivity].
Qed.

(** A trailing white-space character does not survive [trim]. *)
Lemma trim_app_ws (s : text) (c : char) : is_ws c = true -> trim (s ++ [c]) = trim s.
Proof.
  intros Hc; unfold trim, trimEnd.
  rewrite (trimStart_app_ws s c Hc).
  destruct (trimStart s) as [|y t]; [reflexivity|].
  rewrite rev_app_distr; simpl rev at 1; simpl app.
  simpl trimStart at 1. rewrite Hc. reflexivity.
Qed.

Lemma trim_cons_not_ws (c : char) (s : text) : is_ws c = false -> trim (c :: s) <> [].
Proof.
  intros Hc; unfold trim, trimEnd; simpl trimStart at 2; rewrite Hc.
  intros H. apply (f_equal (@rev char)) in H; rewrite rev_involutive in H.
  simpl in H. apply trimStart_nil_all_ws in H.
  rewrite forallb_app in H; apply andb_true_iff in H; destruct H as [_ H].
  simpl in H; rewrite Hc in H; discriminate.
Qed.

Lemma endsWith_last (c : char) (s : text) :
  endsWith c s = true -> s = removelast s ++ [c].
Proof.
  induction s as [|x s IH]; [discriminate|].
  destruct s as [|y s].
  - simpl; intros H; apply N.eqb_eq in H; subst; reflexivity.
  - intros H. change (endsWith c (x :: y :: s)) with (endsWith c (y :: s)) in H.
    change (removelast (x :: y :: s)) with (x :: removelast (y :: s)).
    simpl; f_equal; exact (IH H).
Qed.

Lemma endsWith_app_last (c : char) (s : text) : endsWith c (s ++ [c]) = true.
Proof.
  induction s as [|x s IH]; simpl; [apply N.eqb_refl|].
  destruct (s ++ [c]) eqn:E; [destruct s; discriminate | exact IH].
Qed.

(** ** The inner loop *)

Section LoopFacts.
Context {RT : Runtime}.

Lemma set_buffer_same (st : parser_state) : set_buffer (buffer st) st = st.
Proof. destruct st; reflexivity. Qed.

Lemma set_buffer_twice (a b : text) (st : parser_state) :
  set_buffer a (set_buffer b st) = set_buffer a st.
Proof. reflexivity. Qed.

Lemma extend_nil (st : parser_state) : extend [] st = st.
Proof. unfold extend; rewrite app_nil_r; apply set_buffer_same. Qed.

Lemma extend_extend (a b : text) (st : parser_state) :
  extend b (extend a st) = extend (a ++ b) st.
Proof. unfold extend, set_buffer; simpl; rewrite app_assoc; reflexivity. Qed.

(** The [try] block leaves the buffer alone, and whether it throws does
    not depend on the state. *)
Lemma try_block_buffer (j : text) (st st' : parser_state) :
  try_block j st = Returned st' -> buffer st' = buffer st.
Proof.
  unfold try_block.
  destruct (JSON_parse j) as [parsed|]; [|discriminate].
  destruct (delta_content parsed) as [content|]; [|discriminate].
  destruct (truthy content); [|intros H; injection H as <-; reflexivity].
  destruct content as [|v]; [intros H; injection H as <-; reflexivity|].
  destruct (ToString v); [|discriminate].
  intros H; injection H as <-; reflexivity.
Qed.

Lemma try_block_set_buffer (j b : text) (st : parser_state) :
  try_block j (set_buffer b st)
  = match try_block j st with
    | Returned st' => Returned (set_buffer b st')
    | Thrown => Thrown
    end.
Proof.
  unfold try_block.
  destruct (JSON_parse j) as [parsed|]; [|reflexivity].
  destruct (delta_content parsed) as [content|]; [|reflexivity].
  destruct (truthy content); [|reflexivity].
  destruct content as [|v]; [reflexivity|].
  destruct (ToString v); reflexivity.
Qed.

Lemma loop_body_set_buffer (l b : text) (st : parser_state) :
  loop_body l (set_buffer b st)
  = match loop_body l st with
    | (Continue, st') => (Continue, set_buffer b st')
    | (Break Sentinel, st') => (Break Sentinel, set_buffer b st')
    | (Break why, st') => (Break why, set_buffer (strip_cr l ++ NL :: b) st')
    end.
Proof.
  unfold loop_body, strip_cr.
  destruct (_ || _); [reflexivity|].
  destruct (negb _); [reflexivity|].
  destruct (text_eqb _ (lit "[DONE]")); [reflexivity|].
  rewrite try_block_set_buffer.
  destruct (try_block _ st); reflexivity.
Qed.

Lemma loop_body_continue_buffer (l : text) (st st' : parser_state) :
  loop_body l st = (Continue, st') -> buffer st' = buffer st.
Proof.
  unfold loop_body.
  destruct (_ || _); [intros H; injection H as <-; reflexivity|].
  destruct (negb _); [intros H; injection H as <-; reflexivity|].
  destruct (text_eqb _ (lit "[DONE]")); [discriminate|].
  destruct (try_block _ st) eqn:E; [|discriminate].
  intros H; injection H as <-. eapply try_block_buffer; eauto.
Qed.

(** *** The loop equation *)

Lemma skipn_newline_shorter (b : text) (i : nat) :
  indexOf NL b = Some i -> S (List.length (skipn (S i) b)) <= List.length b.
Proof.
  intros Ei. destruct (indexOf_Some_split _ _ _ Ei) as [Hs _].
  rewrite Hs at 2. rewrite length_app; simpl; lia.
Qed.

Lemma drain_fuel_enough (n m : nat) (st : parser_state) :
  List.length (buffer st) <= n -> List.length (buffer st) <= m ->
  drain_fuel n st = drain_fuel m st.
Proof.
  revert m st; induction n as [|n IH]; intros m st Hn Hm.
  - destruct (buffer st) eqn:E; [|simpl in Hn; lia].
    destruct m; simpl; rewrite E; reflexivity.
  - destruct m as [|m].
    + destruct (buffer st) eqn:E; [|simpl in Hm; lia].
      simpl; rewrite E; reflexivity.
    + cbn [drain_fuel]. destruct (indexOf NL (buffer st)) as [i|] eqn:Ei; [|reflexivity].
      cbv zeta. destruct (loop_body _ _) as [[|why] st2] eqn:Eb; [|reflexivity].
      apply loop_body_continue_buffer in Eb; cbn [buffer set_buffer] in Eb.
      pose proof (skipn_newline_shorter _ _ Ei) as Hlen.
      apply IH; rewrite Eb; unfold slice_from; lia.
Qed.

(** [drain] is the loop of the source. *)
Lemma drain_unfold (st : parser_state) :
  drain st =
  match indexOf NL (buffer st) with
  | None => (NoNewline, st)
  | Some newlineIndex =>
      let line := slice_to newlineIndex (buffer st) in
      let st1 := set_buffer (slice_from (S newlineIndex) (buffer st)) st in
      match loop_body line st1 with
      | (Continue, st2) => drain st2
      | (Break why, st2) => (why, st2)
      end
  end.
Proof.
  unfold drain.
  destruct (indexOf NL (buffer st)) as [i|] eqn:Ei.
  - pose proof (skipn_newline_shorter _ _ Ei) as Hlen.
    destruct (List.length (buffer st)) as [|n] eqn:El; [lia|].
    cbn [drain_fuel]. rewrite Ei. cbv zeta.
    destruct (loop_body _ _) as [[|why] st2] eqn:Eb; [|reflexivity].
    apply loop_body_continue_buffer in Eb; cbn [buffer set_buffer] in Eb.
    apply drain_fuel_enough; rewrite Eb; unfold slice_from; lia.
  - destruct (List.length (buffer st)); simpl; rewrite Ei; reflexivity.
Qed.

End LoopFacts.

(** ** Lines *)

Lemma startsWith_split (p x : text) :
  startsWith p x = true -> x = p ++ skipn (List.length p) x.
Proof.
  revert x; induction p as [|a p IH]; intros [|b x]; simpl; try discriminate;
    try reflexivity.
  rewrite andb_true_iff, N.eqb_eq. intros [-> H]. f_equal; exact (IH x H).
Qed.

Lemma startsWith_app (p x : text) : startsWith p (p ++ x) = true.
Proof.
  induction p as [|a p IH]; simpl; [reflexivity|].
  rewrite N.eqb_refl; exact IH.
Qed.

Lemma startsWith_app_last (p x : text) (c : char) :
  ~ In c p -> startsWith p (x ++ [c]) = true -> startsWith p x = true.
Proof.
  revert x; induction p as [|a p IH]; intros x Hc; [reflexivity|].
  destruct x as [|b x]; simpl.
  - rewrite andb_true_iff, N.eqb_eq. intros [-> _]. exfalso; apply Hc; left; reflexivity.
  - rewrite !andb_true_iff. intros [Hab H]; split; [exact Hab|].
    apply IH; [intros Hin; apply Hc; right; exact Hin | exact H].
Qed.

Lemma strip_cr_cases (l : text) :
  strip_cr l = l \/ l = strip_cr l ++ [CR].
Proof.
  unfold strip_cr, slice_drop_last.
  destruct (endsWith CR l) eqn:E; [right; apply endsWith_last; exact E | left; reflexivity].
Qed.

Lemma strip_cr_no_newline (l : text) : ~ In NL l -> ~ In NL (strip_cr l).
Proof.
  intros H Hin. destruct (strip_cr_cases l) as [E|E].
  - rewrite E in Hin; exact (H Hin).
  - apply H. rewrite E. apply in_or_app; left; exact Hin.
Qed.

Lemma not_CR_in_data : ~ In CR (lit "data: ").
Proof. cbv. intuition discriminate. Qed.

Lemma not_CR_in_colon : ~ In CR (lit ":").
Proof. cbv. intuition discriminate. Qed.

Lemma startsWith_strip_cr (p l : text) :
  ~ In CR p -> startsWith p l = true -> startsWith p (strip_cr l) = true.
Proof.
  intros Hp H. destruct (strip_cr_cases l) as [E|E]; [rewrite E; exact H|].
  rewrite E in H. eapply startsWith_app_last; eauto.
Qed.

Lemma data_line_not_skipped (x : text) :
  startsWith (lit "data: ") x = true ->
  startsWith (lit ":") x || text_eqb (trim x) [] = false.
Proof.
  intros H. pose proof (startsWith_split _ _ H) as E.
  rewrite E. change (lit "data: " ++ skipn (List.length (lit "data: ")) x)
    with (100%N :: (lit "ata: " ++ skipn 6 x)).
  apply orb_false_iff; split; [reflexivity|].
  apply text_eqb_neq. apply trim_cons_not_ws. reflexivity.
Qed.

(** The payload read off a line does not depend on a trailing carriage
    return. *)
Lemma strip_cr_payload (x : text) :
  startsWith (lit "data: ") x = true ->
  startsWith (lit "data: ") (strip_cr x) = true
  /\ trim (slice_from 6 (strip_cr x)) = trim (slice_from 6 x).
Proof.
  intros Hs.
  assert (Hs2 : startsWith (lit "data: ") (strip_cr x) = true).
  { apply startsWith_strip_cr; [exact not_CR_in_data | exact Hs]. }
  split; [exact Hs2|].
  destruct (strip_cr_cases x) as [E|E]; [rewrite E; reflexivity|].
  revert Hs2 E. generalize (strip_cr x) as y. intros y Hs2 E.
  pose proof (startsWith_split _ _ Hs2) as Eq.
  set (q := skipn (List.length (lit "data: ")) y) in *.
  subst x. rewrite Eq. unfold slice_from. rewrite <- app_assoc.
  change (skipn 6 (lit "data: " ++ q ++ [CR])) with (q ++ [CR]).
  change (skipn 6 (lit "data: " ++ q)) with q.
  symmetry. apply trim_app_ws. reflexivity.
Qed.

Lemma payload_of_data_line (p : text) :
  startsWith (lit "data: ") (strip_cr (lit "data: " ++ p)) = true
  /\ trim (slice_from 6 (strip_cr (lit "data: " ++ p))) = trim p.
Proof.
  destruct (strip_cr_payload (lit "data: " ++ p) (startsWith_app _ _)) as [H1 H2].
  split; [exact H1 | rewrite H2; reflexivity].
Qed.

(** ** What one iteration does with a line *)

Section LineFacts.
Context {RT : Runtime}.

Lemma loop_body_strip (l : text) (st : parser_state) :
  loop_body l st =
  let line := strip_cr l in
  if startsWith (lit ":") line || text_eqb (trim line) [] then (Continue, st)
  else if negb (startsWith (lit "data: ") line) then (Continue, st)
  else
    let jsonStr := trim (slice_from 6 line) in
    if text_eqb jsonStr (lit "[DONE]") then (Break Sentinel, st)
    else
      match try_block jsonStr st with
      | Returned st' => (Continue, st')
      | Thrown => (Break ParseFailure, set_buffer (line ++ NL :: buffer st) st)
      end.
Proof. reflexivity. Qed.

(** Comment lines and blank lines are skipped. *)
Lemma loop_body_skip (l : text) (st : parser_state) :
  is_comment_line l = true \/ is_blank_line l = true ->
  loop_body l st = (Continue, st).
Proof.
  intros H. rewrite loop_body_strip. cbv zeta.
  assert (E : startsWith (lit ":") (strip_cr l)
              || text_eqb (trim (strip_cr l)) [] = true).
  { destruct H as [H|H].
    - apply orb_true_iff; left.
      apply startsWith_strip_cr; [exact not_CR_in_colon | exact H].
    - apply orb_true_iff; right. apply text_eqb_spec. apply trim_all_ws.
      unfold is_blank_line in H.
      destruct (strip_cr_cases l) as [E|E]; [rewrite E; exact H|].
      rewrite E in H. rewrite forallb_app in H.
      apply andb_true_iff in H; tauto. }
  rewrite E. reflexivity.
Qed.

(** The sentinel line breaks the loop, and only it does so this way. *)
Lemma loop_body_sentinel (l : text) (st : parser_state) :
  is_sentinel_line l = true -> loop_body l st = (Break Sentinel, st).
Proof.
  unfold is_sentinel_line. rewrite andb_true_iff. intros [Hs Hd].
  rewrite loop_body_strip. cbv zeta.
  rewrite (data_line_not_skipped _ Hs), Hs, Hd. reflexivity.
Qed.

Lemma loop_body_sentinel_inv (l : text) (st st' : parser_state) :
  loop_body l st = (Break Sentinel, st') -> is_sentinel_line l = true.
Proof.
  rewrite loop_body_strip. cbv zeta. unfold is_sentinel_line.
  destruct (_ || _); [discriminate|].
  destruct (startsWith (lit "data: ") (strip_cr l)); [|discriminate].
  simpl negb. cbv iota.
  destruct (text_eqb _ (lit "[DONE]")); [reflexivity|].
  destruct (try_block _ st); discriminate.
Qed.

Lemma throws_spec (j : text) (st : parser_state) :
  throws j = true <-> try_block j st = Thrown.
Proof.
  unfold throws.
  replace st with (set_buffer (buffer st) st) by apply set_buffer_same.
  replace initial with (set_buffer (buffer initial) initial) by reflexivity.
  unfold try_block.
  destruct (JSON_parse j) as [parsed|]; [|tauto].
  destruct (delta_content parsed) as [content|]; [|tauto].
  destruct (truthy content); [|split; discriminate].
  destruct content as [|v]; [split; discriminate|].
  destruct (ToString v); [split; discriminate | tauto].
Qed.

(** A failing line is pushed back without its carriage return. *)
Lemma loop_body_failing (l : text) (st : parser_state) :
  is_failing_line l = true ->
  loop_body l st
  = (Break ParseFailure, set_buffer (strip_cr l ++ NL :: buffer st) st).
Proof.
  unfold is_failing_line. rewrite !andb_true_iff, negb_true_iff.
  intros [[Hs Hd] Ht].
  rewrite loop_body_strip. cbv zeta.
  rewrite (data_line_not_skipped _ Hs), Hs, Hd. simpl negb. cbv iota.
  apply (throws_spec _ st) in Ht. rewrite Ht. reflexivity.
Qed.

Lemma loop_body_failing_inv (l : text) (st st' : parser_state) :
  loop_body l st = (Break ParseFailure, st') ->
  is_failing_line l = true
  /\ st' = set_buffer (strip_cr l ++ NL :: buffer st) st.
Proof.
  rewrite loop_body_strip. cbv zeta. unfold is_failing_line.
  destruct (_ || _); [discriminate|].
  destruct (startsWith (lit "data: ") (strip_cr l)); [|discriminate].
  simpl negb. cbv iota.
  destruct (text_eqb _ (lit "[DONE]")); [discriminate|].
  destruct (try_block _ st) eqn:E; [discriminate|].
  intros H; injection H as <-. split; [|reflexivity].
  simpl. apply (throws_spec _ st). exact E.
Qed.

(** Pushed back, the line fails again. *)
Lemma is_failing_strip (l : text) :
  is_failing_line l = true -> is_failing_line (strip_cr l) = true.
Proof.
  unfold is_failing_line. rewrite !andb_true_iff.
  intros [[Hs Hd] Ht].
  destruct (strip_cr_payload _ Hs) as [Hs2 Hp].
  rewrite Hs2, Hp. auto.
Qed.

(** A well-formed data line appends its delta, and emits the new text
    unless the delta is empty. *)
Lemma loop_body_well_formed (p d : text) (st : parser_state) :
  well_formed_payload p d ->
  loop_body (lit "data: " ++ p) st
  = (Continue,
     if nonempty d then
       {| buffer := buffer st;
          assistantContent := assistantContent st ++ d;
          emitted := emitted st ++ [assistantContent st ++ d] |}
     else st).
Proof.
  intros (_ & Hd & parsed & Hp & Hc).
  destruct (payload_of_data_line p) as [Hs Hj].
  rewrite loop_body_strip. cbv zeta.
  rewrite (data_line_not_skipped _ Hs), Hs, Hj. simpl negb. cbv iota.
  apply text_eqb_neq in Hd. rewrite Hd.
  unfold try_block. rewrite Hp, Hc. unfold truthy, nonempty.
  destruct (text_eqb d []); reflexivity.
Qed.

Lemma loop_body_extend (l y : text) (st : parser_state) :
  loop_body l (extend y st)
  = (fst (loop_body l st), extend y (snd (loop_body l st))).
Proof.
  unfold extend at 1. rewrite loop_body_set_buffer.
  destruct (loop_body l st) as [[|[| |]] st'] eqn:E; simpl fst; simpl snd.
  - apply loop_body_continue_buffer in E. unfold extend. rewrite E. reflexivity.
  - unfold loop_body in E.
    destruct (_ || _); [discriminate|]. destruct (negb _); [discriminate|].
    destruct (text_eqb _ (lit "[DONE]")); [discriminate|].
    destruct (try_block _ st); discriminate.
  - assert (st' = st) as ->.
    { unfold loop_body in E.
      destruct (_ || _); [discriminate|]. destruct (negb _); [discriminate|].
      destruct (text_eqb _ (lit "[DONE]")); [congruence|].
      destruct (try_block _ st); discriminate. }
    reflexivity.
  - apply loop_body_failing_inv in E. destruct E as [_ ->].
    unfold extend, set_buffer; simpl. rewrite <- app_assoc. reflexivity.
Qed.

End LineFacts.

(** ** The inner loop over a buffer *)

Section DrainFacts.
Context {RT : Runtime}.

Lemma drain_no_newline (st : parser_state) :
  ~ In NL (buffer st) -> drain st = (NoNewline, st).
Proof.
  intros H. rewrite drain_unfold, (indexOf_notin _ _ H). reflexivity.
Qed.

(** The loop takes the first line off the buffer. *)
Lemma drain_line (l rest : text) (st : parser_state) :
  ~ In NL l ->
  drain (set_buffer (l ++ NL :: rest) st)
  = match loop_body l (set_buffer rest st) with
    | (Continue, st2) => drain st2
    | (Break why, st2) => (why, st2)
    end.
Proof.
  intros H. rewrite drain_unfold. cbn [buffer set_buffer].
  rewrite (indexOf_first _ _ rest H). cbv zeta.
  unfold slice_to, slice_from. rewrite firstn_line, skipn_line. reflexivity.
Qed.

Lemma drain_exit_no_newline (n : nat) :
  forall st st', List.length (buffer st) <= n ->
                 drain st = (NoNewline, st') -> ~ In NL (buffer st').
Proof.
  induction n as [|n IH]; intros st st' Hn; rewrite drain_unfold;
    destruct (indexOf NL (buffer st)) as [i|] eqn:Ei.
  - apply skipn_newline_shorter in Ei. lia.
  - intros H; injection H as <-. apply indexOf_None_notin; exact Ei.
  - cbv zeta. destruct (loop_body _ _) as [[|why] st2] eqn:Eb.
    + apply IH. apply loop_body_continue_buffer in Eb.
      cbn [buffer set_buffer] in Eb. rewrite Eb.
      apply skipn_newline_shorter in Ei. unfold slice_from. lia.
    + intros H; injection H as -> <-.
      unfold loop_body in Eb.
      destruct (_ || _); [discriminate|]. destruct (negb _); [discriminate|].
      destruct (text_eqb _ (lit "[DONE]")); [discriminate|].
      destruct (try_block _ _); discriminate.
  - intros H; injection H as <-. apply indexOf_None_notin; exact Ei.
Qed.

(** More text behind the buffer: the loop does what it did, and goes on
    into the new text only if it was not left by a [break]. *)
Lemma drain_extend_bounded (n : nat) :
  forall (y : text) (st : parser_state),
    List.length (buffer st) <= n ->
    drain (extend y st)
    = match drain st with
      | (NoNewline, st') => drain (extend y st')
      | (why, st') => (why, extend y st')
      end.
Proof.
  induction n as [|n IH]; intros y st Hn.
  - destruct (buffer st) eqn:E; [|simpl in Hn; lia].
    rewrite (drain_no_newline st); [reflexivity | rewrite E; tauto].
  - rewrite (drain_unfold st).
    destruct (indexOf NL (buffer st)) as [i|] eqn:Ei; [|reflexivity].
    cbv zeta.
    destruct (indexOf_Some_split _ _ _ Ei) as [Hs Hn'].
    pose proof (skipn_newline_shorter _ _ Ei) as Hlen.
    set (l := slice_to i (buffer st)) in *.
    set (rest := slice_from (S i) (buffer st)) in *.
    assert (Ex : extend y st = set_buffer (l ++ NL :: (rest ++ y)) st).
    { unfold extend. f_equal. rewrite Hs at 1. unfold l, rest, slice_to, slice_from.
      rewrite <- app_assoc. reflexivity. }
    rewrite Ex, (drain_line l (rest ++ y) st Hn').
    change (set_buffer (rest ++ y) st) with (extend y (set_buffer rest st)).
    rewrite loop_body_extend.
    destruct (loop_body l (set_buffer rest st)) as [[|why] st2] eqn:Eb;
      simpl fst; simpl snd.
    + apply IH. apply loop_body_continue_buffer in Eb.
      cbn [buffer set_buffer] in Eb. rewrite Eb. unfold rest, slice_from. lia.
    + destruct why; try reflexivity.
      unfold loop_body in Eb.
      destruct (_ || _); [discriminate|]. destruct (negb _); [discriminate|].
      destruct (text_eqb _ (lit "[DONE]")); [discriminate|].
      destruct (try_block _ _); discriminate.
Qed.

Lemma drain_extend (y : text) (st : parser_state) :
  drain (extend y st)
  = match drain st with
    | (NoNewline, st') => drain (extend y st')
    | (why, st') => (why, extend y st')
    end.
Proof. apply (drain_extend_bounded (List.length (buffer st))); lia. Qed.

Lemma drain_NoNewline_buffer (st st' : parser_state) :
  drain st = (NoNewline, st') -> ~ In NL (buffer st').
Proof. apply (drain_exit_no_newline (List.length (buffer st))); lia. Qed.

(** *** A line that fails stays at the head of the buffer *)

Lemma drain_failing_line (l z : text) (st : parser_state) :
  ~ In NL l -> is_failing_line l = true ->
  drain (set_buffer (l ++ NL :: z) st)
  = (ParseFailure, set_buffer (strip_cr l ++ NL :: z) st).
Proof.
  intros Hn Hf. rewrite (drain_line l z st Hn), (loop_body_failing _ _ Hf).
  reflexivity.
Qed.

Lemma drain_failure_shape (n : nat) :
  forall st st', List.length (buffer st) <= n ->
    drain st = (ParseFailure, st') ->
    exists l z, buffer st' = l ++ NL :: z /\ ~ In NL l
                /\ is_failing_line l = true.
Proof.
  induction n as [|n IH]; intros st st' Hn; rewrite drain_unfold;
    destruct (indexOf NL (buffer st)) as [i|] eqn:Ei; try discriminate.
  - apply skipn_newline_shorter in Ei. lia.
  - cbv zeta. destruct (loop_body _ _) as [[|why] st2] eqn:Eb.
    + apply IH. apply loop_body_continue_buffer in Eb.
      cbn [buffer set_buffer] in Eb. rewrite Eb.
      apply skipn_newline_shorter in Ei. unfold slice_from. lia.
    + intros H; injection H as -> <-.
      apply loop_body_failing_inv in Eb. destruct Eb as [Hf ->].
      destruct (indexOf_Some_split _ _ _ Ei) as [_ Hl].
      exists (strip_cr (slice_to i (buffer st))),
             (slice_from (S i) (buffer st)).
      split; [reflexivity|]. split.
      * apply strip_cr_no_newline; exact Hl.
      * apply is_failing_strip; exact Hf.
Qed.

(** After a parse failure nothing more is appended or emitted, whatever
    arrives. *)
Lemma stalled_forever (st st' : parser_state) (y : text) :
  drain st = (ParseFailure, st') ->
  fst (drain (extend y st')) = ParseFailure
  /\ assistantContent (snd (drain (extend y st'))) = assistantContent st'
  /\ emitted (snd (drain (extend y st'))) = emitted st'.
Proof.
  intros H.
  destruct (drain_failure_shape (List.length (buffer st)) st st' (le_n _) H)
    as (l & z & Eb & Hn & Hf).
  assert (E : extend y st' = set_buffer (l ++ NL :: (z ++ y)) st').
  { unfold extend. rewrite Eb, <- app_assoc. reflexivity. }
  rewrite E, (drain_failing_line l (z ++ y) st' Hn Hf). auto.
Qed.

(** *** Complete lines *)

Lemma lines_text_cons (l : text) (ls : list text) :
  lines_text (l :: ls) = l ++ NL :: lines_text ls.
Proof. unfold lines_text; simpl. rewrite <- app_assoc. reflexivity. Qed.

(** The loop is left at a sentinel only if one of the lines is one. *)
Lemma drain_sentinel_line (ls : list text) :
  forall (tail : text) (st st' : parser_state),
    Forall (fun l => ~ In NL l) ls -> ~ In NL tail ->
    drain (set_buffer (lines_text ls ++ tail) st) = (Sentinel, st') ->
    Exists (fun l => is_sentinel_line l = true) ls.
Proof.
  induction ls as [|l ls IH]; intros tail st st' Hls Ht.
  - rewrite drain_no_newline by exact Ht. discriminate.
  - inversion Hls as [|? ? Hl Hls']; subst.
    rewrite lines_text_cons, <- app_assoc, <- app_comm_cons.
    rewrite (drain_line l _ st Hl).
    destruct (loop_body l _) as [[|why] st2] eqn:Eb.
    + pose proof (loop_body_continue_buffer _ _ _ Eb) as Ebuf.
      cbn [buffer set_buffer] in Ebuf.
      assert (Heq : st2 = set_buffer (lines_text ls ++ tail) st2)
        by (rewrite <- Ebuf; symmetry; apply set_buffer_same).
      rewrite Heq. intros H. right. exact (IH tail st2 st' Hls' Ht H).
    + intros H; injection H as -> <-.
      left. eapply loop_body_sentinel_inv; eauto.
Qed.

End DrainFacts.

(** ** Chunks *)

Section ChunkFacts.
Context {RT : Runtime}.

(** Decoding does not depend on where the bytes are cut. *)
Lemma decode_app (d : decoder_state) (a b : list byte) :
  decode d (a ++ b)
  = (fst (decode (fst (decode d a)) b),
     snd (decode d a) ++ snd (decode (fst (decode d a)) b)).
Proof.
  revert d; induction a as [|x a IH]; intros d; simpl.
  - destruct (decode d b); reflexivity.
  - destruct (decode_byte d x) as [d1 t1]. rewrite IH.
    destruct (decode d1 a) as [d2 t2]; simpl.
    destruct (decode d2 b) as [d3 t3]; simpl.
    rewrite app_assoc. reflexivity.
Qed.

Lemma chunk_texts_concat (chunks : list (list byte)) :
  forall d, List.concat (chunk_texts d chunks)
            = snd (decode d (List.concat chunks)).
Proof.
  induction chunks as [|c chunks IH]; intros d; simpl; [reflexivity|].
  rewrite decode_app, IH. reflexivity.
Qed.

Lemma read_loop_feed_all (chunks : list (list byte)) :
  forall rs, parser (read_loop chunks rs)
             = feed_all (chunk_texts (decoder rs) chunks) (parser rs).
Proof.
  unfold read_loop.
  induction chunks as [|c chunks IH]; intros rs; simpl; [reflexivity|].
  rewrite IH. unfold on_chunk.
  destruct (decode (decoder rs) c) as [d t]; reflexivity.
Qed.

Lemma feed_extend (t : text) (st : parser_state) :
  feed t st = snd (drain (extend t st)).
Proof. reflexivity. Qed.

Lemma feed_all_nothing (ts : list text) (st : parser_state) :
  buffer st = [] -> List.concat ts = [] -> feed_all ts st = st.
Proof.
  intros Hb. induction ts as [|t ts IH]; simpl; [reflexivity|].
  intros H. apply app_eq_nil in H. destruct H as [-> H].
  rewrite feed_extend, extend_nil, drain_no_newline by (rewrite Hb; tauto).
  exact (IH H).
Qed.

(** Chunk by chunk, the parser reaches the state the inner loop reaches
    on the whole text, as long as that loop runs out of lines or stops
    at a sentinel that ends the text. *)
Lemma feed_all_whole (ts : list text) :
  forall (st st' : parser_state) (why : loop_exit),
    ~ In NL (buffer st) ->
    drain (extend (List.concat ts) st) = (why, st') ->
    why = NoNewline \/ (why = Sentinel /\ buffer st' = []) ->
    feed_all ts st = st'.
Proof.
  induction ts as [|t ts IH]; intros st st' why Hb; simpl.
  - rewrite extend_nil, drain_no_newline by exact Hb.
    intros H; injection H as <- <-. reflexivity.
  - rewrite <- extend_extend, drain_extend, feed_extend.
    destruct (drain (extend t st)) as [w1 st1] eqn:E1. simpl snd.
    destruct w1.
    + intros H Hw. eapply IH; eauto. eapply drain_NoNewline_buffer; eauto.
    + intros H; injection H as <- <-. intros [Hw|[_ Hw]]; [discriminate|].
      cbn [buffer extend set_buffer] in Hw.
      apply app_eq_nil in Hw. destruct Hw as [Hb1 Hc].
      rewrite (feed_all_nothing ts st1 Hb1 Hc), Hc, extend_nil. reflexivity.
    + intros H; injection H as <- <-. intros [Hw|[Hw _]]; discriminate.
Qed.

End ChunkFacts.

(* ===================================================================== *)
(** * The claims about the stream parser *)
(* ===================================================================== *)

Lemma snapshots_of_cons (d : text) (ds : list text) :
  snapshots_of (d :: ds) = d :: map (app d) (snapshots_of ds).
Proof.
  unfold snapshots_of. simpl. rewrite app_nil_r. f_equal.
  rewrite <- seq_shift, !map_map. reflexivity.
Qed.

Lemma running_snapshots_spec (ds : list text) :
  forall acc, running_snapshots acc ds
              = map (app acc) (snapshots_of (filter nonempty ds)).
Proof.
  induction ds as [|d ds IH]; intros acc; simpl; [reflexivity|].
  destruct (nonempty d); [|apply IH].
  rewrite snapshots_of_cons. simpl. f_equal.
  rewrite IH, map_map. apply map_ext. intros x. symmetry. apply app_assoc.
Qed.

Lemma snapshots_of_length (ds : list text) :
  List.length (snapshots_of ds) = List.length ds.
Proof. unfold snapshots_of. rewrite length_map, length_seq. reflexivity. Qed.

Lemma filter_all (A : Type) (f : A -> bool) (l : list A) :
  forallb f l = true -> filter f l = l.
Proof.
  induction l as [|x l IH]; simpl; [reflexivity|].
  destruct (f x); simpl; [intros H; f_equal; exact (IH H) | discriminate].
Qed.

Section StreamClaims.
Context {RT : Runtime}.

(** The inner loop on a whole well-formed stream. *)
Lemma drain_sse (payloads deltas : list text) (sentinel : text) :
  Forall2 well_formed_payload payloads deltas ->
  ~ In NL sentinel ->
  is_sentinel_line sentinel = true ->
  forall st,
    drain (set_buffer (sse_stream payloads sentinel) st)
    = (Sentinel,
       {| buffer := [];
          assistantContent := assistantContent st ++ List.concat deltas;
          emitted := emitted st
                     ++ running_snapshots (assistantContent st) deltas |}).
Proof.
  intros Hwf Hn Hs.
  induction Hwf as [|p d ps ds Hwf _ IH]; intros st.
  - unfold sse_stream. change (lines_text (map _ [])) with (@nil char).
    rewrite app_nil_l.
    rewrite (drain_line sentinel [] st Hn), (loop_body_sentinel _ _ Hs).
    destruct st; simpl. rewrite !app_nil_r. reflexivity.
  - unfold sse_stream. simpl map. rewrite lines_text_cons.
    rewrite <- app_assoc, <- app_comm_cons.
    fold (sse_stream ps sentinel).
    assert (Hp : ~ In NL (lit "data: " ++ p)).
    { destruct Hwf as [Hp _]. intros Hin. apply in_app_or in Hin.
      destruct Hin as [Hin|Hin]; [|exact (Hp Hin)].
      revert Hin. cbv. intuition discriminate. }
    rewrite (drain_line _ (sse_stream ps sentinel) st Hp).
    rewrite (loop_body_well_formed p d _ Hwf).
    cbn [buffer set_buffer assistantContent emitted running_snapshots].
    destruct (nonempty d) eqn:Ed.
    + change {| buffer := sse_stream ps sentinel;
                assistantContent := assistantContent st ++ d;
                emitted := emitted st ++ [assistantContent st ++ d] |}
        with (set_buffer (sse_stream ps sentinel)
                {| buffer := [];
                   assistantContent := assistantContent st ++ d;
                   emitted := emitted st ++ [assistantContent st ++ d] |}).
      rewrite IH. cbn [assistantContent emitted List.concat].
      rewrite <- !app_assoc. reflexivity.
    + rewrite IH. unfold nonempty in Ed. apply negb_false_iff in Ed.
      apply text_eqb_spec in Ed. subst d. reflexivity.
Qed.

End StreamClaims.

(** C1, as the code has it.  For every sequence of byte chunks whose
    concatenation decodes to N well-formed [data:] lines followed by a
    sentinel line, the parser emits one accumulated-text snapshot for each
    data line whose delta is not empty, the i-th snapshot being the
    concatenation of the first i non-empty deltas; so it emits exactly N
    snapshots when no delta is empty.  The accumulated text ends as the
    concatenation of all deltas, the buffer ends empty, these snapshots
    and this text are what [sendMessage] renders and saves, and the
    sentinel line leaves the loop with the state untouched, whatever
    [JSON.parse] would make of its payload. *)
Theorem C1_snapshots_of_well_formed_stream :
  forall (RT : Runtime) (payloads deltas : list text) (sentinel : text)
         (chunks : list (list byte)),
    Forall2 well_formed_payload payloads deltas ->
    ~ In NL sentinel ->
    is_sentinel_line sentinel = true ->
    snd (decode decoder_start (List.concat chunks))
    = sse_stream payloads sentinel ->
    let st := parser (read_loop chunks reader_start) in
    emitted st = snapshots_of (filter nonempty deltas)
    /\ assistantContent st = List.concat deltas
    /\ buffer st = []
    /\ (forallb nonempty deltas = true ->
        List.length (emitted st) = List.length payloads)
    /\ (forall r, ok r = true ->
          body r = Some {| chunks := chunks; read_error := None |} ->
          stream_reply (Resolved r)
          = {| toast_error := None;
               snapshots := snapshots_of (filter nonempty deltas);
               saved := Some (List.concat deltas) |})
    /\ (forall st0, loop_body sentinel st0 = (Break Sentinel, st0)).
Proof.
  intros RT payloads deltas sentinel chunks Hwf Hn Hs Hdec st.
  assert (E : st = {| buffer := [];
                      assistantContent := List.concat deltas;
                      emitted := running_snapshots [] deltas |}).
  { unfold st. rewrite read_loop_feed_all.
    apply (feed_all_whole _ _ _ Sentinel).
    - simpl; tauto.
    - rewrite chunk_texts_concat. cbn [decoder reader_start parser].
      rewrite Hdec. unfold extend. cbn [buffer initial app].
      rewrite (drain_sse payloads deltas sentinel Hwf Hn Hs). reflexivity.
    - right; split; reflexivity. }
  assert (Hid : forall l : list text, map (app []) l = l).
  { intros l. rewrite <- (map_id l) at 2. apply map_ext. reflexivity. }
  assert (Hem : emitted st = snapshots_of (filter nonempty deltas)).
  { rewrite E. cbn [emitted]. rewrite running_snapshots_spec. apply Hid. }
  assert (Hac : assistantContent st = List.concat deltas)
    by (rewrite E; reflexivity).
  split; [exact Hem|]. split; [exact Hac|].
  split; [rewrite E; reflexivity|]. split; [|split].
  - intros Hall. rewrite Hem, (filter_all _ _ _ Hall), snapshots_of_length.
    symmetry. eapply Forall2_length; eauto.
  - intros r Hok Hbody. unfold stream_reply. rewrite Hok, Hbody.
    cbn [negb Stream.chunks read_error]. fold st. rewrite Hem, Hac. reflexivity.
  - intros st0. apply loop_body_sentinel. exact Hs.
Qed.

(** C1, witness: two data lines, the second ended by a carriage return
    and a newline, cut into three chunks in the middle of a line and of
    the sentinel. *)
Lemma C1_witness :
  let p1 := json_lit "{'choices':[{'delta':{'content':'Hel'}}]}" in
  let p2 := json_lit "{'choices':[{'delta':{'content':'lo'}}]}" ++ [CR] in
  let sentinel := lit "data: [DONE]" in
  let bytes := ascii_bytes (sse_stream [p1; p2] sentinel) in
  let chunks := [firstn 10 bytes; firstn 80 (skipn 10 bytes); skipn 90 bytes] in
  Forall2 (well_formed_payload (RT := reference_runtime))
          [p1; p2] [lit "Hel"; lit "lo"]
  /\ snd (decode (RT := reference_runtime) decoder_start (List.concat chunks))
     = sse_stream [p1; p2] sentinel
  /\ emitted (parser (read_loop (RT := reference_runtime) chunks reader_start))
     = [lit "Hel"; lit "Hello"].
Proof.
  intros p1 p2 sentinel bytes chunks.
  assert (Hwf : Forall2 (well_formed_payload (RT := reference_runtime))
                        [p1; p2] [lit "Hel"; lit "lo"]).
  { repeat constructor; try (vm_compute; intuition discriminate);
      eexists; split; vm_compute; reflexivity. }
  assert (Hdec : snd (decode (RT := reference_runtime) decoder_start
                        (List.concat chunks)) = sse_stream [p1; p2] sentinel)
    by (vm_compute; reflexivity).
  assert (Hn : ~ In NL sentinel) by (vm_compute; intuition discriminate).
  split; [exact Hwf|]. split; [exact Hdec|].
  destruct (C1_snapshots_of_well_formed_stream reference_runtime
              [p1; p2] [lit "Hel"; lit "lo"] sentinel chunks
              Hwf Hn eq_refl Hdec) as [H _].
  exact H.
Defined.

(** C1, as stated, fails: one well-formed data line whose delta is the
    empty string, then the sentinel; the parser emits no snapshot. *)
Lemma C1_counterexample :
  let p := json_lit "{'choices':[{'delta':{'content':''}}]}" in
  let sentinel := lit "data: [DONE]" in
  let chunks := [ascii_bytes (sse_stream [p] sentinel)] in
  Forall2 (well_formed_payload (RT := reference_runtime)) [p] [[]]
  /\ snd (decode (RT := reference_runtime) decoder_start (List.concat chunks))
     = sse_stream [p] sentinel
  /\ emitted (parser (read_loop (RT := reference_runtime) chunks reader_start))
     = []
  /\ List.length
       (emitted (parser (read_loop (RT := reference_runtime) chunks reader_start)))
     <> List.length [p].
Proof.
  intros p sentinel chunks. split; [|split; [|split]].
  - repeat constructor; try (vm_compute; intuition discriminate).
    eexists; split; vm_compute; reflexivity.
  - vm_compute; reflexivity.
  - vm_compute; reflexivity.
  - vm_compute; discriminate.
Qed.

(** C2, as the code has it.  A byte stream is cut into two chunks inside
    a line: the first chunk decodes to complete lines [before] and the
    part [l1] of the line, the second to the rest [l2] of the line, its
    newline and whatever follows.  If none of the lines before is a
    sentinel line, the accumulated text and the emitted snapshots are the
    same as when the stream arrives in one chunk. *)
Theorem C2_split_line_same_text :
  forall (RT : Runtime) (before : list text) (l1 l2 after : text)
         (b1 b2 : list byte) (d1 d2 : decoder_state),
    Forall (fun l => ~ In NL l) before ->
    Forall (fun l => is_sentinel_line l = false) before ->
    ~ In NL (l1 ++ l2) ->
    decode decoder_start b1 = (d1, lines_text before ++ l1) ->
    decode d1 b2 = (d2, l2 ++ NL :: after) ->
    let split := parser (read_loop [b1; b2] reader_start) in
    let whole := parser (read_loop [b1 ++ b2] reader_start) in
    assistantContent split = assistantContent whole
    /\ emitted split = emitted whole.
Proof.
  intros RT before l1 l2 after b1 b2 d1 d2 Hlines Hnone Hline Hb1 Hb2 split whole.
  set (t1 := lines_text before ++ l1) in *.
  set (t2 := l2 ++ NL :: after) in *.
  assert (Es : split = feed t2 (feed t1 initial)).
  { unfold split, read_loop, on_chunk. simpl.
    rewrite Hb1. simpl. rewrite Hb2. reflexivity. }
  assert (Ew : whole = feed (t1 ++ t2) initial).
  { unfold whole, read_loop, on_chunk. simpl.
    rewrite decode_app, Hb1. simpl. rewrite Hb2. reflexivity. }
  rewrite Es, Ew, !feed_extend, <- extend_extend,
    (drain_extend t2 (extend t1 initial)).
  destruct (drain (extend t1 initial)) as [why st1] eqn:E. simpl snd.
  destruct why.
  - split; reflexivity.
  - exfalso. unfold extend in E. cbn [buffer initial app] in E.
    assert (Hl1 : ~ In NL l1)
      by (intros Hin; apply Hline; apply in_or_app; left; exact Hin).
    pose proof (drain_sentinel_line before l1 initial st1 Hlines Hl1 E) as Hex.
    apply Exists_exists in Hex. destruct Hex as (l & Hin & Hs).
    rewrite Forall_forall in Hnone. rewrite (Hnone l Hin) in Hs. discriminate.
  - destruct (stalled_forever _ _ t2 E) as (_ & Hc & He).
    simpl snd. rewrite Hc, He. split; reflexivity.
Qed.

(** C2, witness: a data line after a comment line; its delta is the
    letter e with an acute accent, two bytes in UTF-8, and the stream is
    cut between these two bytes. *)
Lemma C2_witness :
  let head := lit "data: " ++ json_lit "{'choices':[{'delta':{'content':'" in
  let tail := json_lit "'}}]}" in
  let b1 := ascii_bytes (lit ": keep-alive" ++ [NL] ++ head) ++ [xc3] in
  let b2 := [xa9] ++ ascii_bytes (tail ++ [NL]) in
  ~ In NL (head ++ [233%N] ++ tail)
  /\ assistantContent
       (parser (read_loop (RT := reference_runtime) [b1; b2] reader_start))
     = assistantContent
         (parser (read_loop (RT := reference_runtime) [b1 ++ b2] reader_start))
  /\ assistantContent
       (parser (read_loop (RT := reference_runtime) [b1 ++ b2] reader_start))
     = [233%N].
Proof.
  intros head tail b1 b2.
  assert (Hline : ~ In NL (head ++ [233%N] ++ tail))
    by (vm_compute; intuition discriminate).
  split; [exact Hline|]. split; [|vm_compute; reflexivity].
  refine (proj1 (C2_split_line_same_text reference_runtime
                   [lit ": keep-alive"] head ([233%N] ++ tail) []
                   b1 b2
                   (fst (decode (RT := reference_runtime) decoder_start b1))
                   (fst (decode (RT := reference_runtime)
                           (fst (decode (RT := reference_runtime) decoder_start b1))
                           b2))
                   _ _ Hline _ _)).
  - repeat constructor. vm_compute; intuition discriminate.
  - repeat constructor.
  - vm_compute; reflexivity.
  - vm_compute; reflexivity.
Defined.

(** C2, as stated, fails: the data line follows a sentinel line.  In one
    chunk the loop is left at the sentinel and the data line stays in the
    buffer; cut inside the data line, the second chunk makes the loop run
    again and the data line is read. *)
Lemma C2_counterexample :
  let line := lit "data: " ++ json_lit "{'choices':[{'delta':{'content':'Hi'}}]}" in
  let stream := ascii_bytes (lit "data: [DONE]" ++ [NL] ++ line ++ [NL]) in
  let b1 := firstn 20 stream in
  let b2 := skipn 20 stream in
  assistantContent
    (parser (read_loop (RT := reference_runtime) [b1; b2] reader_start))
  = lit "Hi"
  /\ assistantContent
       (parser (read_loop (RT := reference_runtime) [b1 ++ b2] reader_start))
     = []
  /\ snd (decode (RT := reference_runtime) decoder_start b1)
     = lit "data: [DONE]" ++ [NL] ++ firstn 7 line.
Proof. vm_compute. repeat split. Qed.

(** C9.  A comment line (it begins with [:]) and a blank line (empty or
    white space only) never produce a delta and never change the
    accumulated text: the iteration that reads such a line changes
    nothing, and a buffer with the line between complete lines is read
    with the same exit, the same accumulated text and the same snapshots
    as the buffer without it. *)
Theorem C9_comment_and_blank_lines_are_inert :
  forall (RT : Runtime) (l : text),
    ~ In NL l ->
    is_comment_line l = true \/ is_blank_line l = true ->
    (forall st, loop_body l st = (Continue, st))
    /\ (forall (before : list text) (after : text) (st : parser_state),
          Forall (fun x => ~ In NL x) before ->
          let with_line :=
            drain (set_buffer (lines_text before ++ l ++ NL :: after) st) in
          let without :=
            drain (set_buffer (lines_text before ++ after) st) in
          fst with_line = fst without
          /\ assistantContent (snd with_line) = assistantContent (snd without)
          /\ emitted (snd with_line) = emitted (snd without)).
Proof.
  intros RT l Hl Hskip. split; [intros st; apply loop_body_skip; exact Hskip|].
  intros before after st Hbefore. cbv zeta. revert st.
  induction Hbefore as [|b bs Hb _ IH]; intros st.
  - change (lines_text []) with (@nil char). rewrite !app_nil_l.
    rewrite (drain_line l after st Hl), (loop_body_skip _ _ Hskip). auto.
  - rewrite !lines_text_cons, <- !app_assoc, <- !app_comm_cons.
    rewrite !(drain_line b _ st Hb), !(loop_body_set_buffer b _ st).
    destruct (loop_body b st) as [[|[| |]] st'];
      [apply IH | simpl; auto ..].
Qed.

(** C9, witness: a keep-alive comment. *)
Lemma C9_witness :
  ~ In NL (lit ": keep-alive")
  /\ forall st, loop_body (RT := reference_runtime) (lit ": keep-alive") st
                = (Continue, st).
Proof.
  assert (H : ~ In NL (lit ": keep-alive")) by (vm_compute; intuition discriminate).
  split; [exact H|].
  exact (proj1 (C9_comment_and_blank_lines_are_inert reference_runtime
                  (lit ": keep-alive") H (or_introl eq_refl))).
Defined.

(** C8.  A response to the stream request whose status is not a success
    status surfaces the rate-limit message exactly when the status is
    429, the payment message exactly when it is 402, and the generic
    message for every other status; the three messages are pairwise
    distinct; nothing is emitted or saved, and the reply is the same
    whatever the body holds: the body is never read. *)
Theorem C8_status_classification :
  forall (RT : Runtime) (r : response),
    ok r = false ->
    let rate := lit "Rate limit exceeded. Please try again later." in
    let payment := lit "Payment required. Please add credits to continue." in
    let generic := lit "Failed to get response" in
    let message := status_error (status r) in
    stream_reply (Resolved r)
    = {| toast_error := Some message; snapshots := []; saved := None |}
    /\ (message = rate <-> status r = 429%Z)
    /\ (message = payment <-> status r = 402%Z)
    /\ (status r <> 429%Z -> status r <> 402%Z -> message = generic)
    /\ rate <> payment /\ rate <> generic /\ payment <> generic
    /\ (forall other_body,
          stream_reply (Resolved {| status := status r; body := other_body |})
          = stream_reply (Resolved r)).
Proof.
  intros RT r Hok rate payment generic message.
  assert (D1 : rate <> payment) by (vm_compute; discriminate).
  assert (D2 : rate <> generic) by (vm_compute; discriminate).
  assert (D3 : payment <> generic) by (vm_compute; discriminate).
  assert (Hr : stream_reply (Resolved r)
               = {| toast_error := Some message; snapshots := [];
                    saved := None |}).
  { unfold stream_reply. rewrite Hok. reflexivity. }
  split; [exact Hr|].
  assert (Hm : (status r = 429%Z /\ message = rate)
               \/ (status r <> 429%Z /\ status r = 402%Z /\ message = payment)
               \/ (status r <> 429%Z /\ status r <> 402%Z /\ message = generic)).
  { unfold message, status_error.
    destruct (Z.eqb_spec (status r) 429); [left; auto|].
    destruct (Z.eqb_spec (status r) 402); [right; left; auto | right; right; auto]. }
  split; [|split; [|split; [|split; [|split; [|split]]]]]; try assumption.
  - destruct Hm as [[E M]|[(N & E & M)|(N1 & N2 & M)]]; rewrite M;
      split; intros H;
        first [reflexivity | assumption | lia | exfalso; congruence].
  - destruct Hm as [[E M]|[(N & E & M)|(N1 & N2 & M)]]; rewrite M;
      split; intros H;
        first [reflexivity | assumption | lia | exfalso; congruence].
  - intros N1 N2. destruct Hm as [[E M]|[(N & E & M)|(_ & _ & M)]];
      [contradiction | contradiction | exact M].
  - intros other_body. rewrite Hr. unfold stream_reply.
    replace (ok {| status := status r; body := other_body |}) with (ok r)
      by reflexivity.
    rewrite Hok. reflexivity.
Qed.

(** C8, witness: status 429. *)
Lemma C8_witness :
  ok {| status := 429; body := None |} = false
  /\ stream_reply (RT := reference_runtime)
       (Resolved {| status := 429; body := None |})
     = {| toast_error := Some (lit "Rate limit exceeded. Please try again later.");
          snapshots := []; saved := None |}.
Proof.
  split; [reflexivity|].
  exact (proj1 (C8_status_classification reference_runtime
                  {| status := 429; body := None |} eq_refl)).
Defined.

(* ===================================================================== *)
(** * The database and the pages *)
(* ===================================================================== *)

(** ** Lists and keys *)

Lemma existsb_text_In (x : text) (l : list text) :
  existsb (text_eqb x) l = true <-> In x l.
Proof.
  rewrite existsb_exists. split.
  - intros (y & Hin & E). apply text_eqb_spec in E. subst; exact Hin.
  - intros H. exists x. split; [exact H | apply text_eqb_refl].
Qed.

Lemma NoDup_snoc (A : Type) (l : list A) (x : A) :
  NoDup l -> ~ In x l -> NoDup (l ++ [x]).
Proof.
  intros Hl Hx. induction Hl as [|y l Hy Hl IH]; simpl.
  - constructor; [tauto | constructor].
  - constructor.
    + intros Hin. apply in_app_or in Hin. destruct Hin as [Hin|[E|[]]].
      * exact (Hy Hin).
      * apply Hx. left. symmetry. exact E.
    + apply IH. intros Hin. apply Hx. right. exact Hin.
Qed.

(** Dropping rows keeps a key unique. *)
Lemma unique_key_filter (Row Key : Type) (key : Row -> Key)
  (keep : Row -> bool) (rows : list Row) :
  NoDup (map key rows) -> NoDup (map key (filter keep rows)).
Proof.
  intros Hkey. induction rows as [|row rows IH]; simpl; [constructor|].
  simpl in Hkey. apply NoDup_cons_iff in Hkey. destruct Hkey as [Hrow Hrows].
  destruct (keep row); simpl; [|exact (IH Hrows)].
  apply NoDup_cons; [|exact (IH Hrows)].
  intros Hin. apply Hrow. apply in_map_iff in Hin.
  destruct Hin as (other & E & Hother).
  apply filter_In in Hother. apply in_map_iff. exists other. tauto.
Qed.

Lemma NoDup_map_injective (A B : Type) (f : A -> B) (l : list A) (a b : A) :
  NoDup (map f l) -> In a l -> In b l -> f a = f b -> a = b.
Proof.
  induction l as [|x l IH]; simpl; intros H Ha Hb E; [contradiction|].
  inversion H as [|? ? Hx Hl]; subst.
  destruct Ha as [->|Ha], Hb as [->|Hb].
  - reflexivity.
  - exfalso. apply Hx. rewrite E. apply in_map. exact Hb.
  - exfalso. apply Hx. rewrite <- E. apply in_map. exact Ha.
  - exact (IH Hl Ha Hb E).
Qed.

Lemma app_role_eqb_spec (a b : app_role) : app_role_eqb a b = true <-> a = b.
Proof. destruct a, b; simpl; split; congruence. Qed.

Lemma uid_eqb_spec (a : option uuid) (b : uuid) :
  uid_eqb a b = true <-> a = Some b.
Proof.
  destruct a as [x|]; simpl; [|split; discriminate].
  rewrite text_eqb_spec. split; congruence.
Qed.

Lemma role_is_spec (r : app_role) (s : session) :
  role_is r s = true <-> session_role s = Some r.
Proof.
  unfold role_is. destruct (session_role s) as [r'|]; [|split; discriminate].
  rewrite app_role_eqb_spec. split; congruence.
Qed.

Lemma known_user_spec (db : database) (u : uuid) :
  known_user db u = true <-> In u (auth_users db).
Proof. apply existsb_text_In. Qed.

(** ** Role rows *)

Lemma roles_of_app (db : database) (rows : list user_role) (u : uuid) :
  roles_of (set_user_roles (user_roles db ++ rows) db) u
  = roles_of db u
    ++ map role (filter (fun r => text_eqb (user_id r) u) rows).
Proof.
  unfold roles_of. cbn [user_roles set_user_roles].
  rewrite filter_app, map_app. reflexivity.
Qed.

Lemma roles_of_delete_other (db : database) (target u : uuid) :
  u <> target ->
  roles_of
    (set_user_roles
       (filter (fun r => negb (text_eqb (user_id r) target)) (user_roles db)) db) u
  = roles_of db u.
Proof.
  intros Hne. unfold roles_of. cbn [user_roles set_user_roles]. f_equal.
  induction (user_roles db) as [|r rows IH]; simpl; [reflexivity|].
  destruct (text_eqb (user_id r) target) eqn:Et; simpl.
  - destruct (text_eqb (user_id r) u) eqn:Eu; [|exact IH].
    apply text_eqb_spec in Et, Eu. congruence.
  - rewrite IH. reflexivity.
Qed.

Lemma roles_of_delete_target (db : database) (target : uuid) :
  roles_of
    (set_user_roles
       (filter (fun r => negb (text_eqb (user_id r) target)) (user_roles db)) db)
    target
  = [].
Proof.
  unfold roles_of. cbn [user_roles set_user_roles].
  induction (user_roles db) as [|r rows IH]; simpl; [reflexivity|].
  destruct (text_eqb (user_id r) target) eqn:Et; simpl; [exact IH|].
  rewrite Et. exact IH.
Qed.

Lemma has_role_after_delete (db : database) (target : uuid) (u : option uuid)
  (r : app_role) :
  u <> Some target ->
  has_role
    (set_user_roles
       (filter (fun x => negb (text_eqb (user_id x) target)) (user_roles db)) db)
    u r
  = has_role db u r.
Proof.
  intros Hu. unfold has_role. cbn [user_roles set_user_roles].
  induction (user_roles db) as [|x rows IH]; simpl; [reflexivity|].
  destruct (text_eqb (user_id x) target) eqn:Et; simpl.
  - rewrite IH. apply text_eqb_spec in Et.
    destruct (uid_eqb u (user_id x)) eqn:Eu; [|reflexivity].
    apply uid_eqb_spec in Eu. congruence.
  - rewrite IH. reflexivity.
Qed.

(** What the delete request does to the role rows. *)
Lemma user_roles_delete_effect (a : option uuid) (target : uuid) (db : database) :
  fst (user_roles_delete a target db) = None
  /\ (forall u, u <> target ->
                roles_of (snd (user_roles_delete a target db)) u = roles_of db u)
  /\ roles_of (snd (user_roles_delete a target db)) target
     = (if has_role db a admin then [] else roles_of db target)
  /\ (forall u, u <> Some target ->
        has_role (snd (user_roles_delete a target db)) u admin
        = has_role db u admin)
  /\ (has_role db a admin = false -> snd (user_roles_delete a target db) = db)
  /\ auth_users (snd (user_roles_delete a target db)) = auth_users db
  /\ profiles (snd (user_roles_delete a target db)) = profiles db
  /\ legal_documents (snd (user_roles_delete a target db)) = legal_documents db
  /\ conversations (snd (user_roles_delete a target db)) = conversations db
  /\ messages (snd (user_roles_delete a target db)) = messages db.
Proof.
  unfold user_roles_delete.
  destruct (has_role db a admin); cbn [fst snd]; repeat split; auto.
  - intros u Hu. apply roles_of_delete_other; exact Hu.
  - apply roles_of_delete_target.
  - intros u Hu. apply has_role_after_delete; exact Hu.
  - discriminate.
Qed.

(** What the insert request does to the role rows. *)
Lemma user_roles_insert_effect (a : option uuid) (row : user_role) (db : database) :
  let db' := snd (user_roles_insert a row db) in
  (fst (user_roles_insert a row db) = None ->
     has_role db a admin = true
     /\ (forall u, roles_of db' u
                   = roles_of db u
                     ++ (if text_eqb (user_id row) u then [role row] else [])))
  /\ (fst (user_roles_insert a row db) <> None -> db' = db)
  /\ (db' = db
      \/ (has_role db a admin = true
          /\ forall u, roles_of db' u
                       = roles_of db u
                         ++ (if text_eqb (user_id row) u then [role row] else [])))
  /\ auth_users db' = auth_users db
  /\ profiles db' = profiles db
  /\ legal_documents db' = legal_documents db
  /\ conversations db' = conversations db
  /\ messages db' = messages db.
Proof.
  unfold user_roles_insert.
  destruct (has_role db a admin); cbn [negb];
    [|cbn [fst snd]; repeat split; auto; discriminate].
  destruct (negb (known_user db (user_id row)));
    [cbn [fst snd]; repeat split; auto; discriminate|].
  destruct (existsb _ (user_roles db));
    [cbn [fst snd]; repeat split; auto; discriminate|].
  cbn [fst snd].
  assert (H : forall u,
             roles_of (set_user_roles (user_roles db ++ [row]) db) u
             = roles_of db u
               ++ (if text_eqb (user_id row) u then [role row] else [])).
  { intros u. rewrite roles_of_app. simpl.
    destruct (text_eqb (user_id row) u); reflexivity. }
  repeat split; auto. intros H0. congruence.
Qed.

(** ** [handleRoleChange] *)

(** Everything the handler can do to the database. *)
Lemma handleRoleChange_outcome (net : transport * transport) (s : session)
  (userId : uuid) (newRole : app_role) (db db' : database) (t : option toast) :
  handleRoleChange net s userId newRole db = (db', t) ->
  (forall u, u <> userId -> roles_of db' u = roles_of db u)
  /\ auth_users db' = auth_users db
  /\ profiles db' = profiles db
  /\ legal_documents db' = legal_documents db
  /\ conversations db' = conversations db
  /\ messages db' = messages db
  /\ ((db' = db /\ (t = None \/ reports_error t = true))
      \/ (reports_error t = true /\ fst net <> RequestLost
          /\ (roles_of db' userId = []
              \/ (roles_of db' userId = [newRole] /\ snd net = ResponseLost)))
      \/ (reports_error t = false /\ t <> None
          /\ fst net = Delivered /\ snd net = Delivered
          /\ has_role db (session_user s) admin = true
          /\ roles_of db' userId = [newRole])).
Proof.
  unfold handleRoleChange.
  destruct (role_is admin s); cbn [negb];
    [|intros H; injection H as <- <-; repeat split; auto].
  destruct (uid_eqb (session_user s) userId) eqn:Eu;
    [intros H; injection H as <- <-; repeat split; auto|].
  assert (Ha : session_user s <> Some userId).
  { intros E. apply uid_eqb_spec in E. congruence. }
  set (a := session_user s) in *.
  set (row := {| user_id := userId; role := newRole |}).
  assert (Hsame : forall u, u <> userId -> text_eqb userId u = false).
  { intros u Hu. apply text_eqb_neq. congruence. }
  destruct (user_roles_delete_effect a userId db)
    as (D0 & Dother & Dtarget & Dadm & Dsame & Du & Dp & Dd & Dc & Dm).
  destruct (user_roles_delete a userId db) as [e1 d1] eqn:E1.
  cbn [fst snd] in *. subst e1.
  destruct (user_roles_insert_effect a row d1)
    as (I0 & Irefused & Icase & Iu & Ip & Id & Ic & Im).
  cbv zeta in *.
  destruct (user_roles_insert a row d1) as [e2 d2] eqn:E2.
  cbn [fst snd] in *. cbn [user_id role row] in *.
  rewrite (Dadm a Ha) in *.
  assert (T1 : (d1 = db /\ has_role db a admin = false)
               \/ (roles_of d1 userId = [] /\ has_role db a admin = true)).
  { destruct (has_role db a admin); [right; auto | left; auto]. }
  assert (F2 : forall u, u <> userId -> roles_of d2 u = roles_of db u).
  { intros u Hu. destruct Icase as [->|[_ H]]; [auto|].
    rewrite H, (Hsame u Hu), app_nil_r. auto. }
  assert (T2 : d2 = db \/ roles_of d2 userId = []
               \/ roles_of d2 userId = [newRole]).
  { destruct Icase as [->|[Hadm H]].
    - destruct T1 as [[-> _]|[H _]]; auto.
    - right; right. rewrite H, text_eqb_refl.
      destruct T1 as [[_ Hf]|[Ht _]]; [congruence|]. rewrite Ht. reflexivity. }
  assert (Tab2 : auth_users d2 = auth_users db /\ profiles d2 = profiles db
                 /\ legal_documents d2 = legal_documents db
                 /\ conversations d2 = conversations db
                 /\ messages d2 = messages db).
  { repeat split; congruence. }
  destruct net as [n1 n2]. cbn [fst snd].
  destruct n1; cbn [send execute]; rewrite ?E1; cbn [fst snd].
  - (* the delete is delivered *)
    destruct n2; cbn [send execute]; rewrite ?E2; cbn [fst snd].
    + destruct e2 as [err|]; intros H; injection H as <- <-;
        (split; [exact F2|]); destruct Tab2 as (? & ? & ? & ? & ?);
          do 5 (split; [assumption|]).
      * rewrite (Irefused ltac:(discriminate)).
        destruct T1 as [[-> _]|[Ht _]];
          [left; split; [reflexivity | right; reflexivity]|].
        right; left. repeat split; [discriminate | left; exact Ht].
      * right; right. destruct (I0 eq_refl) as [Hadm Hroles].
        repeat split; try discriminate; try assumption.
        rewrite Hroles, text_eqb_refl.
        destruct T1 as [[_ Hf]|[Ht _]]; [congruence|]. rewrite Ht. reflexivity.
    + intros H; injection H as <- <-.
      split; [exact Dother|]. do 5 (split; [assumption|]).
      destruct T1 as [[-> _]|[Ht _]];
        [left; split; [reflexivity | right; reflexivity]|].
      right; left. repeat split; [discriminate | left; exact Ht].
    + intros H; injection H as <- <-.
      split; [exact F2|]. destruct Tab2 as (? & ? & ? & ? & ?).
      do 5 (split; [assumption|]).
      destruct T2 as [->|[T2|T2]];
        [left; split; [reflexivity | right; reflexivity] | |].
      * right; left. repeat split; [discriminate | left; exact T2].
      * right; left. repeat split; [discriminate | right; auto].
  - (* the delete never arrives *)
    intros H; injection H as <- <-. repeat split; auto.
  - (* the delete is carried out, its answer is lost *)
    intros H; injection H as <- <-.
    split; [exact Dother|]. do 5 (split; [assumption|]).
    destruct T1 as [[-> _]|[Ht _]];
      [left; split; [reflexivity | right; reflexivity]|].
    right; left. repeat split; [discriminate | left; exact Ht].
Qed.

(** ** Requests are atomic *)


(** ** The constraints hold after every request *)

Lemma existsb_false_not_In (A : Type) (p : A -> bool) (l : list A) (x : A) :
  existsb p l = false -> In x l -> p x = false.
Proof.
  intros H Hin. destruct (p x) eqn:E; [|reflexivity].
  assert (existsb p l = true) by (apply existsb_exists; exists x; auto).
  congruence.
Qed.

Lemma consistent_sign_up (id : uuid) (name : option text) (db : database) :
  consistent db -> consistent (snd (sign_up id name db)).
Proof.
  intros [Hu Hr Hk Hc Hm]. unfold sign_up.
  destruct (known_user db id) eqn:Ek; [constructor; assumption|].
  destruct (existsb _ (profiles db)); [constructor; assumption|].
  destruct (existsb _ (user_roles db)) eqn:Ee; [constructor; assumption|].
  constructor; cbn [snd auth_users user_roles conversations messages].
  - apply NoDup_snoc; [exact Hu|]. intros Hin.
    pose proof (existsb_false_not_In _ _ _ _ Ee Hin) as E. cbn in E.
    rewrite text_eqb_refl in E. discriminate.
  - intros r Hin. apply in_or_app. apply in_app_or in Hin.
    destruct Hin as [Hin|[<-|[]]]; [left; auto | right; left; reflexivity].
  - exact Hk.
  - intros c Hin. apply in_or_app. left. auto.
  - exact Hm.
Qed.

Lemma consistent_user_roles_delete (a : option uuid) (target : uuid)
  (db : database) :
  consistent db -> consistent (snd (user_roles_delete a target db)).
Proof.
  intros [Hu Hr Hk Hc Hm]. unfold user_roles_delete.
  destruct (has_role db a admin); [|constructor; assumption].
  constructor; cbn [snd set_user_roles auth_users user_roles conversations messages];
    try assumption.
  - apply NoDup_filter. exact Hu.
  - intros r Hin. apply filter_In in Hin. apply Hr; tauto.
Qed.

Lemma consistent_user_roles_insert (a : option uuid) (row : user_role)
  (db : database) :
  consistent db -> consistent (snd (user_roles_insert a row db)).
Proof.
  intros [Hu Hr Hk Hc Hm]. unfold user_roles_insert.
  destruct (negb (has_role db a admin)); [constructor; assumption|].
  destruct (known_user db (user_id row)) eqn:Ek; cbn [negb];
    [|constructor; assumption].
  destruct (existsb _ (user_roles db)) eqn:Ee; [constructor; assumption|].
  constructor; cbn [snd set_user_roles auth_users user_roles conversations messages];
    try assumption.
  - apply NoDup_snoc; [exact Hu|]. intros Hin.
    pose proof (existsb_false_not_In _ _ _ _ Ee Hin) as E. cbn in E.
    rewrite text_eqb_refl in E. destruct (role row); discriminate.
  - intros r Hin. apply in_app_or in Hin.
    destruct Hin as [Hin|[<-|[]]]; [auto | apply known_user_spec; exact Ek].
Qed.

Lemma consistent_set_legal_documents (ds : list legal_document) (db : database) :
  consistent db -> consistent (set_legal_documents ds db).
Proof. intros [Hu Hr Hk Hc Hm]. constructor; assumption. Qed.

Lemma consistent_conversations_insert (a : option uuid) (row : conversation)
  (db : database) :
  consistent db -> consistent (snd (conversations_insert a row db)).
Proof.
  intros [Hu Hr Hk Hc Hm]. unfold conversations_insert.
  destruct (negb (valid_text (conv_title row))); [constructor; assumption|].
  destruct (negb (uid_eqb a (conv_user_id row))); [constructor; assumption|].
  destruct (existsb _ (conversations db)) eqn:Ee; [constructor; assumption|].
  destruct (known_user db (conv_user_id row)) eqn:Ek; cbn [negb];
    [|constructor; assumption].
  constructor;
    cbn [snd set_conversations auth_users user_roles conversations messages];
    try assumption.
  - rewrite map_app. apply NoDup_snoc; [exact Hk|]. intros Hin.
    apply in_map_iff in Hin. destruct Hin as (c & E & Hin).
    pose proof (existsb_false_not_In _ _ _ _ Ee Hin) as E'. cbn in E'.
    rewrite E, text_eqb_refl in E'. discriminate.
  - intros c Hin. apply in_app_or in Hin.
    destruct Hin as [Hin|[<-|[]]]; [auto | apply known_user_spec; exact Ek].
  - intros m Hin. rewrite map_app. apply in_or_app. left. auto.
Qed.

Lemma consistent_conversations_retitle (a : option uuid) (id : uuid)
  (new_title : text) (db : database) :
  consistent db -> consistent (snd (conversations_retitle a id new_title db)).
Proof.
  intros [Hu Hr Hk Hc Hm]. unfold conversations_retitle.
  destruct (negb (valid_text new_title)); [constructor; assumption|].
  set (f := fun c => if text_eqb (conv_id c) id && uid_eqb a (conv_user_id c)
                     then {| conv_id := conv_id c; conv_user_id := conv_user_id c;
                             conv_title := new_title |}
                     else c).
  assert (Hid : map conv_id (map f (conversations db))
                = map conv_id (conversations db)).
  { rewrite map_map. apply map_ext. intros c. unfold f.
    destruct (_ && _); reflexivity. }
  constructor;
    cbn [snd set_conversations auth_users user_roles conversations messages];
    try assumption.
  - rewrite Hid. exact Hk.
  - intros c Hin. apply in_map_iff in Hin. destruct Hin as (c0 & <- & Hin).
    replace (conv_user_id (f c0)) with (conv_user_id c0)
      by (unfold f; destruct (_ && _); reflexivity).
    auto.
  - rewrite Hid. exact Hm.
Qed.

Lemma consistent_conversations_delete (a : option uuid) (id : uuid)
  (db : database) :
  consistent db -> consistent (snd (conversations_delete a id db)).
Proof.
  intros [Hu Hr Hk Hc Hm]. unfold conversations_delete.
  constructor;
    cbn [snd set_conversations auth_users user_roles conversations messages];
    try assumption.
  - apply unique_key_filter. exact Hk.
  - intros c Hin. apply filter_In in Hin. apply Hc; tauto.
  - intros m Hin. apply filter_In in Hin. destruct Hin as [Hin Hkeep].
    apply negb_true_iff in Hkeep.
    pose proof (Hm m Hin) as Href. apply in_map_iff in Href.
    destruct Href as (c & E & Hc').
    apply in_map_iff. exists c. split; [exact E|].
    apply filter_In. split; [exact Hc'|].
    destruct (deleted_by a id c) eqn:Ed; [|reflexivity].
    assert (Hgone : In c (filter (deleted_by a id) (conversations db)))
      by (apply filter_In; auto).
    pose proof (existsb_false_not_In _ _ _ _ Hkeep Hgone) as E'. cbn in E'.
    rewrite E, text_eqb_refl in E'. discriminate.
Qed.

Lemma consistent_messages_insert (a : option uuid) (row : message)
  (db : database) :
  consistent db -> consistent (snd (messages_insert a row db)).
Proof.
  intros [Hu Hr Hk Hc Hm]. unfold messages_insert.
  destruct (negb (valid_text (msg_role row) && valid_text (msg_content row)));
    [constructor; assumption|].
  destruct (existsb _ (conversations db)) eqn:Ee; cbn [negb];
    [|constructor; assumption].
  destruct (negb (role_check (msg_role row))); [constructor; assumption|].
  destruct (existsb _ (messages db)); [constructor; assumption|].
  constructor;
    cbn [snd set_conversations auth_users user_roles conversations messages];
    try assumption.
  intros m Hin. apply in_app_or in Hin. destruct Hin as [Hin|[<-|[]]]; [auto|].
  apply existsb_exists in Ee. destruct Ee as (c & Hin & E).
  apply andb_true_iff in E. destruct E as [E _]. apply text_eqb_spec in E.
  apply in_map_iff. exists c. auto.
Qed.

Lemma execute_consistent (r : request) (db : database) :
  consistent db -> consistent (snd (execute r db)).
Proof.
  intros H. destruct r; cbn [execute].
  - apply consistent_sign_up; exact H.
  - apply consistent_user_roles_delete; exact H.
  - apply consistent_user_roles_insert; exact H.
  - unfold legal_documents_insert.
    destruct (negb (document_text_valid row)); [exact H|].
    destruct (negb _); [exact H|].
    destruct auth_uid; [|exact H].
    repeat (match goal with
            | |- context [if ?b then _ else _] => destruct b
            end; cbn [snd]; try exact H).
    apply consistent_set_legal_documents; exact H.
  - unfold legal_documents_validate. destruct auth_uid; [|exact H].
    repeat (match goal with
            | |- context [if ?b then _ else _] => destruct b
            end; cbn [snd]; try exact H).
    apply consistent_set_legal_documents; exact H.
  - unfold legal_documents_delete. destruct auth_uid; [|exact H].
    destruct (has_role _ _ _); cbn [snd]; [|exact H].
    apply consistent_set_legal_documents; exact H.
  - apply consistent_conversations_insert; exact H.
  - apply consistent_conversations_retitle; exact H.
  - apply consistent_conversations_delete; exact H.
  - apply consistent_messages_insert; exact H.
Qed.

Lemma consistent_empty : consistent Backend.empty.
Proof. constructor; simpl; try constructor; contradiction. Qed.

Lemma reachable_consistent (start db : database) :
  consistent start -> reachable start db -> consistent db.
Proof.
  intros Hs Hr. induction Hr as [|db r _ IH]; [exact Hs|].
  apply execute_consistent; exact IH.
Qed.

Lemma send_consistent (t : transport) (r : request) (db : database) :
  consistent db -> consistent (snd (send t r db)).
Proof.
  intros H. destruct t; cbn [send snd]; [| exact H |];
    apply execute_consistent; exact H.
Qed.

(* ===================================================================== *)
(** * The claims about roles, documents and conversations *)
(* ===================================================================== *)

Lemma roles_of_NoDup (db : database) (u : uuid) :
  NoDup (user_roles db) -> NoDup (roles_of db u).
Proof.
  unfold roles_of. induction (user_roles db) as [|r rows IH]; simpl;
    intros H; [constructor|].
  inversion H as [|? ? Hr Hrows]; subst.
  destruct (text_eqb (user_id r) u) eqn:E; simpl; [|exact (IH Hrows)].
  constructor; [|exact (IH Hrows)].
  intros Hin. apply in_map_iff in Hin. destruct Hin as (r' & Er & Hin).
  apply filter_In in Hin. destruct Hin as [Hin E'].
  apply text_eqb_spec in E, E'. apply Hr.
  destruct r as [ru rr], r' as [ru' rr']. simpl in *. subst. exact Hin.
Qed.

Lemma roles_of_unknown (db : database) (u : uuid) :
  consistent db -> ~ In u (auth_users db) -> roles_of db u = [].
Proof.
  intros [_ Hr _ _ _] Hu. unfold roles_of.
  induction (user_roles db) as [|r rows IH]; simpl; [reflexivity|].
  destruct (text_eqb (user_id r) u) eqn:E.
  - exfalso. apply Hu. apply text_eqb_spec in E. subst u.
    apply Hr. left. reflexivity.
  - apply IH. intros r' Hin. apply Hr. right. exact Hin.
Qed.

(** C3, as the code has it.  In a database that satisfies the schema:
    a sign-up that succeeds leaves the new user with exactly the role
    [user]; no user holds the same role twice, the unique key being on
    the pair of user and role; every request keeps the schema
    constraints; and a role change that reports success leaves the target
    with exactly one role, the new one. *)
Theorem C3_roles_per_user :
  forall db : database,
    consistent db ->
    (forall id name db',
        sign_up id name db = (None, db') -> roles_of db' id = [user])
    /\ (forall u, NoDup (roles_of db u))
    /\ (forall r, consistent (snd (execute r db)))
    /\ (forall net s userId newRole db' t,
          handleRoleChange net s userId newRole db = (db', Some t) ->
          destructive t = false ->
          roles_of db' userId = [newRole] /\ consistent db').
Proof.
  intros db Hc. split; [|split; [|split]].
  - intros id name db'. unfold sign_up.
    destruct (known_user db id) eqn:Ek; [discriminate|].
    destruct (existsb _ (profiles db)); [discriminate|].
    destruct (existsb _ (user_roles db)); [discriminate|].
    intros H; injection H as <-.
    unfold roles_of. cbn [user_roles]. rewrite filter_app, map_app.
    fold (roles_of db id). rewrite (roles_of_unknown db id Hc).
    + simpl. rewrite text_eqb_refl. reflexivity.
    + intros Hin. apply known_user_spec in Hin. congruence.
  - intros u. apply roles_of_NoDup. destruct Hc; assumption.
  - intros r. apply execute_consistent; exact Hc.
  - intros net s userId newRole db' t H Hok.
    pose proof (handleRoleChange_outcome _ _ _ _ _ _ _ H)
      as (_ & _ & _ & _ & _ & _ & [[_ [E|E]]|[(E & _)|(_ & _ & _ & _ & _ & E)]]);
      try discriminate; try (simpl in E; congruence).
    split; [exact E|].
    revert H. unfold handleRoleChange.
    destruct (role_is admin s); cbn [negb]; [|discriminate].
    destruct (uid_eqb (session_user s) userId);
      [intros H; injection H as <- <-; exact Hc|].
    pose proof (send_consistent (fst net)
                  (RolesDelete (session_user s) userId) db Hc) as H1.
    destruct (send (fst net) _ db) as [[e1|] d1];
      [intros H; injection H as <- _; exact H1|].
    pose proof (send_consistent (snd net)
                  (RolesInsert (session_user s)
                     {| user_id := userId; role := newRole |}) d1 H1) as H2.
    destruct (send (snd net) _ d1) as [[e2|] d2];
      intros H; injection H as <- _; exact H2.
Qed.

(** C3, witness: the first sign-up, and an admin who makes a user an
    analyst. *)
Lemma C3_witness :
  let a := lit "a" in
  let u := lit "u" in
  let db := {| auth_users := [a; u]; profiles := [];
               user_roles := [{| user_id := a; role := admin |};
                              {| user_id := u; role := user |}];
               legal_documents := []; conversations := []; messages := [] |} in
  let s := {| session_user := Some a; session_role := Some admin |} in
  consistent Backend.empty
  /\ roles_of (snd (sign_up a None Backend.empty)) a = [user]
  /\ consistent db
  /\ roles_of (fst (handleRoleChange (Delivered, Delivered) s u legal_analyst db)) u
     = [legal_analyst].
Proof.
  intros a u db s.
  assert (Hdb : consistent db).
  { constructor; simpl.
    - repeat constructor; simpl; intuition discriminate.
    - intros r [<-|[<-|[]]]; simpl; auto.
    - constructor.
    - contradiction.
    - contradiction. }
  split; [exact consistent_empty|].
  split; [exact (proj1 (C3_roles_per_user Backend.empty consistent_empty)
                   a None _ eq_refl)|].
  split; [exact Hdb|].
  destruct (C3_roles_per_user db Hdb) as (_ & _ & _ & H).
  destruct (handleRoleChange (Delivered, Delivered) s u legal_analyst db)
    as [db' t] eqn:E.
  assert (Et : t = Some {| toast_title := lit "Role updated";
                           toast_description :=
                             Some (Plain
                               (lit "User role has been changed to legal_analyst."));
                           destructive := false |}).
  { vm_compute in E. injection E as _ <-. reflexivity. }
  subst t. exact (proj1 (H _ _ _ _ _ _ E eq_refl)).
Defined.

(** C3, as stated, fails.  The backend accepts a second role for a user
    who has one: the key is on the pair, not on the user.  And a role
    change whose delete is carried out and whose insert never arrives
    leaves the target without any role. *)
Lemma C3_counterexample :
  let a := lit "a" in
  let u := lit "u" in
  let db := {| auth_users := [a; u]; profiles := [];
               user_roles := [{| user_id := a; role := admin |};
                              {| user_id := u; role := user |}];
               legal_documents := []; conversations := []; messages := [] |} in
  let s := {| session_user := Some a; session_role := Some admin |} in
  roles_of db u = [user]
  /\ fst (execute (RolesInsert (Some a) {| user_id := u; role := admin |}) db)
     = None
  /\ roles_of
       (snd (execute (RolesInsert (Some a) {| user_id := u; role := admin |}) db))
       u
     = [user; admin]
  /\ roles_of (fst (handleRoleChange (Delivered, RequestLost) s u admin db)) u
     = [].
Proof. vm_compute. repeat split. Qed.

(** C10.  When the acting user's role is not [admin], or the target is
    the acting user, the role change leaves the database as it was,
    whatever the network would have done. *)
Theorem C10_role_change_guards :
  forall (net : transport * transport) (s : session) (userId : uuid)
         (newRole : app_role) (db : database),
    session_role s <> Some admin \/ session_user s = Some userId ->
    fst (handleRoleChange net s userId newRole db) = db
    /\ roles_of (fst (handleRoleChange net s userId newRole db)) userId
       = roles_of db userId.
Proof.
  intros net s userId newRole db H.
  assert (E : fst (handleRoleChange net s userId newRole db) = db).
  { unfold handleRoleChange.
    destruct (role_is admin s) eqn:Er; cbn [negb]; [|reflexivity].
    destruct (uid_eqb (session_user s) userId) eqn:Eu; [reflexivity|].
    exfalso. destruct H as [H|H].
    - apply H. apply role_is_spec. exact Er.
    - apply uid_eqb_spec in H. congruence. }
  rewrite E. split; reflexivity.
Qed.

(** C10, witness: an admin who picks a new role for themselves. *)
Lemma C10_witness :
  let a := lit "a" in
  let db := {| auth_users := [a]; profiles := [];
               user_roles := [{| user_id := a; role := admin |}];
               legal_documents := []; conversations := []; messages := [] |} in
  let s := {| session_user := Some a; session_role := Some admin |} in
  session_user s = Some a
  /\ fst (handleRoleChange (Delivered, Delivered) s a user db) = db.
Proof.
  intros a db s. split; [reflexivity|].
  exact (proj1 (C10_role_change_guards (Delivered, Delivered) s a user db
                  (or_intror eq_refl))).
Defined.

(** C5.  A document that is not validated and was uploaded by [U1] is
    left out of what a caller whose highest role is [user] and who is not
    [U1] is shown, and is part of what [U1], an admin or a legal analyst
    is shown. *)
Theorem C5_document_visibility :
  forall (db : database) (d : legal_document) (U1 caller : uuid),
    In d (legal_documents db) ->
    validated d <> Some true ->
    uploaded_by d = Some U1 ->
    (get_user_role db (Some caller) = Some user -> caller <> U1 ->
     ~ In d (legal_documents_select (Some caller) db)
     /\ ~ In d (fetchDocuments Delivered
                  {| session_user := Some caller; session_role := Some user |}
                  [] db))
    /\ (caller = U1
        \/ has_role db (Some caller) admin = true
        \/ has_role db (Some caller) legal_analyst = true ->
        In d (legal_documents_select (Some caller) db)).
Proof.
  intros db d U1 caller Hin Hval Hup.
  unfold fetchDocuments, legal_documents_select. cbn [session_user].
  split.
  - intros Hrole Hne.
    assert (Hno : may_view db (Some caller) d = false).
    { unfold get_user_role in Hrole. unfold may_view. rewrite Hup.
      destruct (has_role db (Some caller) admin); [discriminate|].
      destruct (has_role db (Some caller) legal_analyst); [discriminate|].
      assert (E : text_eqb U1 caller = false)
        by (apply text_eqb_neq; congruence).
      cbn [sql_uuid_eq]. rewrite E.
      destruct (validated d) as [[|]|]; [congruence | reflexivity | reflexivity]. }
    assert (H : ~ In d (filter (may_view db (Some caller)) (legal_documents db))).
    { intros H. apply filter_In in H. destruct H as [_ H]. congruence. }
    split; exact H.
  - intros H. apply filter_In. split; [exact Hin|].
    unfold may_view. rewrite Hup. cbn [sql_uuid_eq].
    destruct H as [->|[H|H]].
    + rewrite text_eqb_refl.
      destruct (validated d) as [[|]|], (has_role db (Some U1) admin),
        (has_role db (Some U1) legal_analyst); reflexivity.
    + rewrite H.
      destruct (validated d) as [[|]|], (text_eqb U1 caller),
        (has_role db (Some caller) legal_analyst); reflexivity.
    + rewrite H.
      destruct (validated d) as [[|]|], (text_eqb U1 caller),
        (has_role db (Some caller) admin); reflexivity.
Qed.

(** C5, witness: the fixture of the specification. *)
Lemma C5_witness :
  let U1 := lit "U1" in
  let U2 := lit "U2" in
  let lease :=
    {| doc_id := lit "d1"; title := lit "Lease Act"; description := None;
       content := None; file_path := None; domain := property;
       jurisdiction := None; year := None; tags := None;
       uploaded_by := Some U1; validated := Some false;
       validated_by := None |} in
  let db := {| auth_users := [U1; U2]; profiles := [];
               user_roles := [{| user_id := U1; role := user |};
                              {| user_id := U2; role := user |}];
               legal_documents := [lease]; conversations := [];
               messages := [] |} in
  get_user_role db (Some U2) = Some user
  /\ ~ In lease (legal_documents_select (Some U2) db)
  /\ In lease (legal_documents_select (Some U1) db).
Proof.
  intros U1 U2 lease db.
  assert (Hrole : get_user_role db (Some U2) = Some user) by reflexivity.
  assert (Hin : In lease (legal_documents db)) by (left; reflexivity).
  assert (Hval : validated lease <> Some true) by discriminate.
  split; [exact Hrole|]. split.
  - refine (proj1 (proj1 (C5_document_visibility db lease U1 U2 Hin Hval eq_refl)
                     Hrole _)).
    vm_compute. discriminate.
  - exact (proj2 (C5_document_visibility db lease U1 U1 Hin Hval eq_refl)
             (or_introl eq_refl)).
Defined.

(** C6.  In every database reached by requests from one that satisfies
    the schema, every message refers to a conversation that is there, so
    that an id without a conversation has no messages; and when the owner
    of a conversation deletes it and the request is carried out, no
    message of that conversation and no conversation with that id
    remain. *)
Theorem C6_cascade_delete :
  forall (start db : database),
    consistent start ->
    reachable start db ->
    (forall m, In m (messages db) ->
               exists c, In c (conversations db)
                         /\ conv_id c = conversation_id m)
    /\ (forall id, ~ In id (map conv_id (conversations db)) ->
                   messages_of db id = [])
    /\ (forall (net : transport) (s : session) (view : chat_view)
               (c : conversation),
          In c (conversations db) ->
          session_user s = Some (conv_user_id c) ->
          net <> RequestLost ->
          let db' := fst (fst (deleteConversation net s (conv_id c) view db)) in
          messages_of db' (conv_id c) = []
          /\ ~ In (conv_id c) (map conv_id (conversations db'))
          /\ consistent db').
Proof.
  intros start db Hs Hr.
  pose proof (reachable_consistent start db Hs Hr) as Hc.
  split; [|split].
  - intros m Hm. destruct Hc as [_ _ _ _ Href].
    pose proof (Href m Hm) as H. apply in_map_iff in H.
    destruct H as (c & E & Hin). exists c. auto.
  - intros id Hid. destruct Hc as [_ _ _ _ Href]. unfold messages_of.
    induction (messages db) as [|m ms IH]; simpl; [reflexivity|].
    destruct (text_eqb (conversation_id m) id) eqn:E.
    + exfalso. apply Hid. apply text_eqb_spec in E. rewrite <- E.
      apply Href. left. reflexivity.
    + apply IH. intros m' Hm'. apply Href. right. exact Hm'.
  - intros net s view c Hin Hown Hnet. cbv zeta.
    set (id := conv_id c).
    assert (Hdel : deleted_by (session_user s) id c = true).
    { unfold deleted_by, id. rewrite text_eqb_refl, Hown. simpl.
      apply text_eqb_refl. }
    assert (E : fst (fst (deleteConversation net s id view db))
                = snd (conversations_delete (session_user s) id db)).
    { unfold deleteConversation.
      destruct net; cbn [send execute]; [reflexivity | contradiction | reflexivity]. }
    rewrite E. split; [|split].
    + unfold messages_of, conversations_delete.
      cbn [snd set_conversations messages].
      induction (messages db) as [|m ms IH]; simpl; [reflexivity|].
      destruct (existsb _ (filter _ (conversations db))) eqn:Ex; simpl;
        [exact IH|].
      destruct (text_eqb (conversation_id m) id) eqn:Em; [|exact IH].
      exfalso.
      assert (Hgone : In c (filter (deleted_by (session_user s) id)
                              (conversations db)))
        by (apply filter_In; auto).
      pose proof (existsb_false_not_In _ _ _ _ Ex Hgone) as E'. cbn in E'.
      apply text_eqb_spec in Em. fold id in E'. rewrite Em, text_eqb_refl in E'.
      discriminate.
    + unfold conversations_delete. cbn [snd set_conversations conversations].
      intros H. apply in_map_iff in H. destruct H as (c' & Eid & Hin').
      apply filter_In in Hin'. destruct Hin' as [Hin' Hkeep].
      destruct Hc as [_ _ Hkey _ _].
      assert (c' = c)
        by (eapply NoDup_map_injective; eauto).
      subst c'. rewrite Hdel in Hkeep. discriminate.
    + apply consistent_conversations_delete. exact Hc.
Qed.

(** C6, witness: a conversation with two messages, deleted by its
    owner. *)
Lemma C6_witness :
  let u := lit "u" in
  let c := {| conv_id := lit "c1"; conv_user_id := u;
              conv_title := lit "New Conversation" |} in
  let m1 := {| msg_id := lit "m1"; conversation_id := lit "c1";
               msg_role := lit "user"; msg_content := lit "hello";
               sources := None |} in
  let m2 := {| msg_id := lit "m2"; conversation_id := lit "c1";
               msg_role := lit "assistant"; msg_content := lit "hi";
               sources := None |} in
  let db := snd (execute (MessagesInsert (Some u) m2)
              (snd (execute (MessagesInsert (Some u) m1)
                 (snd (execute (ConversationsInsert (Some u) c)
                    (snd (execute (SignUp u None) Backend.empty))))))) in
  let s := {| session_user := Some u; session_role := Some user |} in
  let view := {| shown_conversations := [c];
                 activeConversationId := Some (lit "c1") |} in
  messages_of db (lit "c1") = [m1; m2]
  /\ messages_of (fst (fst (deleteConversation Delivered s (lit "c1") view db)))
       (lit "c1")
     = [].
Proof.
  intros u c m1 m2 db s view.
  split; [reflexivity|].
  assert (Hr : reachable Backend.empty db) by (repeat constructor).
  refine (proj1 (proj2 (proj2 (C6_cascade_delete Backend.empty db
                                 consistent_empty Hr))
                   Delivered s view c _ eq_refl _)).
  - left. reflexivity.
  - discriminate.
Defined.

(** C7.  When an upload through the Documents page succeeds, exactly one
    row is added, and its [validated] flag is true if and only if the
    role of the session is [admin]. *)
Theorem C7_upload_validated_flag :
  forall (RT : Runtime) (net : transport) (id : uuid) (s : session)
         (f : upload_form) (db db' : database) (t : toast),
    handleUpload net id s f db = (db', t) ->
    destructive t = false ->
    exists d,
      legal_documents db' = legal_documents db ++ [d]
      /\ doc_id d = id
      /\ title d = uploadTitle f
      /\ uploaded_by d = session_user s
      /\ validated d = Some (role_is admin s)
      /\ (validated d = Some true <-> session_role s = Some admin).
Proof.
  intros RT net id s f db db' t. unfold handleUpload.
  destruct (session_user s) as [uploader|] eqn:Eu;
    [|intros H; injection H as <- <-; discriminate].
  destruct (is_empty (uploadTitle f) || is_empty (uploadContent f));
    [intros H; injection H as <- <-; discriminate|].
  set (row := upload_row id uploader s f).
  assert (Hexec : forall e d1,
             execute (DocumentsInsert (Some uploader) row) db = (e, d1) ->
             e = None ->
             legal_documents d1 = legal_documents db ++ [row]).
  { intros e d1. cbn [execute]. unfold legal_documents_insert.
    repeat (match goal with
            | |- context [if ?b then _ else _] => destruct b
            end; try (intros H; injection H as <- <-; discriminate)).
    intros H; injection H as <- <-. reflexivity. }
  destruct net; cbn [send].
  - destruct (execute (DocumentsInsert (Some uploader) row) db) as [e d1] eqn:E.
    destruct e as [err|]; intros H; injection H as <- <-; [discriminate|].
    intros _. exists row. split; [exact (Hexec _ _ eq_refl eq_refl)|].
    repeat split.
    + intros H. injection H as H. apply role_is_spec. exact H.
    + intros H. apply role_is_spec in H. cbn [row upload_row validated].
      rewrite H. reflexivity.
  - intros H; injection H as <- <-; discriminate.
  - intros H; injection H as <- <-; discriminate.
Qed.

(** C7, witness: an analyst uploads; the document is added unvalidated. *)
Lemma C7_witness :
  let an := lit "an" in
  let db := {| auth_users := [an]; profiles := [];
               user_roles := [{| user_id := an; role := legal_analyst |}];
               legal_documents := []; conversations := []; messages := [] |} in
  let s := {| session_user := Some an; session_role := Some legal_analyst |} in
  let f := {| uploadTitle := lit "Lease Act"; uploadDescription := [];
              uploadDomain := property; uploadJurisdiction := [];
              uploadYear := lit "1995"; uploadTags := lit "lease, rent";
              uploadContent := lit "An Act about leases." |} in
  let result := handleUpload (RT := reference_runtime) Delivered (lit "d1") s f db in
  destructive (snd result) = false
  /\ map validated (legal_documents (fst result)) = [Some false]
  /\ map year (legal_documents (fst result)) = [Some 1995%Z]
  /\ map tags (legal_documents (fst result)) = [Some [lit "lease"; lit "rent"]].
Proof.
  intros an db s f result.
  assert (Hok : destructive (snd result) = false) by (vm_compute; reflexivity).
  split; [exact Hok|].
  destruct (C7_upload_validated_flag reference_runtime Delivered (lit "d1") s f db
              (fst result) (snd result) (surjective_pairing _) Hok)
    as (d & Hd & _ & _ & _ & Hv & _).
  split; [rewrite Hd, map_app; simpl; rewrite Hv; reflexivity|].
  split; vm_compute; reflexivity.
Defined.

(* ===================================================================== *)
(** * More about the stream parser *)
(* ===================================================================== *)

Section MoreStreamFacts.
Context {RT : Runtime}.

(** After a parse failure, any number of later chunks changes neither
    the text nor the snapshots. *)
Lemma feed_all_stalled (ts : list text) :
  forall st st' : parser_state,
    drain st = (ParseFailure, st') ->
    assistantContent (feed_all ts st') = assistantContent st'
    /\ emitted (feed_all ts st') = emitted st'.
Proof.
  induction ts as [|t ts IH]; intros st st' H; simpl; [auto|].
  destruct (stalled_forever st st' t H) as (Hw & Hc & He).
  rewrite feed_extend.
  destruct (drain (extend t st')) as [w st2] eqn:E. simpl in Hw, Hc, He.
  subst w. simpl snd.
  destruct (IH (extend t st') st2 E) as [Hc2 He2].
  rewrite Hc2, He2. auto.
Qed.

(** Chunk by chunk, the parser ends with the text and the snapshots of
    the inner loop on the whole text, unless that loop is left at a
    sentinel. *)
Lemma feed_all_agrees (ts : list text) :
  forall (st st' : parser_state) (why : loop_exit),
    ~ In NL (buffer st) ->
    drain (extend (List.concat ts) st) = (why, st') ->
    why <> Sentinel ->
    assistantContent (feed_all ts st) = assistantContent st'
    /\ emitted (feed_all ts st) = emitted st'.
Proof.
  induction ts as [|t ts IH]; intros st st' why Hb; simpl.
  - rewrite extend_nil, drain_no_newline by exact Hb.
    intros H; injection H as <- <-. auto.
  - rewrite <- extend_extend, drain_extend, feed_extend.
    destruct (drain (extend t st)) as [w1 st1] eqn:E1. simpl snd.
    destruct w1.
    + intros H Hw. eapply IH; eauto. eapply drain_NoNewline_buffer; eauto.
    + intros H; injection H as <- <-. intros Hw. contradiction.
    + intros H; injection H as <- <-. intros _.
      exact (feed_all_stalled ts (extend t st) st1 E1).
Qed.

Lemma last_behind (l : list text) :
  forall y start : text, last (y :: l) start = last l y.
Proof.
  induction l as [|t l IH]; intros y start; [reflexivity|].
  change (last (y :: t :: l) start) with (last (t :: l) start).
  rewrite (IH t start), (IH t y). reflexivity.
Qed.

Lemma each_extends_snoc (l : list text) :
  forall (start x : text),
    each_extends start l -> (exists d, x = last l start ++ d) ->
    each_extends start (l ++ [x]).
Proof.
  induction l as [|y l IH]; intros start x Hl Hx.
  - simpl in *. split; [exact Hx | exact I].
  - destruct Hl as [Hy Hl]. split; [exact Hy|].
    apply IH; [exact Hl|].
    destruct Hx as [d Hd]. exists d. rewrite Hd, last_behind. reflexivity.
Qed.

Lemma chain_set_buffer (b : text) (st : parser_state) :
  chain st -> chain (set_buffer b st).
Proof. intros H; exact H. Qed.

Lemma try_block_chain (j : text) (st st' : parser_state) :
  chain st -> try_block j st = Returned st' -> chain st'.
Proof.
  intros [He Hc]. unfold try_block.
  destruct (JSON_parse j) as [parsed|]; [|discriminate].
  destruct (delta_content parsed) as [content|]; [|discriminate].
  destruct (truthy content);
    [|intros H; injection H as <-; split; assumption].
  destruct content as [|v]; [intros H; injection H as <-; split; assumption|].
  destruct (ToString v) as [s|]; [|discriminate].
  intros H; injection H as <-. split; cbn [emitted assistantContent].
  - apply each_extends_snoc; [exact He|]. exists s. rewrite Hc. reflexivity.
  - rewrite last_last. reflexivity.
Qed.

Lemma loop_body_chain (l : text) (st : parser_state) :
  chain st -> chain (snd (loop_body l st)).
Proof.
  intros H. rewrite loop_body_strip. cbv zeta.
  destruct (_ || _); [exact H|].
  destruct (negb _); [exact H|].
  destruct (text_eqb _ (lit "[DONE]")); [exact H|].
  destruct (try_block _ st) as [st'|] eqn:E; [|exact H].
  exact (try_block_chain _ _ _ H E).
Qed.

Lemma drain_chain_bounded (n : nat) :
  forall st, List.length (buffer st) <= n -> chain st -> chain (snd (drain st)).
Proof.
  induction n as [|n IH]; intros st Hn Hc; rewrite drain_unfold;
    destruct (indexOf NL (buffer st)) as [i|] eqn:Ei; try exact Hc.
  - apply skipn_newline_shorter in Ei. lia.
  - cbv zeta.
    pose proof (loop_body_chain (slice_to i (buffer st))
                  (set_buffer (slice_from (S i) (buffer st)) st) Hc) as Hc2.
    destruct (loop_body _ _) as [[|why] st2] eqn:Eb; [|exact Hc2].
    apply IH; [|exact Hc2].
    apply loop_body_continue_buffer in Eb. cbn [buffer set_buffer] in Eb.
    rewrite Eb. apply skipn_newline_shorter in Ei. unfold slice_from. lia.
Qed.

Lemma feed_chain (t : text) (st : parser_state) : chain st -> chain (feed t st).
Proof.
  intros H. unfold feed.
  apply (drain_chain_bounded (List.length (buffer st ++ t))); [reflexivity|].
  exact H.
Qed.

Lemma read_loop_chain (chunks : list (list byte)) :
  forall rs, chain (parser rs) -> chain (parser (read_loop chunks rs)).
Proof.
  unfold read_loop.
  induction chunks as [|c chunks IH]; intros rs H; simpl; [exact H|].
  apply IH. unfold on_chunk.
  destruct (decode (decoder rs) c) as [d t]. cbn [parser].
  apply feed_chain. exact H.
Qed.

(** A line that is no data line is passed over. *)
Lemma loop_body_not_data (l : text) (st : parser_state) :
  is_data_line l = false -> loop_body l st = (Continue, st).
Proof.
  intros H. rewrite loop_body_strip. cbv zeta.
  unfold is_data_line in H. rewrite H.
  destruct (_ || _); reflexivity.
Qed.

End MoreStreamFacts.

(** X1.  However the bytes of a response are cut into chunks, the
    accumulated text and the snapshots are those of the same bytes arriving
    in one chunk, and so is what [sendMessage] renders, reports and saves,
    as long as none of the complete lines is a sentinel line. *)
Theorem X1_any_chunking_same_reply :
  forall (RT : Runtime) (chunks : list (list byte)) (ls : list text)
         (tail : text),
    Forall (fun l => ~ In NL l) ls ->
    Forall (fun l => is_sentinel_line l = false) ls ->
    ~ In NL tail ->
    snd (decode decoder_start (List.concat chunks)) = lines_text ls ++ tail ->
    let cut := parser (read_loop chunks reader_start) in
    let whole := parser (read_loop [List.concat chunks] reader_start) in
    assistantContent cut = assistantContent whole
    /\ emitted cut = emitted whole
    /\ (forall (code : Z) (e : option text),
          stream_reply
            (Resolved {| status := code;
                         body := Some {| chunks := chunks; read_error := e |} |})
          = stream_reply
              (Resolved {| status := code;
                           body := Some {| chunks := [List.concat chunks];
                                           read_error := e |} |})).
Proof.
  intros RT chunks ls tail Hls Hnone Htail Hdec cut whole.
  assert (Ew : whole = snd (drain (extend (lines_text ls ++ tail) initial))).
  { unfold whole, read_loop, on_chunk. simpl fold_left.
    cbn [decoder reader_start].
    destruct (decode decoder_start (List.concat chunks)) as [d t] eqn:E.
    simpl in Hdec. subst t. reflexivity. }
  assert (H : assistantContent cut = assistantContent whole
              /\ emitted cut = emitted whole).
  { rewrite Ew. unfold cut. rewrite read_loop_feed_all.
    cbn [decoder parser reader_start].
    destruct (drain (extend (lines_text ls ++ tail) initial)) as [why st'] eqn:E.
    apply (feed_all_agrees _ initial st' why).
    - simpl; tauto.
    - rewrite chunk_texts_concat, Hdec. exact E.
    - intros ->. unfold extend in E. cbn [buffer initial app] in E.
      pose proof (drain_sentinel_line ls tail initial st' Hls Htail E) as Hex.
      apply Exists_exists in Hex. destruct Hex as (l & Hin & Hs).
      rewrite Forall_forall in Hnone. rewrite (Hnone l Hin) in Hs.
      discriminate. }
  destruct H as [Hc He]. split; [exact Hc|]. split; [exact He|].
  intros code e.
  set (r1 := {| status := code;
                body := Some {| chunks := chunks; read_error := e |} |}).
  set (r2 := {| status := code;
                body := Some {| chunks := [List.concat chunks];
                                read_error := e |} |}).
  assert (Hok : ok r2 = ok r1) by reflexivity.
  unfold stream_reply. rewrite Hok.
  destruct (negb (ok r1)); [reflexivity|].
  unfold r1, r2. cbn [body Stream.chunks read_error].
  fold cut. fold whole. rewrite Hc, He. reflexivity.
Qed.

(** X1, witness: a comment line and two data lines, cut into five chunks
    of seven, thirty, one and forty bytes and the rest. *)
Lemma X1_witness :
  let l1 := lit ": ping" in
  let l2 := lit "data: " ++ json_lit "{'choices':[{'delta':{'content':'Good '}}]}" in
  let l3 := lit "data: " ++ json_lit "{'choices':[{'delta':{'content':'day'}}]}" in
  let bytes := ascii_bytes (lines_text [l1; l2; l3]) in
  let chunks := [firstn 7 bytes; firstn 30 (skipn 7 bytes);
                 firstn 1 (skipn 37 bytes); firstn 40 (skipn 38 bytes);
                 skipn 78 bytes] in
  snd (decode (RT := reference_runtime) decoder_start (List.concat chunks))
  = lines_text [l1; l2; l3] ++ []
  /\ emitted (parser (read_loop (RT := reference_runtime) chunks reader_start))
     = emitted (parser (read_loop (RT := reference_runtime)
                          [List.concat chunks] reader_start))
  /\ emitted (parser (read_loop (RT := reference_runtime) chunks reader_start))
     = [lit "Good "; lit "Good day"].
Proof.
  intros l1 l2 l3 bytes chunks.
  assert (Hdec : snd (decode (RT := reference_runtime) decoder_start
                        (List.concat chunks))
                 = lines_text [l1; l2; l3] ++ [])
    by (vm_compute; reflexivity).
  split; [exact Hdec|]. split; [|vm_compute; reflexivity].
  refine (proj1 (proj2 (X1_any_chunking_same_reply reference_runtime chunks
                          [l1; l2; l3] [] _ _ _ Hdec))).
  - repeat constructor; vm_compute; intuition discriminate.
  - repeat constructor.
  - simpl; tauto.
Defined.

(** X2.  A complete data line whose payload makes the [try] block throw
    blocks the stream for good: the line and whatever arrives after it, in
    the same chunk or in any later chunk, is never read, so the accumulated
    text and the snapshots stay as they were before the line. *)
Theorem X2_failing_line_blocks_the_stream :
  forall (RT : Runtime) (bad rest : text) (later : list text)
         (st : parser_state),
    buffer st = [] ->
    ~ In NL bad ->
    is_failing_line bad = true ->
    let final := feed_all ((bad ++ NL :: rest) :: later) st in
    assistantContent final = assistantContent st
    /\ emitted final = emitted st
    /\ buffer final <> [].
Proof.
  intros RT bad rest later st Hb Hn Hf final.
  assert (E : drain (extend (bad ++ NL :: rest) st)
              = (ParseFailure, set_buffer (strip_cr bad ++ NL :: rest) st)).
  { unfold extend. rewrite Hb. cbn [app].
    exact (drain_failing_line bad rest st Hn Hf). }
  assert (Ef : final
               = feed_all later (set_buffer (strip_cr bad ++ NL :: rest) st)).
  { unfold final. cbn [feed_all fold_left]. rewrite feed_extend, E. reflexivity. }
  destruct (feed_all_stalled later _ _ E) as [Hc He].
  rewrite Ef. split; [exact Hc|]. split; [exact He|].
  clear Ef Hc He final.
  revert E. generalize (extend (bad ++ NL :: rest) st).
  generalize (set_buffer (strip_cr bad ++ NL :: rest) st).
  induction later as [|t later IH]; intros st1 st0 E.
  - destruct (drain_failure_shape _ st0 st1 (le_n _) E) as (l & z & Eb & _).
    simpl. rewrite Eb. intros H. apply app_eq_nil in H. destruct H; discriminate.
  - cbn [feed_all fold_left]. rewrite feed_extend.
    destruct (stalled_forever st0 st1 t E) as (Hw & _).
    destruct (drain (extend t st1)) as [w st2] eqn:E2. simpl in Hw. subst w.
    exact (IH st2 (extend t st1) E2).
Qed.

(** X2, witness: a truncated payload, then a data line that would add
    text, in the same chunk and in a later one. *)
Lemma X2_witness :
  let bad := lit "data: " ++ json_lit "{'choices':[{'delta'" in
  let good := lit "data: " ++ json_lit "{'choices':[{'delta':{'content':'Hi'}}]}" in
  is_failing_line (RT := reference_runtime) bad = true
  /\ emitted (feed_all (RT := reference_runtime)
                [bad ++ NL :: good ++ [NL]; good ++ [NL]] initial)
     = []
  /\ emitted (feed_all (RT := reference_runtime) [good ++ [NL]] initial)
     = [lit "Hi"].
Proof.
  intros bad good.
  assert (Hf : is_failing_line (RT := reference_runtime) bad = true)
    by (vm_compute; reflexivity).
  split; [exact Hf|]. split; [|vm_compute; reflexivity].
  refine (proj1 (proj2 (X2_failing_line_blocks_the_stream reference_runtime
                          bad (good ++ [NL]) [good ++ [NL]] initial
                          eq_refl _ Hf))).
  vm_compute; intuition discriminate.
Defined.

(** X3.  Whatever bytes arrive, in whatever chunks: every snapshot the
    loop emits continues the one before it, the accumulated text is the
    last snapshot (or empty when there is none), and so the assistant
    message that [sendMessage] saves is the last text it rendered. *)
Theorem X3_snapshots_continue_one_another :
  forall (RT : Runtime),
    (forall chunks : list (list byte),
        let st := parser (read_loop chunks reader_start) in
        each_extends [] (emitted st)
        /\ assistantContent st = last (emitted st) [])
    /\ (forall f : fetched,
          each_extends [] (snapshots (stream_reply f))
          /\ (forall t, saved (stream_reply f) = Some t ->
                        t = last (snapshots (stream_reply f)) [])).
Proof.
  intros RT.
  assert (H : forall chunks, chain (parser (read_loop chunks reader_start))).
  { intros chunks. apply read_loop_chain. split; [exact I | reflexivity]. }
  split; [exact H|].
  intros [message|r]; unfold stream_reply.
  - split; [exact I | discriminate].
  - destruct (negb (ok r)); [split; [exact I | discriminate]|].
    destruct (body r) as [b|];
      [|split; [exact I | intros t E; injection E as <-; reflexivity]].
    destruct (H (chunks b)) as [He Hc].
    destruct (read_error b); cbn [snapshots saved];
      (split; [exact He|]); [discriminate|].
    intros t E; injection E as <-. exact Hc.
Qed.

(** X4.  Only lines that begin with the six characters [data: ] are
    read: whatever other complete lines a buffer holds, comment and blank
    lines, lines of other fields, [data:] without the space, the loop ends
    the same way, with the same accumulated text and the same snapshots,
    as on the buffer without them. *)
Theorem X4_only_data_lines_count :
  forall (RT : Runtime) (ls : list text) (tail : text) (st : parser_state),
    Forall (fun l => ~ In NL l) ls ->
    let every := drain (set_buffer (lines_text ls ++ tail) st) in
    let data_only :=
      drain (set_buffer (lines_text (filter is_data_line ls) ++ tail) st) in
    fst every = fst data_only
    /\ assistantContent (snd every) = assistantContent (snd data_only)
    /\ emitted (snd every) = emitted (snd data_only).
Proof.
  intros RT ls tail st Hls. cbv zeta. revert st.
  induction Hls as [|l ls Hl _ IH]; intros st.
  - simpl. auto.
  - rewrite lines_text_cons, <- app_assoc, <- app_comm_cons.
    rewrite (drain_line l _ st Hl).
    cbn [filter]. destruct (is_data_line l) eqn:Ed.
    + rewrite lines_text_cons, <- app_assoc, <- app_comm_cons.
      rewrite (drain_line l _ st Hl), !(loop_body_set_buffer l _ st).
      destruct (loop_body l st) as [[|[| |]] st'];
        [apply IH | simpl; auto ..].
    + rewrite (loop_body_not_data l _ Ed). apply IH.
Qed.

(** X4, witness: an event line, a [data:] line without the space and a
    blank line around one data line. *)
Lemma X4_witness :
  let l1 := lit "event: message" in
  let l2 := json_lit "data:{'choices':[{'delta':{'content':'lost'}}]}" in
  let l3 := lit "data: " ++ json_lit "{'choices':[{'delta':{'content':'kept'}}]}" in
  filter is_data_line [l1; l2; []; l3] = [l3]
  /\ emitted (snd (drain (RT := reference_runtime)
                     (set_buffer (lines_text [l1; l2; []; l3] ++ []) initial)))
     = emitted (snd (drain (RT := reference_runtime)
                       (set_buffer (lines_text [l3] ++ []) initial)))
  /\ emitted (snd (drain (RT := reference_runtime)
                     (set_buffer (lines_text [l3] ++ []) initial)))
     = [lit "kept"].
Proof.
  intros l1 l2 l3.
  split; [vm_compute; reflexivity|]. split; [|vm_compute; reflexivity].
  refine (proj2 (proj2 (X4_only_data_lines_count reference_runtime
                          [l1; l2; []; l3] [] initial _))).
  repeat constructor; vm_compute; intuition discriminate.
Defined.

(* ===================================================================== *)
(** * More about the database *)
(* ===================================================================== *)

(** ** Roles *)

Lemma has_role_roles_of (db : database) (u : uuid) (r : app_role) :
  has_role db (Some u) r = true <-> In r (roles_of db u).
Proof.
  unfold has_role, roles_of. rewrite existsb_exists, in_map_iff. split.
  - intros (row & Hin & H). apply andb_true_iff in H. destruct H as [Hu Hr].
    exists row. split; [apply app_role_eqb_spec; exact Hr|].
    apply filter_In. split; [exact Hin|].
    cbn [uid_eqb] in Hu. rewrite text_eqb_sym. exact Hu.
  - intros (row & Hr & Hin). apply filter_In in Hin. destruct Hin as [Hin Hu].
    exists row. split; [exact Hin|]. apply andb_true_iff. split.
    + cbn [uid_eqb]. rewrite text_eqb_sym. exact Hu.
    + apply app_role_eqb_spec. exact Hr.
Qed.

Lemma has_role_null (db : database) (r : app_role) : has_role db None r = false.
Proof.
  unfold has_role. induction (user_roles db) as [|x l IH]; [reflexivity|].
  simpl. exact IH.
Qed.

Lemma has_role_app (db : database) (rows : list user_role) (a : option uuid)
  (r : app_role) :
  has_role (set_user_roles (user_roles db ++ rows) db) a r
  = has_role db a r
    || existsb (fun x => uid_eqb a (user_id x) && app_role_eqb (role x) r) rows.
Proof. unfold has_role. cbn [user_roles set_user_roles]. apply existsb_app. Qed.

(** What a request of somebody who is not an admin does to [user_roles]:
    nothing, or, for a sign-up, one more row with the role [user]. *)
Lemma user_roles_without_admin (r : request) (db : database) :
  has_role db (caller_of r) admin = false ->
  user_roles (snd (execute r db)) = user_roles db
  \/ exists id, (exists name, r = SignUp id name)
                /\ user_roles (snd (execute r db))
                   = user_roles db ++ [{| user_id := id; role := user |}].
Proof.
  intros Ha. destruct r; cbn [execute caller_of] in *.
  - unfold sign_up.
    destruct (known_user db id); [left; reflexivity|].
    destruct (existsb _ (profiles db)); [left; reflexivity|].
    destruct (existsb _ (user_roles db)); [left; reflexivity|].
    right. exists id. split; [exists name; reflexivity | reflexivity].
  - unfold user_roles_delete. rewrite Ha. left; reflexivity.
  - unfold user_roles_insert. rewrite Ha. left; reflexivity.
  - unfold legal_documents_insert.
    destruct (negb (document_text_valid row)); [left; reflexivity|].
    destruct (negb match year row with | Some z => int4 z | None => true end); [left; reflexivity|].
    destruct auth_uid; [|left; reflexivity].
    repeat (match goal with
            | |- context [if ?b then _ else _] => destruct b
            end; try (left; reflexivity)).
  - unfold legal_documents_validate.
    destruct auth_uid; [|left; reflexivity].
    repeat (match goal with
            | |- context [if ?b then _ else _] => destruct b
            end; try (left; reflexivity)).
  - unfold legal_documents_delete.
    destruct auth_uid; [|left; reflexivity].
    destruct (has_role db _ admin); left; reflexivity.
  - unfold conversations_insert.
    repeat (match goal with
            | |- context [if ?b then _ else _] => destruct b
            end; try (left; reflexivity)).
  - unfold conversations_retitle.
    destruct (negb (valid_text new_title)); left; reflexivity.
  - left; reflexivity.
  - unfold messages_insert.
    repeat (match goal with
            | |- context [if ?b then _ else _] => destruct b
            end; try (left; reflexivity)).
Qed.

Lemma has_role_one_more (id : uuid) (a : option uuid) (r : app_role)
  (db db' : database) :
  user_roles db' = user_roles db ++ [{| user_id := id; role := user |}] ->
  has_role db' a r
  = has_role db a r || (uid_eqb a id && app_role_eqb user r).
Proof.
  intros E. unfold has_role. rewrite E, existsb_app. simpl.
  rewrite orb_false_r. reflexivity.
Qed.

Lemma roles_without_admin (r : request) (db : database) (a : option uuid)
  (ro : app_role) :
  has_role db (caller_of r) admin = false ->
  (ro <> user -> has_role (snd (execute r db)) a ro = has_role db a ro)
  /\ (has_role db a ro = true -> has_role (snd (execute r db)) a ro = true).
Proof.
  intros Ha.
  destruct (user_roles_without_admin r db Ha) as [E|[id [_ E]]].
  - unfold has_role. rewrite E. auto.
  - rewrite (has_role_one_more id a ro db _ E). split.
    + intros Hne. destruct ro; try contradiction; simpl;
        rewrite andb_false_r, orb_false_r; reflexivity.
    + intros ->. reflexivity.
Qed.

(** X5.  [get_user_role] gives, of the roles a user holds, the one that
    comes first in the order admin, legal analyst, user; it gives nothing
    exactly when the user holds no role, and nothing for nobody. *)
Theorem X5_get_user_role_is_the_highest_role_held :
  forall (db : database) (u : uuid),
    (get_user_role db (Some u) = None <-> roles_of db u = [])
    /\ (forall r, get_user_role db (Some u) = Some r <->
                  In r (roles_of db u)
                  /\ forall r', In r' (roles_of db u) -> rank r <= rank r')
    /\ get_user_role db None = None.
Proof.
  intros db u.
  pose proof (has_role_roles_of db u admin) as Ha.
  pose proof (has_role_roles_of db u legal_analyst) as Hl.
  pose proof (has_role_roles_of db u user) as Hu.
  assert (Hnone : get_user_role db (Some u) = None <-> roles_of db u = []).
  { unfold get_user_role.
    destruct (has_role db (Some u) admin);
      [split; [discriminate | intros E; rewrite E in Ha; destruct (proj1 Ha eq_refl)]|].
    destruct (has_role db (Some u) legal_analyst);
      [split; [discriminate | intros E; rewrite E in Hl; destruct (proj1 Hl eq_refl)]|].
    destruct (has_role db (Some u) user);
      [split; [discriminate | intros E; rewrite E in Hu; destruct (proj1 Hu eq_refl)]|].
    split; [intros _ | reflexivity].
    destruct (roles_of db u) as [|[| |] l]; [reflexivity | exfalso ..].
    - assert (false = true) by (apply Ha; left; reflexivity). discriminate.
    - assert (false = true) by (apply Hl; left; reflexivity). discriminate.
    - assert (false = true) by (apply Hu; left; reflexivity). discriminate. }
  split; [exact Hnone|]. split.
  - intros r. unfold get_user_role.
    destruct (has_role db (Some u) admin) eqn:Ea.
    { split.
      - intros E; injection E as <-. split; [apply Ha; reflexivity|].
        intros [| |] _; simpl; lia.
      - intros [Hin Hmin]. f_equal.
        pose proof (Hmin admin (proj1 Ha eq_refl)) as H.
        destruct r; simpl in H; [reflexivity | lia | lia]. }
    destruct (has_role db (Some u) legal_analyst) eqn:El.
    { split.
      - intros E; injection E as <-. split; [apply Hl; reflexivity|].
        intros [| |] Hin; simpl; try lia.
        apply Ha in Hin. discriminate.
      - intros [Hin Hmin]. f_equal.
        pose proof (Hmin legal_analyst (proj1 Hl eq_refl)) as H.
        destruct r; simpl in H; [|reflexivity|lia].
        apply Ha in Hin. discriminate. }
    destruct (has_role db (Some u) user) eqn:Eu.
    { split.
      - intros E; injection E as <-. split; [apply Hu; reflexivity|].
        intros [| |] Hin; simpl; try lia.
        + apply Ha in Hin. discriminate.
        + apply Hl in Hin. discriminate.
      - intros [Hin Hmin]. f_equal.
        destruct r; [| |reflexivity].
        + apply Ha in Hin. discriminate.
        + apply Hl in Hin. discriminate. }
    split; [discriminate|].
    intros [Hin _]. exfalso.
    destruct r; [apply Ha in Hin | apply Hl in Hin | apply Hu in Hin];
      discriminate.
  - unfold get_user_role. rewrite !has_role_null. reflexivity.
Qed.

(** X6.  A request of a caller who is not an admin in the database never
    makes anybody an admin or a legal analyst, never takes either role
    from anybody, and takes no role at all from anybody: whatever the page
    believes, the roles other than [user] change only through admins.  The
    only role such a request gives is the role [user], to the user a
    sign-up creates. *)
Theorem X6_roles_change_only_through_admins :
  forall (r : request) (db : database),
    has_role db (caller_of r) admin = false ->
    forall (u : uuid),
      has_role (snd (execute r db)) (Some u) admin = has_role db (Some u) admin
      /\ has_role (snd (execute r db)) (Some u) legal_analyst
         = has_role db (Some u) legal_analyst
      /\ (forall ro, In ro (roles_of db u) ->
                     In ro (roles_of (snd (execute r db)) u))
      /\ (forall ro, In ro (roles_of (snd (execute r db)) u) ->
                     In ro (roles_of db u)
                     \/ (ro = user /\ exists name, r = SignUp u name)).
Proof.
  intros r db Ha u. split; [|split; [|split]].
  - apply (roles_without_admin r db (Some u) admin Ha). discriminate.
  - apply (roles_without_admin r db (Some u) legal_analyst Ha). discriminate.
  - intros ro Hin. apply has_role_roles_of.
    apply (roles_without_admin r db (Some u) ro Ha).
    apply has_role_roles_of. exact Hin.
  - intros ro Hin.
    destruct (user_roles_without_admin r db Ha) as [E|(id & [name Hr] & E)].
    + left. unfold roles_of in *. rewrite E in Hin. exact Hin.
    + unfold roles_of in Hin. rewrite E, filter_app, map_app in Hin.
      apply in_app_or in Hin. destruct Hin as [Hin|Hin]; [left; exact Hin|].
      right. cbn [filter user_id] in Hin.
      destruct (text_eqb id u) eqn:Eu; [|destruct Hin].
      destruct Hin as [<-|[]]. apply text_eqb_spec in Eu. subst id.
      split; [reflexivity|]. exists name. exact Hr.
Qed.

(** X6, witness: a legal analyst tries to make themselves an admin, and
    to take the role of an admin away. *)
Lemma X6_witness :
  let a := lit "a" in
  let an := lit "an" in
  let db := {| auth_users := [a; an]; profiles := [];
               user_roles := [{| user_id := a; role := admin |};
                              {| user_id := an; role := legal_analyst |}];
               legal_documents := []; conversations := []; messages := [] |} in
  has_role db (Some an) admin = false
  /\ has_role
       (snd (execute (RolesInsert (Some an) {| user_id := an; role := admin |}) db))
       (Some an) admin
     = false
  /\ has_role (snd (execute (RolesDelete (Some an) a) db)) (Some a) admin = true.
Proof.
  intros a an db.
  assert (H : has_role db (Some an) admin = false) by reflexivity.
  split; [exact H|]. split.
  - exact (proj1 (X6_roles_change_only_through_admins
                    (RolesInsert (Some an) {| user_id := an; role := admin |})
                    db H an)).
  - exact (proj1 (X6_roles_change_only_through_admins
                    (RolesDelete (Some an) a) db H a)).
Defined.

(** X7.  From a database in which nobody is an admin, no sequence of
    requests leads to one in which somebody is, and the legal analysts
    stay who they were: the first admin cannot come from the
    application. *)
Theorem X7_no_admin_without_an_admin :
  forall (start db : database),
    (forall u, has_role start u admin = false) ->
    reachable start db ->
    forall u, has_role db u admin = false
              /\ has_role db u legal_analyst = has_role start u legal_analyst.
Proof.
  intros start db Hs Hr. induction Hr as [|db r Hr IH]; intros u.
  - split; [apply Hs | reflexivity].
  - destruct (IH u) as [Ha Hl].
    assert (Hc : has_role db (caller_of r) admin = false) by apply IH.
    destruct (roles_without_admin r db u admin Hc) as [E1 _].
    destruct (roles_without_admin r db u legal_analyst Hc) as [E2 _].
    rewrite E1, E2 by discriminate. auto.
Qed.

(** X7, witness: the first user signs up and asks for the role of an
    admin. *)
Lemma X7_witness :
  let u := lit "u" in
  let db := snd (execute (RolesInsert (Some u) {| user_id := u; role := admin |})
              (snd (execute (SignUp u None) Backend.empty))) in
  roles_of db u = [user] /\ has_role db (Some u) admin = false.
Proof.
  intros u db. split; [reflexivity|].
  refine (proj1 (X7_no_admin_without_an_admin Backend.empty db _ _ (Some u))).
  - intros x. reflexivity.
  - repeat constructor.
Defined.

(** ** Documents *)

Lemma validate_keeps_ids (v : option uuid) (id : uuid) (ds : list legal_document) :
  map doc_id (map (fun d => if text_eqb (doc_id d) id then validate_row v d else d)
                  ds)
  = map doc_id ds.
Proof.
  rewrite map_map. apply map_ext. intros d.
  destruct (text_eqb (doc_id d) id); reflexivity.
Qed.

(** X8.  The table of documents is written only by staff: a request of a
    caller who is neither an admin nor a legal analyst in the database
    leaves it as it was; and a request of a caller who is not an admin
    removes no document: the keys that were there are still there, in
    the same order, followed by at most one new key. *)
Theorem X8_documents_change_only_through_staff :
  forall (r : request) (db : database),
    (is_staff db (caller_of r) = false ->
     legal_documents (snd (execute r db)) = legal_documents db)
    /\ (has_role db (caller_of r) admin = false ->
        exists added,
          map doc_id (legal_documents (snd (execute r db)))
          = map doc_id (legal_documents db) ++ added
          /\ List.length added <= 1).
Proof.
  intros r db. split.
  - intros Hs. destruct r; cbn [execute caller_of] in *; try reflexivity.
    + unfold sign_up.
      repeat (match goal with
              | |- context [if ?b then _ else _] => destruct b
              end; try reflexivity).
    + unfold user_roles_delete. destruct (has_role db auth_uid admin); reflexivity.
    + unfold user_roles_insert.
      repeat (match goal with
              | |- context [if ?b then _ else _] => destruct b
              end; try reflexivity).
    + unfold legal_documents_insert. rewrite Hs.
      destruct (negb (document_text_valid row)); [reflexivity|].
      destruct (negb match year row with | Some z => int4 z | None => true end); [reflexivity|].
      destruct auth_uid; reflexivity.
    + unfold legal_documents_validate. rewrite Hs.
      destruct auth_uid; reflexivity.
    + unfold legal_documents_delete.
      unfold is_staff in Hs. apply orb_false_iff in Hs. destruct Hs as [Ha _].
      rewrite Ha. destruct auth_uid; reflexivity.
    + unfold conversations_insert.
      repeat (match goal with
              | |- context [if ?b then _ else _] => destruct b
              end; try reflexivity).
    + unfold conversations_retitle.
      destruct (negb (valid_text new_title)); reflexivity.
    + unfold messages_insert.
      repeat (match goal with
              | |- context [if ?b then _ else _] => destruct b
              end; try reflexivity).
  - intros Ha.
    assert (Hsame : forall db', legal_documents db' = legal_documents db ->
              exists added,
                map doc_id (legal_documents db')
                = map doc_id (legal_documents db) ++ added
                /\ List.length added <= 1).
    { intros db' E. exists []. rewrite E, app_nil_r. split; [reflexivity|].
      simpl; lia. }
    destruct r; cbn [execute caller_of] in *; try (apply Hsame; reflexivity).
    + apply Hsame. unfold sign_up.
      repeat (match goal with
              | |- context [if ?b then _ else _] => destruct b
              end; try reflexivity).
    + apply Hsame. unfold user_roles_delete.
      destruct (has_role db auth_uid admin); reflexivity.
    + apply Hsame. unfold user_roles_insert.
      repeat (match goal with
              | |- context [if ?b then _ else _] => destruct b
              end; try reflexivity).
    + unfold legal_documents_insert.
      destruct (negb (document_text_valid row)); [apply Hsame; reflexivity|].
      destruct (negb match year row with | Some z => int4 z | None => true end);
        [apply Hsame; reflexivity|].
      destruct auth_uid; [|apply Hsame; reflexivity].
      repeat (match goal with
              | |- context [if ?b then _ else _] => destruct b
              end; try (apply Hsame; reflexivity)).
      exists [doc_id row]. cbn [snd legal_documents set_legal_documents].
      rewrite map_app. split; [reflexivity | simpl; lia].
    + unfold legal_documents_validate.
      destruct auth_uid; [|apply Hsame; reflexivity].
      repeat (match goal with
              | |- context [if ?b then _ else _] => destruct b
              end; try (apply Hsame; reflexivity)).
      exists []. cbn [snd legal_documents set_legal_documents].
      rewrite validate_keeps_ids, app_nil_r. split; [reflexivity | simpl; lia].
    + apply Hsame. unfold legal_documents_delete. rewrite Ha.
      destruct auth_uid; reflexivity.
    + apply Hsame. unfold conversations_insert.
      repeat (match goal with
              | |- context [if ?b then _ else _] => destruct b
              end; try reflexivity).
    + apply Hsame. unfold conversations_retitle.
      destruct (negb (valid_text new_title)); reflexivity.
    + apply Hsame. unfold messages_insert.
      repeat (match goal with
              | |- context [if ?b then _ else _] => destruct b
              end; try reflexivity).
Qed.

(** X8, witness: a user without staff role tries to validate and to
    delete a document; a legal analyst tries to delete it. *)
Lemma X8_witness :
  let u := lit "u" in
  let an := lit "an" in
  let d := {| doc_id := lit "d1"; title := lit "Lease Act"; description := None;
              content := None; file_path := None; domain := property;
              jurisdiction := None; year := None; tags := None;
              uploaded_by := Some an; validated := Some false;
              validated_by := None |} in
  let db := {| auth_users := [u; an]; profiles := [];
               user_roles := [{| user_id := u; role := user |};
                              {| user_id := an; role := legal_analyst |}];
               legal_documents := [d]; conversations := []; messages := [] |} in
  legal_documents (snd (execute (DocumentsValidate (Some u) (Some u) (lit "d1")) db))
  = [d]
  /\ legal_documents (snd (execute (DocumentsDelete (Some u) (lit "d1")) db)) = [d]
  /\ legal_documents (snd (execute (DocumentsDelete (Some an) (lit "d1")) db)) = [d].
Proof.
  intros u an d db. split; [|split].
  - exact (proj1 (X8_documents_change_only_through_staff
                    (DocumentsValidate (Some u) (Some u) (lit "d1")) db) eq_refl).
  - exact (proj1 (X8_documents_change_only_through_staff
                    (DocumentsDelete (Some u) (lit "d1")) db) eq_refl).
  - reflexivity.
Defined.

(** ** Conversations and messages *)

Lemma filter_filter_implied (A : Type) (want kept : A -> bool) (rows : list A) :
  (forall x, In x rows -> want x = true -> kept x = true) ->
  filter want (filter kept rows) = filter want rows.
Proof.
  induction rows as [|x rows IH]; intros H; [reflexivity|].
  simpl. destruct (kept x) eqn:Ek; simpl.
  - destruct (want x); [f_equal|]; apply IH; intros y Hy; apply H; right; exact Hy.
  - destruct (want x) eqn:Ew.
    + rewrite (H x (or_introl eq_refl) Ew) in Ek. discriminate.
    + apply IH; intros y Hy; apply H; right; exact Hy.
Qed.

(** The key of [conversations] decides the owner. *)
Lemma owner_by_key (db : database) (c c' : conversation) :
  consistent db -> In c (conversations db) -> In c' (conversations db) ->
  conv_id c' = conv_id c -> c' = c.
Proof.
  intros [_ _ Hkey _ _] Hc Hc' E.
  exact (NoDup_map_injective _ _ conv_id (conversations db) c' c Hkey Hc' Hc E).
Qed.

(** Nobody but the owner passes the policies of a conversation. *)
Lemma no_access_for_others (db : database) (c : conversation) (a : option uuid)
  (id : uuid) :
  consistent db -> In c (conversations db) ->
  uid_eqb a (conv_user_id c) = false ->
  id = conv_id c ->
  existsb (fun c' => text_eqb (conv_id c') id && uid_eqb a (conv_user_id c'))
          (conversations db)
  = false.
Proof.
  intros Hdb Hc Ha ->.
  destruct (existsb _ (conversations db)) eqn:E; [|reflexivity].
  apply existsb_exists in E. destruct E as (c' & Hc' & H).
  apply andb_true_iff in H. destruct H as [Hid Hown].
  apply text_eqb_spec in Hid.
  rewrite (owner_by_key db c c' Hdb Hc Hc' Hid) in Hown. congruence.
Qed.

(** X9.  A request never touches the conversation of somebody else: in
    a database that satisfies the schema, whatever a caller sends, a
    conversation that is not the caller's is still there, with its title,
    and its messages are the same. *)
Theorem X9_conversations_of_others_are_untouched :
  forall (r : request) (db : database) (c : conversation),
    consistent db ->
    In c (conversations db) ->
    uid_eqb (caller_of r) (conv_user_id c) = false ->
    In c (conversations (snd (execute r db)))
    /\ messages_of (snd (execute r db)) (conv_id c) = messages_of db (conv_id c).
Proof.
  intros r db c Hdb Hc Ha.
  assert (Hsame : forall db', conversations db' = conversations db ->
                              messages db' = messages db ->
            In c (conversations db')
            /\ messages_of db' (conv_id c) = messages_of db (conv_id c)).
  { intros db' E1 E2. unfold messages_of. rewrite E1, E2. auto. }
  destruct r; cbn [execute caller_of] in *.
  - apply Hsame; unfold sign_up;
      repeat (match goal with
              | |- context [if ?b then _ else _] => destruct b
              end; try reflexivity).
  - apply Hsame; unfold user_roles_delete;
      destruct (has_role db auth_uid admin); reflexivity.
  - apply Hsame; unfold user_roles_insert;
      repeat (match goal with
              | |- context [if ?b then _ else _] => destruct b
              end; try reflexivity).
  - apply Hsame; unfold legal_documents_insert;
      (destruct (negb (document_text_valid row)); [reflexivity|]);
      (destruct (negb match year row with | Some z => int4 z | None => true end);
         [reflexivity|]);
      (destruct auth_uid; [|reflexivity]);
      repeat (match goal with
              | |- context [if ?b then _ else _] => destruct b
              end; try reflexivity).
  - apply Hsame; unfold legal_documents_validate;
      (destruct auth_uid; [|reflexivity]);
      repeat (match goal with
              | |- context [if ?b then _ else _] => destruct b
              end; try reflexivity).
  - apply Hsame; unfold legal_documents_delete;
      (destruct auth_uid; [|reflexivity]);
      destruct (has_role db _ admin); reflexivity.
  - unfold conversations_insert.
    repeat (match goal with
            | |- context [if ?b then _ else _] => destruct b
            end; try (apply Hsame; reflexivity)).
    cbn [snd]. split; [|reflexivity].
    cbn [conversations set_conversations]. apply in_or_app. left. exact Hc.
  - unfold conversations_retitle.
    destruct (negb (valid_text new_title)); [apply Hsame; reflexivity|].
    cbn [snd]. split; [|reflexivity].
    cbn [conversations set_conversations]. apply in_map_iff. exists c.
    split; [|exact Hc]. rewrite Ha, andb_false_r. reflexivity.
  - unfold conversations_delete. cbn [snd]. split.
    + cbn [conversations set_conversations]. apply filter_In.
      split; [exact Hc|]. unfold deleted_by. rewrite Ha, andb_false_r.
      reflexivity.
    + unfold messages_of. cbn [messages set_conversations].
      apply filter_filter_implied. intros m _ Hm.
      apply text_eqb_spec in Hm. apply negb_true_iff.
      destruct (existsb _ (filter _ (conversations db))) eqn:E; [|reflexivity].
      exfalso. apply existsb_exists in E. destruct E as (c' & Hc' & Hid).
      apply filter_In in Hc'. destruct Hc' as [Hc' Hdel].
      apply text_eqb_spec in Hid. rewrite Hm in Hid.
      rewrite (owner_by_key db c c' Hdb Hc Hc' Hid) in Hdel.
      unfold deleted_by in Hdel. rewrite Ha, andb_false_r in Hdel. discriminate.
  - unfold messages_insert.
    destruct (negb (valid_text (msg_role row) && valid_text (msg_content row)));
      [apply Hsame; reflexivity|].
    destruct (existsb _ (conversations db)) eqn:E; cbn [negb];
      [|apply Hsame; reflexivity].
    repeat (match goal with
            | |- context [if ?b then _ else _] => destruct b
            end; try (apply Hsame; reflexivity)).
    cbn [snd]. split; [exact Hc|].
    unfold messages_of. cbn [messages set_conversations].
    rewrite filter_app. simpl.
    destruct (text_eqb (conversation_id row) (conv_id c)) eqn:Er;
      [|apply app_nil_r].
    exfalso. apply text_eqb_spec in Er.
    rewrite (no_access_for_others db c auth_uid (conversation_id row) Hdb Hc Ha Er)
      in E.
    discriminate.
Qed.

(** X9, witness: somebody else tries to delete a conversation, to give
    it a new title and to add a message to it. *)
Lemma X9_witness :
  let u := lit "u" in
  let v := lit "v" in
  let c := {| conv_id := lit "c1"; conv_user_id := u;
              conv_title := lit "Lease" |} in
  let m := {| msg_id := lit "m1"; conversation_id := lit "c1";
              msg_role := lit "user"; msg_content := lit "hello";
              sources := None |} in
  let db := snd (execute (MessagesInsert (Some u) m)
              (snd (execute (ConversationsInsert (Some u) c)
                 (snd (execute (SignUp v None)
                    (snd (execute (SignUp u None) Backend.empty))))))) in
  messages_of db (lit "c1") = [m]
  /\ messages_of (snd (execute (ConversationsDelete (Some v) (lit "c1")) db))
       (lit "c1")
     = [m]
  /\ In c (conversations
             (snd (execute (ConversationsRetitle (Some v) (lit "c1") (lit "Mine"))
                     db)))
  /\ messages_of
       (snd (execute (MessagesInsert (Some v)
                        {| msg_id := lit "m2"; conversation_id := lit "c1";
                           msg_role := lit "user"; msg_content := lit "spam";
                           sources := None |}) db))
       (lit "c1")
     = [m].
Proof.
  intros u v c m db.
  assert (Hdb : consistent db).
  { apply (reachable_consistent Backend.empty); [exact consistent_empty|].
    repeat constructor. }
  assert (Hc : In c (conversations db)) by (left; reflexivity).
  split; [reflexivity|]. split; [|split].
  - exact (proj2 (X9_conversations_of_others_are_untouched
                    (ConversationsDelete (Some v) (lit "c1")) db c Hdb Hc eq_refl)).
  - exact (proj1 (X9_conversations_of_others_are_untouched
                    (ConversationsRetitle (Some v) (lit "c1") (lit "Mine"))
                    db c Hdb Hc eq_refl)).
  - exact (proj2 (X9_conversations_of_others_are_untouched
                    (MessagesInsert (Some v)
                       {| msg_id := lit "m2"; conversation_id := lit "c1";
                          msg_role := lit "user"; msg_content := lit "spam";
                          sources := None |})
                    db c Hdb Hc eq_refl)).
Defined.

(* ===================================================================== *)
(** * More about the page [Chat] *)
(* ===================================================================== *)

(** ** The messages on the page *)

Lemma last_shown (prev : list ui_message) (m : ui_message) :
  last (map Some (prev ++ [m])) None = Some m.
Proof. rewrite map_app. apply last_last. Qed.

Lemma replace_last_content_snoc (c : text) (prev : list ui_message)
  (m : ui_message) :
  replace_last_content c (prev ++ [m]) = prev ++ [with_content c m].
Proof.
  induction prev as [|p prev IH]; [reflexivity|].
  destruct prev as [|q prev]; [reflexivity|].
  change (replace_last_content c ((p :: q :: prev) ++ [m]))
    with (p :: replace_last_content c ((q :: prev) ++ [m])).
  rewrite IH. reflexivity.
Qed.

(** Later snapshots overwrite the content of the assistant message that
    ends the list. *)
Lemma show_snapshots_overwrite (fresh : nat -> uuid * text) (cs : list text) :
  forall (k : nat) (prev : list ui_message) (m : ui_message),
    ui_role m = lit "assistant" ->
    show_snapshots fresh k cs (prev ++ [m])
    = prev ++ [with_content (last cs (ui_content m)) m].
Proof.
  induction cs as [|c cs IH]; intros k prev m Hm.
  - destruct m; reflexivity.
  - cbn [show_snapshots]. unfold show_snapshot.
    rewrite last_shown, Hm. change (text_eqb (lit "assistant") (lit "assistant"))
      with true. cbv iota.
    rewrite replace_last_content_snoc.
    rewrite (IH (S k) prev (with_content c m) Hm).
    f_equal. f_equal. unfold with_content.
    cbn [ui_id ui_role ui_content ui_sources ui_created_at].
    rewrite (last_behind cs c (ui_content m)). reflexivity.
Qed.

(** X10.  While a reply streams in behind a message that is not the
    assistant's, the page gets exactly one new message, however many
    snapshots are rendered and whenever the updaters run: it carries the
    id and the time drawn for the first snapshot, the role [assistant]
    and the content of the last snapshot; the messages before it are left
    as they were. *)
Theorem X10_streaming_adds_one_assistant_message :
  forall (fresh : nat -> uuid * text) (k : nat) (c : text) (cs : list text)
         (prev : list ui_message) (m : ui_message),
    ui_role m <> lit "assistant" ->
    show_snapshots fresh k (c :: cs) (prev ++ [m])
    = prev ++ [m; {| ui_id := fst (fresh k);
                     ui_role := lit "assistant";
                     ui_content := last cs c;
                     ui_sources := None;
                     ui_created_at := snd (fresh k) |}].
Proof.
  intros fresh k c cs prev m Hm. cbn [show_snapshots]. unfold show_snapshot.
  rewrite last_shown.
  apply text_eqb_neq in Hm. rewrite Hm.
  set (first := {| ui_id := fst (fresh k); ui_role := lit "assistant";
                   ui_content := c; ui_sources := None;
                   ui_created_at := snd (fresh k) |}).
  rewrite (show_snapshots_overwrite fresh cs (S k) (prev ++ [m]) first eq_refl).
  rewrite <- app_assoc. reflexivity.
Qed.

(** X10, witness: three snapshots behind the message of the user. *)
Lemma X10_witness :
  let fresh := fun k : nat => (lit "id" ++ [N.of_nat (48 + k)], lit "now") in
  let question := {| ui_id := lit "q"; ui_role := lit "user";
                     ui_content := lit "Hello?"; ui_sources := None;
                     ui_created_at := lit "then" |} in
  show_snapshots fresh 0 [lit "Go"; lit "Good"; lit "Good day"] [question]
  = [question;
     {| ui_id := lit "id0"; ui_role := lit "assistant";
        ui_content := lit "Good day"; ui_sources := None;
        ui_created_at := lit "now" |}].
Proof.
  intros fresh question.
  refine (X10_streaming_adds_one_assistant_message fresh 0 (lit "Go")
            [lit "Good"; lit "Good day"] [] question _).
  vm_compute. discriminate.
Defined.

(** ** Sending a message *)

Lemma fresh_key (Row : Type) (key : Row -> uuid) (rows : list Row) (k : uuid) :
  ~ In k (map key rows) ->
  existsb (fun x => text_eqb (key x) k) rows = false.
Proof.
  intros H. destruct (existsb _ rows) eqn:E; [|reflexivity].
  exfalso. apply H. apply existsb_exists in E. destruct E as (x & Hin & Hx).
  apply text_eqb_spec in Hx. rewrite <- Hx. apply in_map. exact Hin.
Qed.

Lemma or_null_nonempty (t : text) : t <> [] -> or_null t = Some t.
Proof.
  intros H. unfold or_null, is_empty. apply text_eqb_neq in H. rewrite H.
  reflexivity.
Qed.

(** An insert into [messages] that passes the policy, the check and the
    key adds the row at the end when its content can be stored, and is
    refused when it cannot. *)
Lemma messages_insert_outcome (a : option uuid) (row : message) (db : database) :
  valid_text (msg_role row) = true ->
  existsb (fun c => text_eqb (conv_id c) (conversation_id row)
                    && uid_eqb a (conv_user_id c))
          (conversations db) = true ->
  role_check (msg_role row) = true ->
  ~ In (msg_id row) (map msg_id (messages db)) ->
  execute (MessagesInsert a row) db
  = if valid_text (msg_content row)
    then (None, set_conversations (conversations db) (messages db ++ [row]) db)
    else (Some InvalidText, db).
Proof.
  intros Hv Hacc Hrole Hkey. cbn [execute]. unfold messages_insert.
  rewrite Hv, Hacc, Hrole, (fresh_key message msg_id _ _ Hkey).
  destruct (valid_text (msg_content row)); reflexivity.
Qed.

(** Texts that can be stored. *)
Lemma valid_text_dots_bounded (n : nat) :
  forall t, List.length t <= n -> valid_text (t ++ lit "...") = valid_text t.
Proof.
  induction n as [|n IH]; intros [|c rest] Hn; try reflexivity;
    [simpl in Hn; lia|].
  cbn [app valid_text].
  destruct (N.eqb c 0); [reflexivity|].
  destruct (is_high_surrogate c).
  - destruct rest as [|d rest']; [reflexivity|].
    cbn [app]. rewrite (IH rest'); [reflexivity|]. simpl in Hn. lia.
  - destruct (is_low_surrogate c); [reflexivity|].
    apply IH. simpl in Hn. lia.
Qed.

Lemma valid_text_dots (t : text) : valid_text (t ++ lit "...") = valid_text t.
Proof. apply (valid_text_dots_bounded (List.length t)). lia. Qed.

(** Whatever the network does to it, an insert into [messages] leaves
    the other tables alone and adds at most its row. *)
Lemma send_messages_insert (t : transport) (a : option uuid) (row : message)
  (db : database) :
  conversations (snd (send t (MessagesInsert a row) db)) = conversations db
  /\ (messages (snd (send t (MessagesInsert a row) db)) = messages db
      \/ messages (snd (send t (MessagesInsert a row) db)) = messages db ++ [row]).
Proof.
  assert (H : conversations (snd (execute (MessagesInsert a row) db))
              = conversations db
              /\ (messages (snd (execute (MessagesInsert a row) db)) = messages db
                  \/ messages (snd (execute (MessagesInsert a row) db))
                     = messages db ++ [row])).
  { cbn [execute]. unfold messages_insert.
    repeat (match goal with
            | |- context [if ?b then _ else _] => destruct b
            end; try (split; [reflexivity | left; reflexivity])).
    split; [reflexivity | right; reflexivity]. }
  destruct t; cbn [send]; [exact H | split; [reflexivity | left; reflexivity]
                          | exact H].
Qed.

(** A new title changes neither the messages nor who owns what. *)
Lemma send_retitle (t : transport) (a : option uuid) (id : uuid)
  (new_title : text) (db : database) :
  messages (snd (send t (ConversationsRetitle a id new_title) db)) = messages db
  /\ forall (a' : option uuid) (id' : uuid),
       existsb (fun c => text_eqb (conv_id c) id' && uid_eqb a' (conv_user_id c))
               (conversations
                  (snd (send t (ConversationsRetitle a id new_title) db)))
       = existsb (fun c => text_eqb (conv_id c) id' && uid_eqb a' (conv_user_id c))
                 (conversations db).
Proof.
  assert (H : forall (a' : option uuid) (id' : uuid),
             existsb (fun c => text_eqb (conv_id c) id'
                               && uid_eqb a' (conv_user_id c))
               (conversations (snd (conversations_retitle a id new_title db)))
             = existsb (fun c => text_eqb (conv_id c) id'
                                 && uid_eqb a' (conv_user_id c))
                 (conversations db)).
  { intros a' id'. unfold conversations_retitle.
    destruct (negb (valid_text new_title)); [reflexivity|].
    cbn [snd conversations set_conversations].
    induction (conversations db) as [|c cs IH]; [reflexivity|].
    cbn [map existsb]. rewrite IH. f_equal.
    destruct (text_eqb (conv_id c) id && uid_eqb a (conv_user_id c)); reflexivity. }
  assert (Hm : messages (snd (conversations_retitle a id new_title db))
               = messages db).
  { unfold conversations_retitle.
    destruct (negb (valid_text new_title)); reflexivity. }
  destruct t; cbn [send execute]; split; try reflexivity; try exact H;
    exact Hm.
Qed.

(** The reply either carries an error and nothing to save, or a text to
    save and no error. *)
Lemma stream_reply_outcome (RT : Runtime) (f : fetched) :
  (exists e, toast_error (stream_reply f) = Some e
             /\ saved (stream_reply f) = None)
  \/ (toast_error (stream_reply f) = None
      /\ exists t, saved (stream_reply f) = Some t).
Proof.
  destruct f as [message|r]; unfold stream_reply.
  - left. eexists; split; reflexivity.
  - destruct (negb (ok r)); [left; eexists; split; reflexivity|].
    destruct (body r) as [b|]; [|right; split; [reflexivity | eexists; reflexivity]].
    destruct (read_error b); [left | right]; cbn [toast_error saved].
    + eexists; split; reflexivity.
    + split; [reflexivity | eexists; reflexivity].
Qed.

(** X11.  A message sent in a conversation of the signed-in user, with
    both inserts carried out and a reply that ends without error, is
    stored with its answer, as far as the texts can be stored: the table
    gains the row of the user and then the row of the assistant, whose
    content is the accumulated text, be it empty, each of them exactly
    when its content holds neither U+0000 nor a surrogate without its
    partner; reading the conversation afterwards gives the messages it
    had, followed by the rows that were stored.  A row that is refused is
    lost in silence: no error is shown in any of these cases, whatever
    happens to the request for a new title. *)
Theorem X11_sent_message_and_answer_are_stored :
  forall (RT : Runtime) (env : send_env) (s : session) (content : text)
         (page : chat_page) (db : database) (uid cid : uuid)
         (reply_text : text),
    session_user s = Some uid ->
    activeConversationId (page_view page) = Some cid ->
    cid <> [] ->
    (exists c, In c (conversations db)
               /\ conv_id c = cid /\ conv_user_id c = uid) ->
    net_save_user env = Delivered ->
    net_save_assistant env = Delivered ->
    ~ In (user_row_key env) (map msg_id (messages db)) ->
    ~ In (assistant_row_key env) (map msg_id (messages db)) ->
    user_row_key env <> assistant_row_key env ->
    saved (stream_reply (fetch_answer env)) = Some reply_text ->
    let result := sendMessage env s content page db in
    let asked := {| msg_id := user_row_key env; conversation_id := cid;
                    msg_role := lit "user"; msg_content := content;
                    sources := None |} in
    let answered := {| msg_id := assistant_row_key env; conversation_id := cid;
                       msg_role := lit "assistant"; msg_content := reply_text;
                       sources := None |} in
    let stored := filter (fun m => valid_text (msg_content m)) [asked; answered] in
    messages (fst (fst result)) = messages db ++ stored
    /\ messages_select (Some uid) cid (fst (fst result))
       = messages_select (Some uid) cid db ++ stored
    /\ snd result = []
    /\ (valid_text content = true -> valid_text reply_text = true ->
        stored = [asked; answered]).
Proof.
  intros RT env s content page db uid cid reply_text Hs Hact Hcid Hown
         Hn1 Hn2 Hk1 Hk2 Hk12 Hsaved result asked answered stored.
  assert (Hacc : existsb (fun c => text_eqb (conv_id c) cid
                                   && uid_eqb (Some uid) (conv_user_id c))
                         (conversations db) = true).
  { destruct Hown as (c & Hin & Hid & Hu). apply existsb_exists. exists c.
    split; [exact Hin|]. rewrite Hid, Hu. cbn [uid_eqb].
    rewrite !text_eqb_refl. reflexivity. }
  assert (Htoast : toast_error (stream_reply (fetch_answer env)) = None).
  { destruct (stream_reply_outcome RT (fetch_answer env))
      as [(e & _ & E)|[E _]]; [congruence | exact E]. }
  assert (Er : result
               = sendMessage_in env uid content page cid (page_view page) db).
  { unfold result, sendMessage. rewrite Hs, Hact, (or_null_nonempty cid Hcid).
    reflexivity. }
  set (first := filter (fun m => valid_text (msg_content m)) [asked]).
  set (db2 := snd (send (net_save_user env)
                     (MessagesInsert (Some uid) asked) db)).
  set (db3 := if Nat.eqb (List.length (shown_messages page)) 0
              then snd (send (net_retitle env)
                          (ConversationsRetitle (Some uid) cid
                             (first_message_title content)) db2)
              else db2).
  assert (E2 : conversations db2 = conversations db
               /\ messages db2 = messages db ++ first).
  { unfold db2, first. rewrite Hn1. cbn [send].
    rewrite (messages_insert_outcome (Some uid) asked db eq_refl Hacc eq_refl Hk1).
    cbn [filter msg_content asked].
    destruct (valid_text content); cbn [snd conversations messages
                                         set_conversations];
      [split; reflexivity | split; [reflexivity | symmetry; apply app_nil_r]]. }
  destruct E2 as [Ec2 Em2].
  assert (H3 : messages db3 = messages db ++ first
               /\ forall a' id',
                    existsb (fun c => text_eqb (conv_id c) id'
                                      && uid_eqb a' (conv_user_id c))
                            (conversations db3)
                    = existsb (fun c => text_eqb (conv_id c) id'
                                        && uid_eqb a' (conv_user_id c))
                              (conversations db)).
  { unfold db3. destruct (Nat.eqb _ 0).
    - destruct (send_retitle (net_retitle env) (Some uid) cid
                  (first_message_title content) db2) as [Hm Hc].
      rewrite Hm. split; [exact Em2|].
      intros a' id'. rewrite Hc, Ec2. reflexivity.
    - split; [exact Em2|]. intros a' id'. rewrite Ec2. reflexivity. }
  destruct H3 as [Hm3 Hc3].
  assert (Hk3 : ~ In (msg_id answered) (map msg_id (messages db3))).
  { rewrite Hm3, map_app. intros Hin. apply in_app_or in Hin.
    destruct Hin as [Hin|Hin]; [exact (Hk2 Hin)|].
    unfold first in Hin. cbn [filter msg_content asked] in Hin.
    destruct (valid_text content); [|destruct Hin].
    destruct Hin as [Hin|[]]. apply Hk12. exact Hin. }
  assert (E4 : conversations (fst (fst result)) = conversations db3
               /\ messages (fst (fst result)) = messages db ++ stored).
  { rewrite Er. unfold sendMessage_in. cbv zeta. cbn [fst].
    rewrite Hsaved. fold asked. fold db2. fold db3. rewrite Hn2. cbn [send].
    fold answered.
    rewrite (messages_insert_outcome (Some uid) answered db3 eq_refl);
      [| rewrite Hc3; exact Hacc | reflexivity | exact Hk3].
    unfold stored, first in *. cbn [filter msg_content asked answered] in *.
    destruct (valid_text reply_text);
      cbn [snd conversations messages set_conversations]; rewrite Hm3;
      destruct (valid_text content);
      (split; [reflexivity|]); rewrite <- ?app_assoc, ?app_nil_r; reflexivity. }
  destruct E4 as [Ec4 Hm4].
  assert (Hpass : forall m, In m stored ->
             text_eqb (conversation_id m) cid
             && existsb (fun c => text_eqb (conv_id c) (conversation_id m)
                                  && uid_eqb (Some uid) (conv_user_id c))
                        (conversations (fst (fst result))) = true).
  { intros m Hin. unfold stored in Hin. apply filter_In in Hin.
    destruct Hin as [Hin _]. rewrite Ec4, Hc3.
    destruct Hin as [<-|[<-|[]]]; cbn [conversation_id asked answered];
      rewrite text_eqb_refl, Hacc; reflexivity. }
  split; [exact Hm4|]. split; [|split].
  - unfold messages_select. rewrite Hm4, filter_app. f_equal.
    + apply filter_ext. intros m. f_equal. rewrite Ec4. apply Hc3.
    + apply filter_all. apply forallb_forall. exact Hpass.
  - rewrite Er. unfold sendMessage_in. cbv zeta. cbn [snd]. rewrite Htoast.
    reflexivity.
  - intros Hv1 Hv2. unfold stored. cbn [filter msg_content asked answered].
    rewrite Hv1, Hv2. reflexivity.
Qed.

(** X11, witness: the first message of a conversation, answered in two
    deltas; the request for the new title is lost.  And the same message
    answered with a text that ends in a surrogate without its partner:
    the answer is rendered and not stored. *)
Lemma X11_witness :
  let u := lit "u" in
  let c := {| conv_id := lit "c1"; conv_user_id := u;
              conv_title := lit "New Conversation" |} in
  let db := snd (execute (ConversationsInsert (Some u) c)
              (snd (execute (SignUp u None) Backend.empty))) in
  let s := {| session_user := Some u; session_role := Some user |} in
  let page := {| page_view := {| shown_conversations := [c];
                                 activeConversationId := Some (lit "c1") |};
                 shown_messages := []; isLoading := false;
                 isStreaming := false |} in
  let env payloads :=
    {| net_create := Delivered; net_save_user := Delivered;
       net_retitle := RequestLost; net_save_assistant := Delivered;
       conversation_key := lit "c2"; user_row_key := lit "m1";
       assistant_row_key := lit "m2"; user_message_id := lit "local";
       now := lit "now";
       fresh := fun _ => (lit "shown", lit "now");
       fetch_answer :=
         Resolved {| status := 200;
                     body := Some {| chunks :=
                                       [ascii_bytes
                                          (sse_stream payloads
                                             (lit "data: [DONE]"))];
                                     read_error := None |} |} |} in
  let good := env [json_lit "{'choices':[{'delta':{'content':'Good '}}]}";
                   json_lit "{'choices':[{'delta':{'content':'day'}}]}"] in
  let bad := env [json_lit "{'choices':[{'delta':{'content':'Hi \ud83d'}}]}"] in
  let asked := {| msg_id := lit "m1"; conversation_id := lit "c1";
                  msg_role := lit "user"; msg_content := lit "Hello?";
                  sources := None |} in
  saved (stream_reply (RT := reference_runtime) (fetch_answer good))
  = Some (lit "Good day")
  /\ messages (fst (fst (sendMessage (RT := reference_runtime) good s
                           (lit "Hello?") page db)))
     = [ asked;
         {| msg_id := lit "m2"; conversation_id := lit "c1";
            msg_role := lit "assistant"; msg_content := lit "Good day";
            sources := None |} ]
  /\ saved (stream_reply (RT := reference_runtime) (fetch_answer bad))
     = Some (lit "Hi " ++ [55357%N])
  /\ messages (fst (fst (sendMessage (RT := reference_runtime) bad s
                           (lit "Hello?") page db)))
     = [asked]
  /\ snd (sendMessage (RT := reference_runtime) bad s (lit "Hello?") page db)
     = [].
Proof.
  intros u c db s page env good bad asked.
  assert (Hgood : saved (stream_reply (RT := reference_runtime)
                           (fetch_answer good))
                  = Some (lit "Good day")) by (vm_compute; reflexivity).
  assert (Hbad : saved (stream_reply (RT := reference_runtime)
                          (fetch_answer bad))
                 = Some (lit "Hi " ++ [55357%N])) by (vm_compute; reflexivity).
  assert (Hc : exists x, In x (conversations db)
                         /\ conv_id x = lit "c1" /\ conv_user_id x = u)
    by (exists c; split; [left; reflexivity | split; reflexivity]).
  assert (Hk1 : ~ In (lit "m1") (map msg_id (messages db))) by (simpl; tauto).
  assert (Hk2 : ~ In (lit "m2") (map msg_id (messages db))) by (simpl; tauto).
  assert (Hk12 : lit "m1" <> lit "m2") by (vm_compute; discriminate).
  assert (Hcid : lit "c1" <> []) by discriminate.
  split; [exact Hgood|]. split; [|split; [exact Hbad|]].
  - exact (proj1 (X11_sent_message_and_answer_are_stored reference_runtime good s
                    (lit "Hello?") page db u (lit "c1") (lit "Good day")
                    eq_refl eq_refl Hcid Hc eq_refl eq_refl Hk1 Hk2 Hk12 Hgood)).
  - destruct (X11_sent_message_and_answer_are_stored reference_runtime bad s
                (lit "Hello?") page db u (lit "c1") (lit "Hi " ++ [55357%N])
                eq_refl eq_refl Hcid Hc eq_refl eq_refl Hk1 Hk2 Hk12 Hbad)
      as (Hm & _ & Ht & _).
    split; [exact Hm | exact Ht].
Defined.

(** X12.  When the reply fails (the request is rejected, the status is
    not a success, or a read of the body rejects), [sendMessage] shows
    exactly one toast, with the message of the error, and ends with both
    flags down; no row of the assistant is sent to the database, while the
    message of the user stays stored if its insert was carried out: the
    table holds what it held, and at most that row behind it. *)
Theorem X12_failed_reply_leaves_the_question_stored :
  forall (RT : Runtime) (env : send_env) (s : session) (content : text)
         (page : chat_page) (db : database) (uid cid : uuid) (message : text),
    session_user s = Some uid ->
    activeConversationId (page_view page) = Some cid ->
    cid <> [] ->
    toast_error (stream_reply (fetch_answer env)) = Some message ->
    let result := sendMessage env s content page db in
    let asked := {| msg_id := user_row_key env; conversation_id := cid;
                    msg_role := lit "user"; msg_content := content;
                    sources := None |} in
    snd result = [error_toast message]
    /\ isLoading (snd (fst result)) = false
    /\ isStreaming (snd (fst result)) = false
    /\ (messages (fst (fst result)) = messages db
        \/ messages (fst (fst result)) = messages db ++ [asked])
    /\ (net_save_user env <> RequestLost ->
        fst (execute (MessagesInsert (Some uid) asked) db) = None ->
        messages (fst (fst result)) = messages db ++ [asked]).
Proof.
  intros RT env s content page db uid cid message Hs Hact Hcid Herr
         result asked.
  assert (Hsaved : saved (stream_reply (fetch_answer env)) = None).
  { destruct (stream_reply_outcome RT (fetch_answer env))
      as [(e & _ & E)|[E _]]; [exact E | congruence]. }
  assert (Er : result
               = sendMessage_in env uid content page cid (page_view page) db).
  { unfold result, sendMessage. rewrite Hs, Hact, (or_null_nonempty cid Hcid).
    reflexivity. }
  set (db2 := snd (send (net_save_user env)
                     (MessagesInsert (Some uid) asked) db)).
  assert (Em : messages (fst (fst result)) = messages db2).
  { rewrite Er. unfold sendMessage_in. cbv zeta. cbn [fst].
    rewrite Hsaved. fold asked. fold db2.
    destruct (Nat.eqb _ 0); [|reflexivity].
    apply send_retitle. }
  split; [|split; [|split; [|split]]].
  - rewrite Er. unfold sendMessage_in. cbv zeta. cbn [snd]. rewrite Herr.
    reflexivity.
  - rewrite Er. reflexivity.
  - rewrite Er. reflexivity.
  - rewrite Em. apply send_messages_insert.
  - intros Hnet Hok. rewrite Em. unfold db2.
    assert (Hx : messages (snd (execute (MessagesInsert (Some uid) asked) db))
                 = messages db ++ [asked]).
    { revert Hok. cbn [execute]. unfold messages_insert.
      repeat (match goal with
              | |- context [if ?b then _ else _] => destruct b
              end; try discriminate).
      reflexivity. }
    destruct (net_save_user env); cbn [send];
      [exact Hx | contradiction | exact Hx].
Qed.

(** X12, witness: the endpoint answers with the status 429. *)
Lemma X12_witness :
  let u := lit "u" in
  let c := {| conv_id := lit "c1"; conv_user_id := u;
              conv_title := lit "New Conversation" |} in
  let db := snd (execute (ConversationsInsert (Some u) c)
              (snd (execute (SignUp u None) Backend.empty))) in
  let s := {| session_user := Some u; session_role := Some user |} in
  let page := {| page_view := {| shown_conversations := [c];
                                 activeConversationId := Some (lit "c1") |};
                 shown_messages := []; isLoading := false;
                 isStreaming := false |} in
  let env := {| net_create := Delivered; net_save_user := Delivered;
                net_retitle := Delivered; net_save_assistant := Delivered;
                conversation_key := lit "c2"; user_row_key := lit "m1";
                assistant_row_key := lit "m2"; user_message_id := lit "local";
                now := lit "now";
                fresh := fun _ => (lit "shown", lit "now");
                fetch_answer := Resolved {| status := 429; body := None |} |} in
  let result := sendMessage (RT := reference_runtime) env s (lit "Hello?") page db in
  snd result
  = [error_toast (lit "Rate limit exceeded. Please try again later.")]
  /\ map msg_role (messages (fst (fst result))) = [lit "user"].
Proof.
  intros u c db s page env result.
  split; [|vm_compute; reflexivity].
  exact (proj1 (X12_failed_reply_leaves_the_question_stored reference_runtime
                  env s (lit "Hello?") page db u (lit "c1")
                  (lit "Rate limit exceeded. Please try again later.")
                  eq_refl eq_refl ltac:(discriminate) eq_refl)).
Defined.

(** ** New conversations *)

Lemma first_message_title_short (content : text) :
  List.length content <= 50 -> first_message_title content = content.
Proof.
  intros H. unfold first_message_title, slice_to.
  rewrite firstn_all2 by exact H.
  destruct (Nat.ltb_spec 50 (List.length content)); [lia|apply app_nil_r].
Qed.

Lemma first_message_title_length (content : text) :
  List.length (first_message_title content) <= 53.
Proof.
  unfold first_message_title, slice_to. rewrite length_app.
  rewrite length_firstn.
  destruct (Nat.ltb 50 (List.length content));
    [change (List.length (lit "...")) with 3
    | change (List.length (@nil char)) with 0]; lia.
Qed.

Lemma first_message_title_valid (content : text) :
  valid_text (first_message_title content) = valid_text (slice_to 50 content).
Proof.
  unfold first_message_title.
  destruct (Nat.ltb 50 (List.length content));
    [apply valid_text_dots | rewrite app_nil_r; reflexivity].
Qed.

Lemma conversations_insert_accepted (uid : uuid) (row : conversation)
  (db : database) :
  valid_text (conv_title row) = true ->
  conv_user_id row = uid ->
  ~ In (conv_id row) (map conv_id (conversations db)) ->
  known_user db uid = true ->
  execute (ConversationsInsert (Some uid) row) db
  = (None, set_conversations (conversations db ++ [row]) (messages db) db).
Proof.
  intros Hv Hu Hkey Hknown. cbn [execute]. unfold conversations_insert.
  rewrite Hv, Hu. cbn [uid_eqb]. rewrite text_eqb_refl. cbn [negb].
  rewrite (fresh_key conversation conv_id _ _ Hkey), Hknown. reflexivity.
Qed.

Lemma conversations_insert_refused (a : option uuid) (row : conversation)
  (db : database) :
  valid_text (conv_title row) = false ->
  execute (ConversationsInsert a row) db = (Some InvalidText, db).
Proof.
  intros Hv. cbn [execute]. unfold conversations_insert. rewrite Hv.
  reflexivity.
Qed.

(** X13.  A message sent while no conversation is active asks for a new
    one, owned by the sender, under the first fifty code units of the
    message and three dots.  When these fifty code units can be stored,
    the conversation is created with the key the database draws and
    becomes active; with nothing on the page yet, the list then shows it
    first, the three dots kept only when the message is longer than fifty
    code units, and the database holds that title too once the second
    request is carried out, and keeps the title of the insert, which
    always ends in three dots, when that request is lost.  When they
    cannot be stored, because they hold U+0000 or because the cut falls
    inside a surrogate pair, the insert is refused: nothing is stored,
    nothing is sent for the message, and the page shows that the
    conversation could not be created. *)
Theorem X13_title_of_a_conversation_created_by_a_message :
  forall (RT : Runtime) (env : send_env) (s : session) (content : text)
         (page : chat_page) (db : database) (uid : uuid),
    session_user s = Some uid ->
    activeConversationId (page_view page) = None ->
    shown_messages page = [] ->
    net_create env = Delivered ->
    ~ In (conversation_key env) (map conv_id (conversations db)) ->
    known_user db uid = true ->
    let result := sendMessage env s content page db in
    let stored_title :=
      match net_retitle env with
      | RequestLost => slice_to 50 content ++ lit "..."
      | _ => first_message_title content
      end in
    (valid_text (slice_to 50 content) = true ->
     In {| conv_id := conversation_key env; conv_user_id := uid;
           conv_title := stored_title |}
        (conversations (fst (fst result)))
     /\ shown_conversations (page_view (snd (fst result)))
        = {| conv_id := conversation_key env; conv_user_id := uid;
             conv_title := first_message_title content |}
          :: tl (shown_conversations (page_view (snd (fst result))))
     /\ activeConversationId (page_view (snd (fst result)))
        = Some (conversation_key env))
    /\ (valid_text (slice_to 50 content) = false ->
        result
        = (db, page, [error_toast (lit "Failed to create conversation")]))
    /\ List.length (first_message_title content) <= 53
    /\ (List.length content <= 50 -> first_message_title content = content).
Proof.
  intros RT env s content page db uid Hs Hact Hshown Hnet Hkey Hknown
         result stored_title.
  set (row := {| conv_id := conversation_key env; conv_user_id := uid;
                 conv_title := slice_to 50 content ++ lit "..." |}).
  set (db1 := set_conversations (conversations db ++ [row]) (messages db) db).
  set (view1 := {| shown_conversations :=
                     row :: shown_conversations (page_view page);
                   activeConversationId := Some (conversation_key env) |}).
  split; [|split; [|split]].
  - intros Hvalid.
    assert (Hrow : valid_text (conv_title row) = true).
    { cbn [row conv_title]. rewrite valid_text_dots. exact Hvalid. }
    assert (Htitle : valid_text (first_message_title content) = true).
    { rewrite first_message_title_valid. exact Hvalid. }
    assert (Er : result
                 = sendMessage_in env uid content page (conversation_key env)
                     view1 db1).
    { unfold result, sendMessage. rewrite Hs, Hact, Hnet. cbn [send].
      fold row.
      rewrite (conversations_insert_accepted uid row db Hrow eq_refl Hkey Hknown).
      reflexivity. }
    split; [|split].
    + rewrite Er. unfold sendMessage_in. cbv zeta. cbn [fst].
      rewrite Hshown. cbn [List.length Nat.eqb].
      set (ask := MessagesInsert (Some uid) _).
      set (db2 := snd (send (net_save_user env) ask db1)).
      assert (H2 : In row (conversations db2)).
      { unfold db2, ask. rewrite (proj1 (send_messages_insert _ _ _ db1)).
        unfold db1. cbn [conversations set_conversations].
        apply in_or_app. right. left. reflexivity. }
      set (db3 := snd (send (net_retitle env)
                         (ConversationsRetitle (Some uid) (conversation_key env)
                            (first_message_title content)) db2)).
      assert (H3 : In {| conv_id := conversation_key env; conv_user_id := uid;
                         conv_title := stored_title |} (conversations db3)).
      { assert (Hx : In {| conv_id := conversation_key env; conv_user_id := uid;
                           conv_title := first_message_title content |}
                        (conversations
                           (snd (execute
                                   (ConversationsRetitle (Some uid)
                                      (conversation_key env)
                                      (first_message_title content)) db2)))).
        { cbn [execute]. unfold conversations_retitle. rewrite Htitle.
          cbn [negb snd conversations set_conversations].
          apply in_map_iff. exists row. split; [|exact H2].
          cbn [row conv_id conv_user_id uid_eqb]. rewrite !text_eqb_refl.
          reflexivity. }
        unfold db3, stored_title. destruct (net_retitle env); cbn [send];
          [exact Hx | exact H2 | exact Hx]. }
      destruct (saved (stream_reply (fetch_answer env))) as [t|]; [|exact H3].
      rewrite (proj1 (send_messages_insert _ _ _ db3)). exact H3.
    + rewrite Er. unfold sendMessage_in. cbv zeta.
      cbn [fst snd page_view]. rewrite Hshown. cbn [List.length Nat.eqb].
      unfold retitle_shown, view1. cbn [shown_conversations map tl].
      cbn [row conv_id conv_user_id]. rewrite text_eqb_refl. reflexivity.
    + rewrite Er. unfold sendMessage_in. cbv zeta.
      cbn [fst snd page_view]. rewrite Hshown. reflexivity.
  - intros Hvalid.
    assert (Hrow : valid_text (conv_title row) = false).
    { cbn [row conv_title]. rewrite valid_text_dots. exact Hvalid. }
    unfold result, sendMessage. rewrite Hs, Hact, Hnet. cbn [send].
    fold row. rewrite (conversations_insert_refused (Some uid) row db Hrow).
    reflexivity.
  - apply first_message_title_length.
  - apply first_message_title_short.
Qed.

(** X13, witness: a short first message whose second request is lost:
    the list shows [Hi], the database holds [Hi...].  And a message of
    forty-nine letters and an emoji, which is cut between the two code
    units of the emoji: no conversation is created. *)
Lemma X13_witness :
  let u := lit "u" in
  let db := snd (execute (SignUp u None) Backend.empty) in
  let s := {| session_user := Some u; session_role := Some user |} in
  let page := {| page_view := {| shown_conversations := [];
                                 activeConversationId := None |};
                 shown_messages := []; isLoading := false;
                 isStreaming := false |} in
  let env := {| net_create := Delivered; net_save_user := Delivered;
                net_retitle := RequestLost; net_save_assistant := Delivered;
                conversation_key := lit "c1"; user_row_key := lit "m1";
                assistant_row_key := lit "m2"; user_message_id := lit "local";
                now := lit "now";
                fresh := fun _ => (lit "shown", lit "now");
                fetch_answer := Resolved {| status := 200; body := None |} |} in
  let result := sendMessage (RT := reference_runtime) env s (lit "Hi") page db in
  let cut := repeat 97%N 49 ++ [55357%N; 56832%N] in
  (In {| conv_id := lit "c1"; conv_user_id := u; conv_title := lit "Hi..." |}
      (conversations (fst (fst result)))
   /\ map conv_title (shown_conversations (page_view (snd (fst result))))
      = [lit "Hi"])
  /\ valid_text cut = true
  /\ sendMessage (RT := reference_runtime) env s cut page db
     = (db, page, [error_toast (lit "Failed to create conversation")]).
Proof.
  intros u db s page env result cut.
  assert (Hkey : ~ In (conversation_key env) (map conv_id (conversations db)))
    by (simpl; tauto).
  split; [split; [|vm_compute; reflexivity] | split; [reflexivity|]].
  - exact (proj1 (proj1 (X13_title_of_a_conversation_created_by_a_message
                           reference_runtime env s (lit "Hi") page db u
                           eq_refl eq_refl eq_refl eq_refl Hkey eq_refl)
                    eq_refl)).
  - exact (proj1 (proj2 (X13_title_of_a_conversation_created_by_a_message
                           reference_runtime env s cut page db u
                           eq_refl eq_refl eq_refl eq_refl Hkey eq_refl))
             eq_refl).
Defined.

(** X14.  Creating a conversation and deleting it again, both requests
    carried out, gives back the database as it was, provided it satisfies
    the schema and the key is new; on the page the conversation is gone
    from the list. *)
Theorem X14_create_then_delete_restores_the_database :
  forall (key : uuid) (s : session) (page : chat_page) (db : database)
         (uid : uuid),
    consistent db ->
    session_user s = Some uid ->
    known_user db uid = true ->
    ~ In key (map conv_id (conversations db)) ->
    let created := createNewConversation Delivered key s page db in
    let deleted :=
      deleteConversation Delivered s key (page_view (snd (fst created)))
        (fst (fst created)) in
    snd created = None
    /\ activeConversationId (page_view (snd (fst created))) = Some key
    /\ shown_messages (snd (fst created)) = []
    /\ fst (fst deleted) = db
    /\ ~ In key (map conv_id
                   (shown_conversations (snd (fst deleted))))
    /\ snd deleted = None.
Proof.
  intros key s page db uid Hdb Hs Hknown Hkey created deleted.
  set (row := {| conv_id := key; conv_user_id := uid;
                 conv_title := lit "New Conversation" |}).
  assert (Ec : created
               = (set_conversations (conversations db ++ [row]) (messages db) db,
                  {| page_view :=
                       {| shown_conversations :=
                            row :: shown_conversations (page_view page);
                          activeConversationId := Some key |};
                     shown_messages := [];
                     isLoading := isLoading page;
                     isStreaming := isStreaming page |},
                  None)).
  { unfold created, createNewConversation. rewrite Hs. cbn [send]. fold row.
    rewrite (conversations_insert_accepted uid row db eq_refl eq_refl Hkey
               Hknown).
    reflexivity. }
  split; [rewrite Ec; reflexivity|].
  split; [rewrite Ec; reflexivity|].
  split; [rewrite Ec; reflexivity|].
  unfold deleted. rewrite Ec. cbn [fst snd page_view].
  unfold deleteConversation. cbn [send execute]. unfold conversations_delete.
  cbn [fst snd conversations messages set_conversations shown_conversations].
  split; [|split; [|reflexivity]].
  - assert (Hold : forall c, In c (conversations db) ->
                             deleted_by (session_user s) key c = false).
    { intros c Hc. unfold deleted_by.
      destruct (text_eqb (conv_id c) key) eqn:E; [|reflexivity].
      exfalso. apply Hkey. apply text_eqb_spec in E. rewrite <- E.
      apply in_map. exact Hc. }
    assert (Hrow : deleted_by (session_user s) key row = true).
    { unfold deleted_by. rewrite Hs. cbn [row conv_id conv_user_id uid_eqb].
      rewrite !text_eqb_refl. reflexivity. }
    assert (E1 : filter (fun c => negb (deleted_by (session_user s) key c))
                   (conversations db ++ [row])
                 = conversations db).
    { rewrite filter_app. cbn [filter]. rewrite Hrow. cbn [negb].
      rewrite app_nil_r. apply filter_all. apply forallb_forall.
      intros c Hc. rewrite (Hold c Hc). reflexivity. }
    assert (E2 : filter (deleted_by (session_user s) key)
                   (conversations db ++ [row])
                 = [row]).
    { rewrite filter_app. cbn [filter]. rewrite Hrow.
      replace (filter (deleted_by (session_user s) key) (conversations db))
        with (@nil conversation); [reflexivity|].
      symmetry. revert Hold. generalize (conversations db).
      intros cs. induction cs as [|c cs IH]; intros Hold; [reflexivity|].
      cbn [filter]. rewrite (Hold c (or_introl eq_refl)).
      apply IH. intros c' Hc'. apply Hold. right. exact Hc'. }
    rewrite E1, E2.
    assert (E3 : filter (fun m => negb (existsb
                                          (fun c => text_eqb (conv_id c)
                                                      (conversation_id m))
                                          [row]))
                   (messages db)
                 = messages db).
    { apply filter_all. apply forallb_forall. intros m Hm.
      cbn [existsb row conv_id]. rewrite orb_false_r.
      apply negb_true_iff. apply text_eqb_neq. intros E. apply Hkey.
      rewrite E. destruct Hdb as [_ _ _ _ Href]. exact (Href m Hm). }
    rewrite E3. destruct db; reflexivity.
  - intros Hin. apply in_map_iff in Hin. destruct Hin as (c & Hid & Hin).
    apply filter_In in Hin. destruct Hin as [_ Hne].
    rewrite Hid, text_eqb_refl in Hne. discriminate.
Qed.

(** X14, witness: a user with one conversation creates a second one and
    deletes it. *)
Lemma X14_witness :
  let u := lit "u" in
  let c := {| conv_id := lit "c1"; conv_user_id := u;
              conv_title := lit "Lease" |} in
  let db := snd (execute (ConversationsInsert (Some u) c)
              (snd (execute (SignUp u None) Backend.empty))) in
  let s := {| session_user := Some u; session_role := Some user |} in
  let page := {| page_view := {| shown_conversations := [c];
                                 activeConversationId := Some (lit "c1") |};
                 shown_messages := []; isLoading := false;
                 isStreaming := false |} in
  let created := createNewConversation Delivered (lit "c2") s page db in
  map conv_id (conversations (fst (fst created))) = [lit "c1"; lit "c2"]
  /\ fst (fst (deleteConversation Delivered s (lit "c2")
                 (page_view (snd (fst created))) (fst (fst created))))
     = db.
Proof.
  intros u c db s page created.
  split; [reflexivity|].
  assert (Hdb : consistent db).
  { apply (reachable_consistent Backend.empty); [exact consistent_empty|].
    repeat constructor. }
  refine (proj1 (proj2 (proj2 (proj2
            (X14_create_then_delete_restores_the_database (lit "c2") s page db u
               Hdb eq_refl eq_refl _))))).
  vm_compute. intuition discriminate.
Defined.

(** X15.  When the active conversation is deleted, the handler reads the
    next active conversation off the list it was given, which still holds
    the deleted one: if that was the first of the list, the page stays on
    the id of the conversation it has just removed; otherwise it moves to
    the first of the list. *)
Theorem X15_active_conversation_after_delete :
  forall (s : session) (view : chat_view) (db : database) (c : conversation)
         (rest : list conversation) (id : uuid),
    shown_conversations view = c :: rest ->
    activeConversationId view = Some id ->
    conv_id c <> [] ->
    let after := snd (fst (deleteConversation Delivered s id view db)) in
    ~ In id (map conv_id (shown_conversations after))
    /\ activeConversationId after = Some (conv_id c)
    /\ (conv_id c = id ->
        ~ In (conv_id c) (map conv_id (shown_conversations after))).
Proof.
  intros s view db c rest id Hshown Hact Hid after.
  assert (Hgone : ~ In id (map conv_id (shown_conversations after))).
  { unfold after, deleteConversation. cbn [send execute].
    unfold conversations_delete. cbn [fst snd shown_conversations].
    intros Hin. apply in_map_iff in Hin. destruct Hin as (x & Hx & Hin).
    apply filter_In in Hin. destruct Hin as [_ Hne].
    rewrite Hx, text_eqb_refl in Hne. discriminate. }
  split; [exact Hgone|]. split.
  - unfold after, deleteConversation. cbn [send execute].
    unfold conversations_delete. cbn [fst snd activeConversationId].
    rewrite Hact, Hshown. cbn [uid_eqb]. rewrite text_eqb_refl.
    apply or_null_nonempty. exact Hid.
  - intros E. rewrite E. exact Hgone.
Qed.

(** X15, witness: the newest of two conversations is active and is
    deleted. *)
Lemma X15_witness :
  let u := lit "u" in
  let c1 := {| conv_id := lit "c1"; conv_user_id := u; conv_title := lit "Old" |} in
  let c2 := {| conv_id := lit "c2"; conv_user_id := u; conv_title := lit "New" |} in
  let db := snd (execute (ConversationsInsert (Some u) c2)
              (snd (execute (ConversationsInsert (Some u) c1)
                 (snd (execute (SignUp u None) Backend.empty))))) in
  let s := {| session_user := Some u; session_role := Some user |} in
  let view := {| shown_conversations := [c2; c1];
                 activeConversationId := Some (lit "c2") |} in
  let after := snd (fst (deleteConversation Delivered s (lit "c2") view db)) in
  shown_conversations after = [c1]
  /\ activeConversationId after = Some (lit "c2")
  /\ map conv_id (conversations
                    (fst (fst (deleteConversation Delivered s (lit "c2") view db))))
     = [lit "c1"].
Proof.
  intros u c1 c2 db s view after.
  split; [reflexivity|]. split; [|reflexivity].
  exact (proj1 (proj2 (X15_active_conversation_after_delete s view db c2 [c1]
                         (lit "c2") eq_refl eq_refl ltac:(discriminate)))).
Defined.

(** X16.  Reading the messages of a conversation gives all of them, in
    the order of the table, to the owner of the conversation, and none to
    anybody else or to a caller who is not signed in; and for an id
    without a conversation nobody is given anything. *)
Theorem X16_messages_are_read_by_the_owner_only :
  forall (db : database) (c : conversation) (a : option uuid),
    consistent db ->
    In c (conversations db) ->
    (a = Some (conv_user_id c) ->
     messages_select a (conv_id c) db = messages_of db (conv_id c))
    /\ (a <> Some (conv_user_id c) -> messages_select a (conv_id c) db = [])
    /\ (forall id, ~ In id (map conv_id (conversations db)) ->
                   messages_select a id db = []).
Proof.
  intros db c a Hdb Hc. split; [|split].
  - intros ->. unfold messages_select, messages_of. apply filter_ext.
    intros m. destruct (text_eqb (conversation_id m) (conv_id c)) eqn:E;
      [|reflexivity].
    cbn [andb]. apply existsb_exists. exists c. split; [exact Hc|].
    apply text_eqb_spec in E. rewrite E. cbn [uid_eqb].
    rewrite !text_eqb_refl. reflexivity.
  - intros Hne.
    assert (Ha : uid_eqb a (conv_user_id c) = false).
    { destruct (uid_eqb a (conv_user_id c)) eqn:E; [|reflexivity].
      apply uid_eqb_spec in E. contradiction. }
    unfold messages_select.
    induction (messages db) as [|m ms IH]; [reflexivity|].
    cbn [filter].
    destruct (text_eqb (conversation_id m) (conv_id c)) eqn:E; [|exact IH].
    apply text_eqb_spec in E.
    rewrite (no_access_for_others db c a (conversation_id m) Hdb Hc Ha E).
    exact IH.
  - intros id Hid. unfold messages_select.
    destruct Hdb as [_ _ _ _ Href].
    induction (messages db) as [|m ms IH]; [reflexivity|].
    cbn [filter].
    destruct (text_eqb (conversation_id m) id) eqn:E.
    + exfalso. apply Hid. apply text_eqb_spec in E. rewrite <- E.
      apply Href. left. reflexivity.
    + apply IH. intros m' Hm'. apply Href. right. exact Hm'.
Qed.

(** X16, witness: the owner and somebody else read the same
    conversation. *)
Lemma X16_witness :
  let u := lit "u" in
  let v := lit "v" in
  let c := {| conv_id := lit "c1"; conv_user_id := u;
              conv_title := lit "Lease" |} in
  let m := {| msg_id := lit "m1"; conversation_id := lit "c1";
              msg_role := lit "user"; msg_content := lit "hello";
              sources := None |} in
  let db := snd (execute (MessagesInsert (Some u) m)
              (snd (execute (ConversationsInsert (Some u) c)
                 (snd (execute (SignUp v None)
                    (snd (execute (SignUp u None) Backend.empty))))))) in
  messages_select (Some u) (lit "c1") db = [m]
  /\ messages_select (Some v) (lit "c1") db = []
  /\ messages_select None (lit "c1") db = [].
Proof.
  intros u v c m db.
  assert (Hdb : consistent db).
  { apply (reachable_consistent Backend.empty); [exact consistent_empty|].
    repeat constructor. }
  assert (Hc : In c (conversations db)) by (left; reflexivity).
  destruct (X16_messages_are_read_by_the_owner_only db c (Some v) Hdb Hc)
    as (_ & Hv & _).
  destruct (X16_messages_are_read_by_the_owner_only db c None Hdb Hc)
    as (_ & Hn & _).
  split; [reflexivity|]. split.
  - apply Hv. vm_compute. discriminate.
  - apply Hn. discriminate.
Defined.

(* ===================================================================== *)
(** * More about the page [Users] and the layout *)
(* ===================================================================== *)

(** X17.  The list of users, when both reads are answered, has one line
    for each profile the caller may see, in their order: all of them for
    an admin, the caller's own otherwise.  The role on a line is a role
    that user holds, or [user] when the user holds none; in particular
    the only role of a user who holds one.  When a read fails, the list
    stays as it was. *)
Theorem X17_listed_users_and_their_roles :
  forall (s : session) (old : list listed_user) (db : database),
    let shown := fetchUsers (Delivered, Delivered) s old db in
    (has_role db (session_user s) admin = true ->
     map lu_id shown = map profile_user_id (profiles db))
    /\ (has_role db (session_user s) admin = false ->
        forall u, In u shown -> session_user s = Some (lu_id u))
    /\ (forall u, In u shown ->
          In (lu_role u) (roles_of db (lu_id u))
          \/ (roles_of db (lu_id u) = [] /\ lu_role u = user))
    /\ (forall net, net <> (Delivered, Delivered) ->
                    fetchUsers net s old db = old).
Proof.
  intros s old db shown. unfold shown, fetchUsers. cbn [fst snd].
  split; [|split; [|split]].
  - intros Ha. rewrite map_map. cbn [lu_id]. unfold profiles_select.
    rewrite filter_all; [reflexivity|].
    apply forallb_forall. intros p _. rewrite Ha. apply orb_true_r.
  - intros Ha u Hin. apply in_map_iff in Hin. destruct Hin as (p & <- & Hp).
    cbn [lu_id]. unfold profiles_select in Hp. apply filter_In in Hp.
    destruct Hp as [_ Hp]. rewrite Ha, orb_false_r in Hp.
    apply uid_eqb_spec. exact Hp.
  - intros u Hin. apply in_map_iff in Hin. destruct Hin as (p & <- & Hp).
    cbn [lu_id lu_role]. unfold profiles_select in Hp. apply filter_In in Hp.
    destruct Hp as [_ Hp]. unfold find_role.
    destruct (find _ (user_roles_select (session_user s) db)) as [r|] eqn:E.
    + left. apply find_some in E. destruct E as [Hin Hu].
      unfold user_roles_select in Hin. apply filter_In in Hin.
      unfold roles_of. apply in_map. apply filter_In. tauto.
    + right. split; [|reflexivity].
      unfold roles_of.
      assert (Hnone : forall r, In r (user_roles db) ->
                                text_eqb (user_id r) (profile_user_id p) = false).
      { intros r Hr.
        destruct (text_eqb (user_id r) (profile_user_id p)) eqn:Eu; [|reflexivity].
        assert (Hvis : In r (user_roles_select (session_user s) db)).
        { unfold user_roles_select. apply filter_In. split; [exact Hr|].
          apply orb_true_iff in Hp. destruct Hp as [Hp|Hp].
          - apply orb_true_iff. left. apply text_eqb_spec in Eu.
            rewrite Eu. exact Hp.
          - rewrite Hp. apply orb_true_r. }
        pose proof (find_none _ _ E r Hvis) as H. cbn beta in H. congruence. }
      revert Hnone. generalize (user_roles db). intros rows.
      induction rows as [|r rows IH]; intros Hnone; [reflexivity|].
      cbn [filter]. rewrite (Hnone r (or_introl eq_refl)).
      apply IH. intros r' Hr'. apply Hnone. right. exact Hr'.
  - intros [[| |] [| |]] Hnet; try reflexivity. contradiction.
Qed.

(** X17, witness: an admin sees everybody; a user who holds no role is
    listed as a user. *)
Lemma X17_witness :
  let a := lit "a" in
  let u := lit "u" in
  let db := {| auth_users := [a; u];
               profiles := [{| profile_user_id := a; full_name := Some (lit "Ann") |};
                            {| profile_user_id := u; full_name := None |}];
               user_roles := [{| user_id := a; role := admin |}];
               legal_documents := []; conversations := []; messages := [] |} in
  let s := {| session_user := Some a; session_role := Some admin |} in
  map lu_id (fetchUsers (Delivered, Delivered) s [] db) = [a; u]
  /\ map lu_role (fetchUsers (Delivered, Delivered) s [] db) = [admin; user].
Proof.
  intros a u db s. split; [|reflexivity].
  exact (proj1 (X17_listed_users_and_their_roles s [] db) eq_refl).
Defined.

(** X18.  The three counters of the page [Users] add up to the number of
    users listed: every user is counted once, under the role shown. *)
Theorem X18_role_counters_add_up :
  forall users : list listed_user,
    count_role admin users + count_role legal_analyst users
    + count_role user users
    = List.length users.
Proof.
  unfold count_role. induction users as [|u users IH]; [reflexivity|].
  cbn [filter]. destruct (lu_role u); cbn [app_role_eqb List.length]; lia.
Qed.

(** X19.  The layout and the handlers agree on the roles: the entry
    [Users] and the entry [System Logs] are shown exactly to a session
    whose role is [admin], the entry [Documents] exactly to one whose role
    is [admin] or [legal_analyst], the entry [Chat] to every session with
    a role, and nothing to a session without one; and a session that is
    not shown [Users] cannot change a role, one that is not shown
    [Documents] can neither validate nor delete a document, whatever the
    database would allow. *)
Theorem X19_navigation_follows_the_role :
  forall (s : session),
    let shows path :=
      existsb (fun item => text_eqb (nav_path item) path)
              (visibleNavItems (session_role s)) in
    shows (lit "/users") = role_is admin s
    /\ shows (lit "/logs") = role_is admin s
    /\ shows (lit "/documents") = role_is admin s || role_is legal_analyst s
    /\ (shows (lit "/chat") = false <-> session_role s = None)
    /\ (session_role s = None -> visibleNavItems (session_role s) = [])
    /\ (shows (lit "/users") = false ->
        forall net userId newRole db,
          handleRoleChange net s userId newRole db = (db, None))
    /\ (shows (lit "/documents") = false ->
        forall net id db,
          handleValidate net s id db = (db, None)
          /\ handleDelete net s id db = (db, None)).
Proof.
  intros s shows. unfold shows, role_is, handleRoleChange, handleValidate,
    handleDelete, role_is.
  destruct (session_role s) as [[| |]|]; cbn;
    repeat split; try reflexivity; try discriminate; intros; discriminate.
Qed.

(* ===================================================================== *)
(** * More about the page [Documents] *)
(* ===================================================================== *)

Lemma staff_is_known (db : database) (uid : uuid) :
  consistent db -> is_staff db (Some uid) = true -> known_user db uid = true.
Proof.
  intros [_ Hrefer _ _ _] Hs. unfold is_staff in Hs.
  assert (H : exists r, In r (user_roles db) /\ user_id r = uid).
  { apply orb_true_iff in Hs. unfold has_role in Hs.
    destruct Hs as [Hs|Hs]; apply existsb_exists in Hs;
      destruct Hs as (r & Hin & Hr); apply andb_true_iff in Hr;
      destruct Hr as [Hu _]; cbn [uid_eqb] in Hu; apply text_eqb_spec in Hu;
      exists r; auto. }
  destruct H as (r & Hin & <-). apply known_user_spec. exact (Hrefer r Hin).
Qed.

Lemma may_view_validated (db : database) (viewer : uuid) (d : legal_document) :
  validated d = Some true -> may_view db (Some viewer) d = true.
Proof.
  intros H. unfold may_view. rewrite H.
  destruct (sql_uuid_eq (uploaded_by d) (Some viewer)) as [[|]|];
    destruct (has_role db (Some viewer) admin);
    destruct (has_role db (Some viewer) legal_analyst); reflexivity.
Qed.

Lemma set_legal_documents_same (db : database) :
  set_legal_documents (legal_documents db) db = db.
Proof. destruct db; reflexivity. Qed.

Lemma map_unless_key (id : uuid) (change : legal_document -> legal_document)
  (docs : list legal_document) :
  ~ In id (map doc_id docs) ->
  map (fun d => if text_eqb (doc_id d) id then change d else d) docs = docs.
Proof.
  induction docs as [|d docs IH]; intros H; [reflexivity|].
  cbn [map]. rewrite IH by (intros Hin; apply H; right; exact Hin).
  destruct (text_eqb (doc_id d) id) eqn:E; [|reflexivity].
  exfalso. apply H. left. apply text_eqb_spec. exact E.
Qed.

Lemma filter_unless_key (id : uuid) (docs : list legal_document) :
  ~ In id (map doc_id docs) ->
  filter (fun d => negb (text_eqb (doc_id d) id)) docs = docs.
Proof.
  intros H. apply filter_all. apply forallb_forall. intros d Hd.
  apply negb_true_iff. apply text_eqb_neq. intros E. apply H.
  rewrite <- E. apply in_map. exact Hd.
Qed.

(** X20.  When a member of staff validates a document and the request
    is carried out, every document with that id is validated, names the
    validator, and can be read by everybody who is signed in; the other
    documents, the order of the table and the roles are as before. *)
Theorem X20_validated_documents_are_visible_to_all :
  forall (net : transport) (s : session) (id : uuid) (db : database)
         (uid : uuid),
    consistent db ->
    session_user s = Some uid ->
    role_is admin s || role_is legal_analyst s = true ->
    is_staff db (Some uid) = true ->
    net <> RequestLost ->
    let db' := fst (handleValidate net s id db) in
    (forall d, In d (legal_documents db') -> doc_id d = id ->
               validated d = Some true
               /\ validated_by d = Some uid
               /\ forall viewer, may_view db' (Some viewer) d = true)
    /\ (forall d, doc_id d <> id ->
                  (In d (legal_documents db') <-> In d (legal_documents db)))
    /\ map doc_id (legal_documents db') = map doc_id (legal_documents db)
    /\ user_roles db' = user_roles db.
Proof.
  intros net s id db uid Hdb Hs Hrole Hstaff Hnet db'.
  pose proof (staff_is_known db uid Hdb Hstaff) as Hknown.
  assert (E : db' = set_legal_documents
                      (map (fun d => if text_eqb (doc_id d) id
                                     then validate_row (Some uid) d else d)
                           (legal_documents db)) db).
  { unfold db', handleValidate.
    apply orb_true_iff in Hrole.
    assert (Hg : negb (role_is admin s) && negb (role_is legal_analyst s) = false)
      by (destruct Hrole as [-> | ->]; [reflexivity | apply andb_false_r]).
    rewrite Hg, Hs.
    assert (Ex : execute (DocumentsValidate (Some uid) (Some uid) id) db
                 = (None,
                    set_legal_documents
                      (map (fun d => if text_eqb (doc_id d) id
                                     then validate_row (Some uid) d else d)
                           (legal_documents db)) db)).
    { cbn [execute]. unfold legal_documents_validate.
      rewrite Hstaff. cbn [negb known_user_or_null]. rewrite Hknown.
      reflexivity. }
    destruct net; cbn [send]; [| contradiction |]; rewrite Ex; reflexivity. }
  rewrite E. cbn [legal_documents user_roles set_legal_documents].
  split; [|split; [|split; [|reflexivity]]].
  - intros d Hin Hid. apply in_map_iff in Hin. destruct Hin as (d0 & Hd & Hin).
    destruct (text_eqb (doc_id d0) id) eqn:E0.
    + subst d. cbn [validated validated_by validate_row].
      split; [reflexivity|]. split; [reflexivity|].
      intros viewer. apply may_view_validated. reflexivity.
    + subst d0. apply text_eqb_neq in E0. contradiction.
  - intros d Hne. rewrite in_map_iff. split.
    + intros (d0 & Hd & Hin).
      destruct (text_eqb (doc_id d0) id) eqn:E0; [|subst d0; exact Hin].
      exfalso. apply Hne. subst d. cbn [doc_id validate_row].
      apply text_eqb_spec. exact E0.
    + intros Hin. exists d. split; [|exact Hin].
      apply text_eqb_neq in Hne. rewrite Hne. reflexivity.
  - apply validate_keeps_ids.
Qed.

(** X20, witness: an analyst validates a document that a plain user
    could not see. *)
Lemma X20_witness :
  let an := lit "an" in
  let u := lit "u" in
  let d := {| doc_id := lit "d1"; title := lit "Lease Act"; description := None;
              content := None; file_path := None; domain := property;
              jurisdiction := None; year := None; tags := None;
              uploaded_by := Some an; validated := Some false;
              validated_by := None |} in
  let db := {| auth_users := [an; u]; profiles := [];
               user_roles := [{| user_id := an; role := legal_analyst |};
                              {| user_id := u; role := user |}];
               legal_documents := [d]; conversations := []; messages := [] |} in
  let s := {| session_user := Some an; session_role := Some legal_analyst |} in
  let db' := fst (handleValidate Delivered s (lit "d1") db) in
  legal_documents_select (Some u) db = []
  /\ map doc_id (legal_documents_select (Some u) db') = [lit "d1"]
  /\ map doc_id (legal_documents db') = [lit "d1"].
Proof.
  intros an u d db s db'.
  split; [reflexivity|]. split; [reflexivity|].
  assert (Hdb : consistent db).
  { constructor; simpl.
    - repeat constructor; simpl; intuition discriminate.
    - intros r [<-|[<-|[]]]; simpl; auto.
    - constructor.
    - contradiction.
    - contradiction. }
  exact (proj1 (proj2 (proj2
           (X20_validated_documents_are_visible_to_all Delivered s (lit "d1") db an
              Hdb eq_refl eq_refl eq_refl ltac:(discriminate))))).
Defined.

(** X21.  The handlers take the answer of the database for the outcome:
    a request that is answered without error is reported as a success
    also when it changed nothing.  So validating reports [Document
    validated] and deleting reports [Document deleted] while the database
    is exactly as before, when the role of the session is no longer the
    role in the database, or when no document has the id. *)
Theorem X21_success_reported_though_nothing_changed :
  forall (s : session) (id : uuid) (db : database),
    (role_is admin s || role_is legal_analyst s = true ->
     is_staff db (session_user s) = false
     \/ ~ In id (map doc_id (legal_documents db)) ->
     handleValidate Delivered s id db
     = (db, Some {| toast_title := lit "Document validated";
                    toast_description :=
                      Some (Plain
                        (lit "The document is now available for AI responses."));
                    destructive := false |}))
    /\ (role_is admin s = true ->
        has_role db (session_user s) admin = false
        \/ ~ In id (map doc_id (legal_documents db)) ->
        handleDelete Delivered s id db
        = (db, Some {| toast_title := lit "Document deleted";
                       toast_description := None;
                       destructive := false |})).
Proof.
  intros s id db. split.
  - intros Hrole Hwhy. unfold handleValidate.
    apply orb_true_iff in Hrole.
    assert (Hg : negb (role_is admin s) && negb (role_is legal_analyst s) = false)
      by (destruct Hrole as [-> | ->]; [reflexivity | apply andb_false_r]).
    rewrite Hg. cbn [send execute].
    assert (Ex : legal_documents_validate (session_user s) (session_user s) id db
                 = (None, db)).
    { unfold legal_documents_validate.
      destruct (session_user s) as [uid|] eqn:Es; [|reflexivity].
      destruct Hwhy as [Hno|Hid].
      - rewrite Hno. reflexivity.
      - destruct (is_staff db (Some uid)); [|reflexivity]. cbn [negb].
        rewrite (fresh_key legal_document doc_id _ _ Hid), andb_false_r.
        rewrite (map_unless_key id _ _ Hid), set_legal_documents_same.
        reflexivity. }
    rewrite Ex. reflexivity.
  - intros Hrole Hwhy. unfold handleDelete. rewrite Hrole. cbn [negb send execute].
    assert (Ex : legal_documents_delete (session_user s) id db = (None, db)).
    { unfold legal_documents_delete.
      destruct (session_user s) as [uid|] eqn:Es; [|reflexivity].
      destruct Hwhy as [Hno|Hid].
      - rewrite Hno. reflexivity.
      - destruct (has_role db (Some uid) admin); [|reflexivity].
        rewrite (filter_unless_key id _ Hid), set_legal_documents_same.
        reflexivity. }
    rewrite Ex. reflexivity.
Qed.

(** X21, witness: the session still says [admin], the database says
    [user]. *)
Lemma X21_witness :
  let a := lit "a" in
  let d := {| doc_id := lit "d1"; title := lit "Lease Act"; description := None;
              content := None; file_path := None; domain := property;
              jurisdiction := None; year := None; tags := None;
              uploaded_by := None; validated := Some false;
              validated_by := None |} in
  let db := {| auth_users := [a]; profiles := [];
               user_roles := [{| user_id := a; role := user |}];
               legal_documents := [d]; conversations := []; messages := [] |} in
  let s := {| session_user := Some a; session_role := Some admin |} in
  fst (handleDelete Delivered s (lit "d1") db) = db
  /\ reports_error (snd (handleDelete Delivered s (lit "d1") db)) = false
  /\ map doc_id (legal_documents (fst (handleDelete Delivered s (lit "d1") db)))
     = [lit "d1"].
Proof.
  intros a d db s.
  pose proof (proj2 (X21_success_reported_though_nothing_changed s (lit "d1") db)
                eq_refl (or_introl eq_refl)) as H.
  rewrite H. repeat split.
Defined.

(** What an upload that reports success has done. *)
Lemma handleUpload_success (RT : Runtime) (net : transport) (id : uuid)
  (s : session) (f : upload_form) (db : database) :
  destructive (snd (handleUpload net id s f db)) = false ->
  exists uploader,
    session_user s = Some uploader
    /\ fst (handleUpload net id s f db)
       = set_legal_documents
           (legal_documents db ++ [upload_row id uploader s f]) db
    /\ is_staff db (Some uploader) = true
    /\ ~ In id (map doc_id (legal_documents db))
    /\ is_empty (uploadTitle f) = false
    /\ is_empty (uploadContent f) = false
    /\ net = Delivered.
Proof.
  unfold handleUpload.
  destruct (session_user s) as [uploader|]; [|discriminate].
  destruct (is_empty (uploadTitle f)) eqn:Et; [discriminate|].
  destruct (is_empty (uploadContent f)) eqn:Ec; [discriminate|].
  cbn [orb].
  destruct net; cbn [send]; [|discriminate|].
  - cbn [execute]. unfold legal_documents_insert.
    destruct (negb (document_text_valid _)); [discriminate|].
    destruct (negb match year _ with | Some z => int4 z | None => true end);
      [discriminate|].
    destruct (is_staff db (Some uploader)) eqn:Es; [|discriminate].
    cbn [negb].
    destruct (existsb _ (legal_documents db)) eqn:Ek; [discriminate|].
    destruct (negb _); [discriminate|].
    intros _. exists uploader.
    split; [reflexivity|]. split; [reflexivity|]. split; [exact Es|].
    split; [|split; [reflexivity | split; reflexivity]].
    intros Hin. apply in_map_iff in Hin. destruct Hin as (d & Hd & Hin).
    pose proof (existsb_false_not_In _ _ _ d Ek Hin) as H. cbn beta in H.
    change (doc_id (upload_row id uploader s f)) with id in H.
    rewrite Hd, text_eqb_refl in H. discriminate.
  - destruct (execute _ db); discriminate.
Qed.

(** X22.  An upload is reported as a success only if the title and the
    content are filled in, the request is answered, and the uploader is
    an admin or a legal analyst in the database, whatever the role of the
    session; the page itself stops only an upload without title or
    content, or without a signed-in user, and then sends nothing. *)
Theorem X22_what_an_upload_needs :
  forall (RT : Runtime) (net : transport) (id : uuid) (s : session)
         (f : upload_form) (db : database),
    (destructive (snd (handleUpload net id s f db)) = false ->
     uploadTitle f <> [] /\ uploadContent f <> []
     /\ is_staff db (session_user s) = true
     /\ net = Delivered
     /\ In id (map doc_id (legal_documents (fst (handleUpload net id s f db)))))
    /\ (uploadTitle f = [] \/ uploadContent f = [] \/ session_user s = None ->
        handleUpload net id s f db
        = (db, {| toast_title := lit "Missing required fields";
                  toast_description :=
                    Some (Plain (lit "Please fill in title and content."));
                  destructive := true |})).
Proof.
  intros RT net id s f db. split.
  - intros Hok.
    destruct (handleUpload_success RT net id s f db Hok)
      as (uploader & Hs & E & Hstaff & _ & Ht & Hc & Hnet).
    split; [apply text_eqb_neq; exact Ht|].
    split; [apply text_eqb_neq; exact Hc|].
    split; [rewrite Hs; exact Hstaff|]. split; [exact Hnet|].
    rewrite E. cbn [legal_documents set_legal_documents].
    rewrite map_app. apply in_or_app. right. left. reflexivity.
  - intros H. unfold handleUpload.
    destruct (session_user s) as [uploader|]; [|reflexivity].
    destruct H as [H|[H|H]]; [| |discriminate].
    + unfold is_empty at 1. rewrite H. reflexivity.
    + unfold is_empty at 2. rewrite H. rewrite orb_true_r. reflexivity.
Qed.

(** X22, witness: an upload without a title; nothing is sent, whatever
    the network would have done. *)
Lemma X22_witness :
  let u := lit "u" in
  let db := {| auth_users := [u]; profiles := [];
               user_roles := [{| user_id := u; role := user |}];
               legal_documents := []; conversations := []; messages := [] |} in
  let s := {| session_user := Some u; session_role := Some legal_analyst |} in
  let f := {| uploadTitle := []; uploadDescription := [];
              uploadDomain := general; uploadJurisdiction := [];
              uploadYear := []; uploadTags := [];
              uploadContent := lit "text" |} in
  fst (handleUpload (RT := reference_runtime) RequestLost (lit "d1") s f db) = db
  /\ destructive
       (snd (handleUpload (RT := reference_runtime) RequestLost (lit "d1") s f db))
     = true.
Proof.
  intros u db s f.
  rewrite (proj2 (X22_what_an_upload_needs reference_runtime RequestLost
                    (lit "d1") s f db) (or_introl eq_refl)).
  split; reflexivity.
Defined.

(** X23.  A document that an admin uploads and then deletes leaves the
    database as it was before the upload. *)
Theorem X23_upload_then_delete_restores_the_database :
  forall (RT : Runtime) (id : uuid) (s : session) (f : upload_form)
         (db : database),
    role_is admin s = true ->
    has_role db (session_user s) admin = true ->
    destructive (snd (handleUpload Delivered id s f db)) = false ->
    let uploaded := fst (handleUpload Delivered id s f db) in
    In id (map doc_id (legal_documents uploaded))
    /\ map validated (filter (fun d => text_eqb (doc_id d) id)
                        (legal_documents uploaded))
       = [Some true]
    /\ handleDelete Delivered s id uploaded
       = (db, Some {| toast_title := lit "Document deleted";
                      toast_description := None;
                      destructive := false |}).
Proof.
  intros RT id s f db Hrole Hadmin Hok uploaded.
  destruct (handleUpload_success RT Delivered id s f db Hok)
    as (uploader & Hs & E & _ & Hid & _).
  unfold uploaded. rewrite E. cbn [legal_documents set_legal_documents].
  split; [|split].
  - rewrite map_app. apply in_or_app. right. left. reflexivity.
  - rewrite filter_app.
    replace (filter (fun d => text_eqb (doc_id d) id) (legal_documents db))
      with (@nil legal_document).
    + cbn [app filter]. change (doc_id (upload_row id uploader s f)) with id.
      rewrite text_eqb_refl. cbn [map validated upload_row]. rewrite Hrole.
      reflexivity.
    + symmetry. revert Hid. generalize (legal_documents db). intros docs.
      induction docs as [|d docs IH]; intros Hid; [reflexivity|].
      cbn [filter]. destruct (text_eqb (doc_id d) id) eqn:Ed.
      * exfalso. apply Hid. left. apply text_eqb_spec. exact Ed.
      * apply IH. intros Hin. apply Hid. right. exact Hin.
  - unfold handleDelete. rewrite Hrole. cbn [negb send execute].
    unfold legal_documents_delete. rewrite Hs in *.
    assert (Ha : has_role
                   (set_legal_documents
                      (legal_documents db ++ [upload_row id uploader s f]) db)
                   (Some uploader) admin = true) by exact Hadmin.
    rewrite Ha. cbn [legal_documents set_legal_documents].
    rewrite filter_app, (filter_unless_key id _ Hid). cbn [filter].
    change (doc_id (upload_row id uploader s f)) with id.
    rewrite text_eqb_refl. cbn [negb]. rewrite app_nil_r.
    destruct db; reflexivity.
Qed.

(** X23, witness: an admin uploads a document and deletes it. *)
Lemma X23_witness :
  let a := lit "a" in
  let db := {| auth_users := [a]; profiles := [];
               user_roles := [{| user_id := a; role := admin |}];
               legal_documents := []; conversations := []; messages := [] |} in
  let s := {| session_user := Some a; session_role := Some admin |} in
  let f := {| uploadTitle := lit "Lease Act"; uploadDescription := [];
              uploadDomain := property; uploadJurisdiction := [];
              uploadYear := lit "1995"; uploadTags := lit "lease, rent";
              uploadContent := lit "An Act about leases." |} in
  let uploaded :=
    fst (handleUpload (RT := reference_runtime) Delivered (lit "d1") s f db) in
  map doc_id (legal_documents uploaded) = [lit "d1"]
  /\ fst (handleDelete Delivered s (lit "d1") uploaded) = db.
Proof.
  intros a db s f uploaded.
  split; [vm_compute; reflexivity|].
  unfold uploaded.
  rewrite (proj2 (proj2 (X23_upload_then_delete_restores_the_database
                           reference_runtime (lit "d1") s f db
                           eq_refl eq_refl eq_refl))).
  reflexivity.
Defined.

(** ** The tags of an upload *)

Lemma split_on_length (sep : char) (s : text) :
  forall cur, List.length (split_on sep cur s)
              = S (List.length (filter (N.eqb sep) s)).
Proof.
  induction s as [|c s IH]; intros cur; [reflexivity|].
  cbn [split_on filter]. rewrite (N.eqb_sym sep c).
  destruct (N.eqb c sep); cbn [List.length]; rewrite IH; reflexivity.
Qed.

Lemma trimStart_begins (s : text) :
  match trimStart s with
  | [] => True
  | c :: _ => is_ws c = false
  end.
Proof.
  induction s as [|c s IH]; [exact I|].
  cbn [trimStart]. destruct (is_ws c) eqn:E; [exact IH | exact E].
Qed.

Lemma trimStart_ends (s : text) (d : char) :
  trimStart s <> [] -> last (trimStart s) d = last s d.
Proof.
  induction s as [|c s IH]; intros H; [reflexivity|].
  cbn [trimStart] in *. destruct (is_ws c); [|reflexivity].
  rewrite (IH H). destruct s as [|x s]; [contradiction H; reflexivity|].
  reflexivity.
Qed.

Lemma first_of_reversed (s : text) (d : char) : hd d (rev s) = last s d.
Proof.
  induction s as [|c s IH]; [reflexivity|].
  cbn [rev]. destruct s as [|x s]; [reflexivity|].
  change (last (c :: x :: s) d) with (last (x :: s) d). rewrite <- IH.
  destruct (rev (x :: s)) as [|y r] eqn:E; [|reflexivity].
  apply (f_equal (@List.length char)) in E. rewrite length_rev in E.
  discriminate.
Qed.

Lemma trim_trimmed (t : text) : trimmed (trim t).
Proof.
  unfold trim, trimEnd.
  set (u := trimStart t).
  set (v := trimStart (rev u)).
  destruct (rev v) as [|c r] eqn:Er; [exact I|].
  assert (Hv : v <> []).
  { intros E. rewrite E in Er. discriminate. }
  assert (Hu : u <> []).
  { intros E. apply Hv. unfold v. rewrite E. reflexivity. }
  cbn [trimmed]. split.
  - assert (Hc : c = hd c (rev v)) by (rewrite Er; reflexivity).
    rewrite first_of_reversed in Hc. unfold v in Hc.
    rewrite (trimStart_ends (rev u) c Hv) in Hc.
    rewrite <- first_of_reversed, rev_involutive in Hc.
    pose proof (trimStart_begins t) as Hb. fold u in Hb.
    destruct u as [|x u']; [contradiction Hu; reflexivity|].
    cbn [hd] in Hc. rewrite Hc. exact Hb.
  - rewrite <- Er, <- first_of_reversed, rev_involutive.
    pose proof (trimStart_begins (rev u)) as Hb. fold v in Hb.
    destruct v as [|x v']; [contradiction Hv; reflexivity|].
    exact Hb.
Qed.

(** X24.  The tags of an uploaded document: none when the field is left
    empty; otherwise one tag for each piece between commas, one more than
    there are commas, each without white space at either end, so that a
    piece of white space only, as behind a trailing comma, gives an empty
    tag. *)
Theorem X24_tags_of_an_upload :
  forall (RT : Runtime) (id uploader : uuid) (s : session) (f : upload_form),
    (uploadTags f = [] -> tags (upload_row id uploader s f) = None)
    /\ (uploadTags f <> [] ->
        exists ts,
          tags (upload_row id uploader s f) = Some ts
          /\ List.length ts
             = S (List.length (filter (N.eqb 44) (uploadTags f)))
          /\ Forall trimmed ts
          /\ (forall piece, In piece (split 44%N (uploadTags f)) ->
                            forallb is_ws piece = true -> In [] ts)).
Proof.
  intros RT id uploader s f. cbn [tags upload_row]. unfold is_empty. split.
  - intros ->. reflexivity.
  - intros H. apply text_eqb_neq in H. rewrite H.
    exists (map trim (split 44%N (uploadTags f))).
    split; [reflexivity|]. split; [|split].
    + rewrite length_map. apply split_on_length.
    + apply Forall_forall. intros t Hin. apply in_map_iff in Hin.
      destruct Hin as (x & <- & _). apply trim_trimmed.
    + intros piece Hin Hws. apply in_map_iff. exists piece.
      split; [apply trim_all_ws; exact Hws | exact Hin].
Qed.

(** X24, witness: three pieces, the last one blank. *)
Lemma X24_witness :
  let s := {| session_user := Some (lit "a"); session_role := Some admin |} in
  let f := {| uploadTitle := lit "Lease Act"; uploadDescription := [];
              uploadDomain := property; uploadJurisdiction := [];
              uploadYear := []; uploadTags := lit " lease ,rent, ";
              uploadContent := lit "An Act about leases." |} in
  tags (upload_row (RT := reference_runtime) (lit "d1") (lit "a") s f)
  = Some [lit "lease"; lit "rent"; []]
  /\ exists ts,
       tags (upload_row (RT := reference_runtime) (lit "d1") (lit "a") s f)
       = Some ts
       /\ List.length ts = 3.
Proof.
  intros s f. split; [vm_compute; reflexivity|].
  destruct (proj2 (X24_tags_of_an_upload reference_runtime (lit "d1") (lit "a") s f))
    as (ts & E & Hlen & _).
  - vm_compute. discriminate.
  - exists ts. split; [exact E | exact Hlen].
Defined.

(** ** The search boxes *)

Lemma includes_spec (needle hay : text) :
  includes needle hay = true <-> exists before behind, hay = before ++ needle ++ behind.
Proof.
  induction hay as [|c hay IH].
  - cbn [includes]. split.
    + intros H. apply startsWith_split in H. exists [], (skipn (List.length needle) []).
      exact H.
    + intros (before & behind & E). symmetry in E.
      apply app_eq_nil in E. destruct E as [-> E].
      apply app_eq_nil in E. destruct E as [-> _]. reflexivity.
  - cbn [includes]. rewrite orb_true_iff, IH. split.
    + intros [H|(before & behind & E)].
      * apply startsWith_split in H.
        exists [], (skipn (List.length needle) (c :: hay)). exact H.
      * exists (c :: before), behind. rewrite E. reflexivity.
    + intros (before & behind & E). destruct before as [|b before].
      * left. cbn [app] in E. rewrite E. apply startsWith_app.
      * right. injection E as _ E. exists before, behind. exact E.
Qed.

(** X25.  The search of the pages [Documents] and [Users].  A document
    is listed exactly when its title or its description contains the
    query, both taken in lower case, and the domain chosen is [all] or the
    domain of the document; a user is listed exactly when the name or the
    id contains the query.  The lists keep their order, and an empty
    query with the domain [all] lists every document. *)
Theorem X25_what_the_search_lists :
  forall (toLowerCase : text -> text) (searchQuery filterDomain : text)
         (documents : list legal_document) (users : list listed_user),
    let contains (hay : text) :=
      exists before behind,
        toLowerCase hay = before ++ toLowerCase searchQuery ++ behind in
    (forall d,
        In d (filteredDocuments toLowerCase searchQuery filterDomain documents)
        <-> In d documents
            /\ (contains (title d)
                \/ exists text, description d = Some text /\ contains text)
            /\ (filterDomain = lit "all"
                \/ domain_name (domain d) = filterDomain))
    /\ (forall u,
          In u (filteredUsers toLowerCase searchQuery users)
          <-> In u users
              /\ ((exists name, lu_full_name u = Some name /\ contains name)
                  \/ contains (lu_id u)))
    /\ (toLowerCase searchQuery = [] ->
        filteredDocuments toLowerCase searchQuery (lit "all") documents
        = documents).
Proof.
  intros toLowerCase searchQuery filterDomain documents users contains.
  split; [|split].
  - intros d. unfold filteredDocuments. rewrite filter_In.
    cbv zeta. rewrite andb_true_iff, !orb_true_iff, !text_eqb_spec, includes_spec.
    split; intros [Hin [Hs Hd]]; (split; [exact Hin|]); (split; [|exact Hd]).
    + destruct Hs as [Hs|Hs]; [left; exact Hs|]. right.
      destruct (description d) as [text|]; [|discriminate].
      exists text. split; [reflexivity|]. apply includes_spec. exact Hs.
    + destruct Hs as [Hs|(text & -> & Hs)]; [left; exact Hs|]. right.
      apply includes_spec. exact Hs.
  - intros u. unfold filteredUsers. rewrite filter_In.
    rewrite orb_true_iff, includes_spec.
    split; intros [Hin Hs]; (split; [exact Hin|]).
    + destruct Hs as [Hs|Hs]; [|right; exact Hs]. left.
      destruct (lu_full_name u) as [name|]; [|discriminate].
      exists name. split; [reflexivity|]. apply includes_spec. exact Hs.
    + destruct Hs as [(name & -> & Hs)|Hs]; [|right; exact Hs]. left.
      apply includes_spec. exact Hs.
  - intros Hq. unfold filteredDocuments. apply filter_all.
    apply forallb_forall. intros d _. cbv zeta.
    rewrite Hq, text_eqb_refl.
    assert (H : forall hay, includes [] hay = true).
    { intros hay. apply includes_spec. exists [], hay. reflexivity. }
    rewrite H. reflexivity.
Qed.

(* ===================================================================== *)
(** * How the parts work together *)
(* ===================================================================== *)

(** X26.  A sentinel line does not end the stream.  The loop stops at it
    and leaves what follows it in the buffer, unread as long as nothing
    else arrives; with the next chunk, be it empty, the loop runs again
    over what was left, exactly as if the sentinel line had not been
    there. *)
Theorem X26_a_sentinel_does_not_end_the_stream :
  forall (RT : Runtime) (sentinel after t : text) (st : parser_state),
    buffer st = [] ->
    ~ In NL sentinel ->
    is_sentinel_line sentinel = true ->
    let stopped := feed (sentinel ++ NL :: after) st in
    assistantContent stopped = assistantContent st
    /\ emitted stopped = emitted st
    /\ buffer stopped = after
    /\ feed t stopped = feed (after ++ t) st.
Proof.
  intros RT sentinel after t st Hb Hn Hs stopped.
  assert (E : stopped = set_buffer after st).
  { unfold stopped, feed. rewrite Hb. cbn [app].
    rewrite (drain_line sentinel after st Hn), (loop_body_sentinel _ _ Hs).
    reflexivity. }
  rewrite E. split; [reflexivity|]. split; [reflexivity|].
  split; [reflexivity|].
  unfold feed. rewrite Hb. reflexivity.
Qed.

(** X26, witness: a data line behind the sentinel, and then an empty
    chunk. *)
Lemma X26_witness :
  let line := lit "data: " ++ json_lit "{'choices':[{'delta':{'content':'Hi'}}]}" in
  let first := lit "data: [DONE]" ++ NL :: line ++ [NL] in
  emitted (feed (RT := reference_runtime) first initial) = []
  /\ emitted (feed (RT := reference_runtime) []
                (feed (RT := reference_runtime) first initial))
     = [lit "Hi"].
Proof.
  intros line first.
  destruct (X26_a_sentinel_does_not_end_the_stream reference_runtime
              (lit "data: [DONE]") (line ++ [NL]) [] initial eq_refl)
    as (_ & He & _ & Hf).
  - vm_compute. intuition discriminate.
  - reflexivity.
  - split; [exact He|]. unfold first. rewrite Hf. vm_compute. reflexivity.
Defined.

(** X27.  After a role change that reports success, [get_user_role]
    gives the new role for the target, and the entries the layout shows
    for that role are: all four for an admin, [Chat] and [Documents] for a
    legal analyst, [Chat] alone for a user. *)
Theorem X27_navigation_after_a_role_change :
  forall (net : transport * transport) (s : session) (userId : uuid)
         (newRole : app_role) (db db' : database) (t : toast),
    handleRoleChange net s userId newRole db = (db', Some t) ->
    destructive t = false ->
    get_user_role db' (Some userId) = Some newRole
    /\ map nav_path (visibleNavItems (get_user_role db' (Some userId)))
       = match newRole with
         | admin => [lit "/chat"; lit "/documents"; lit "/users"; lit "/logs"]
         | legal_analyst => [lit "/chat"; lit "/documents"]
         | user => [lit "/chat"]
         end.
Proof.
  intros net s userId newRole db db' t H Hok.
  assert (Hroles : roles_of db' userId = [newRole]).
  { destruct (handleRoleChange_outcome _ _ _ _ _ _ _ H)
      as (_ & _ & _ & _ & _ & _ & [[_ [E|E]]|[(E & _)|(_ & _ & _ & _ & _ & E)]]).
    - discriminate.
    - simpl in E. congruence.
    - simpl in E. congruence.
    - exact E. }
  assert (Hhas : forall r, has_role db' (Some userId) r = app_role_eqb newRole r).
  { intros r. destruct (has_role db' (Some userId) r) eqn:E.
    - apply has_role_roles_of in E. rewrite Hroles in E.
      destruct E as [<-|[]]. destruct newRole; reflexivity.
    - destruct (app_role_eqb newRole r) eqn:E'; [|reflexivity].
      apply app_role_eqb_spec in E'. subst r.
      assert (Hin : In newRole (roles_of db' userId))
        by (rewrite Hroles; left; reflexivity).
      apply has_role_roles_of in Hin. congruence. }
  assert (Hget : get_user_role db' (Some userId) = Some newRole).
  { unfold get_user_role. rewrite !Hhas. destruct newRole; reflexivity. }
  split; [exact Hget|]. rewrite Hget. destruct newRole; reflexivity.
Qed.

(** X27, witness: an admin makes a user an admin. *)
Lemma X27_witness :
  let a := lit "a" in
  let u := lit "u" in
  let db := {| auth_users := [a; u]; profiles := [];
               user_roles := [{| user_id := a; role := admin |};
                              {| user_id := u; role := user |}];
               legal_documents := []; conversations := []; messages := [] |} in
  let s := {| session_user := Some a; session_role := Some admin |} in
  let db' := fst (handleRoleChange (Delivered, Delivered) s u admin db) in
  map nav_path (visibleNavItems (get_user_role db (Some u))) = [lit "/chat"]
  /\ map nav_path (visibleNavItems (get_user_role db' (Some u)))
     = [lit "/chat"; lit "/documents"; lit "/users"; lit "/logs"].
Proof.
  intros a u db s db'. split; [reflexivity|].
  destruct (handleRoleChange (Delivered, Delivered) s u admin db)
    as [d [t|]] eqn:E; [|vm_compute in E; discriminate].
  assert (Hok : destructive t = false).
  { vm_compute in E. injection E as _ <-. reflexivity. }
  exact (proj2 (X27_navigation_after_a_role_change (Delivered, Delivered) s u
                  admin db d t E Hok)).
Defined.

(** X28.  A role change sent for a caller who is not an admin in the
    database changes nothing, whatever the session says and whatever the
    network does; when both requests are answered, the delete is accepted
    without effect and the insert is refused by the policy, which is the
    error the page shows. *)
Theorem X28_role_change_needs_an_admin_in_the_database :
  forall (net : transport * transport) (s : session) (userId : uuid)
         (newRole : app_role) (db : database),
    has_role db (session_user s) admin = false ->
    fst (handleRoleChange net s userId newRole db) = db
    /\ (role_is admin s = true -> session_user s <> Some userId ->
        net = (Delivered, Delivered) ->
        snd (handleRoleChange net s userId newRole db)
        = Some {| toast_title := lit "Error updating role";
                  toast_description := Some (BackendMessage RowLevelSecurity);
                  destructive := true |}).
Proof.
  intros net s userId newRole db Ha.
  assert (Ed : execute (RolesDelete (session_user s) userId) db = (None, db)).
  { cbn [execute]. unfold user_roles_delete. rewrite Ha. reflexivity. }
  assert (Ei : execute (RolesInsert (session_user s)
                          {| user_id := userId; role := newRole |}) db
               = (Some RowLevelSecurity, db)).
  { cbn [execute]. unfold user_roles_insert. rewrite Ha. reflexivity. }
  split.
  - unfold handleRoleChange.
    destruct (role_is admin s); cbn [negb]; [|reflexivity].
    destruct (uid_eqb (session_user s) userId); [reflexivity|].
    destruct net as [[| |] n2]; cbn [fst snd send]; rewrite ?Ed; cbn [fst snd];
      try reflexivity;
      destruct n2; cbn [send]; rewrite ?Ei; reflexivity.
  - intros Hrole Hne ->. unfold handleRoleChange. rewrite Hrole. cbn [negb].
    destruct (uid_eqb (session_user s) userId) eqn:Eu.
    + apply uid_eqb_spec in Eu. contradiction.
    + cbn [fst snd send]. rewrite Ed, Ei. reflexivity.
Qed.

(** X28, witness: the session of a former admin. *)
Lemma X28_witness :
  let a := lit "a" in
  let u := lit "u" in
  let db := {| auth_users := [a; u]; profiles := [];
               user_roles := [{| user_id := a; role := legal_analyst |};
                              {| user_id := u; role := user |}];
               legal_documents := []; conversations := []; messages := [] |} in
  let s := {| session_user := Some a; session_role := Some admin |} in
  has_role db (session_user s) admin = false
  /\ fst (handleRoleChange (Delivered, ResponseLost) s u admin db) = db.
Proof.
  intros a u db s. split; [reflexivity|].
  exact (proj1 (X28_role_change_needs_an_admin_in_the_database
                  (Delivered, ResponseLost) s u admin db eq_refl)).
Defined.

(** X29.  A document whose upload reports success is listed for its
    uploader at once; somebody else who is neither an admin nor a legal
    analyst is shown it exactly when the role of the uploading session
    was [admin], that is when it was stored as validated. *)
Theorem X29_who_sees_a_new_upload :
  forall (RT : Runtime) (id : uuid) (s : session) (f : upload_form)
         (db : database) (viewer : uuid),
    destructive (snd (handleUpload Delivered id s f db)) = false ->
    let db' := fst (handleUpload Delivered id s f db) in
    (exists d, In d (fetchDocuments Delivered s [] db') /\ doc_id d = id)
    /\ (is_staff db (Some viewer) = false ->
        session_user s <> Some viewer ->
        ((exists d, In d (legal_documents_select (Some viewer) db')
                    /\ doc_id d = id)
         <-> session_role s = Some admin)).
Proof.
  intros RT id s f db viewer Hok db'.
  destruct (handleUpload_success RT Delivered id s f db Hok)
    as (uploader & Hs & E & _ & Hid & _).
  set (row := upload_row id uploader s f) in *.
  assert (Hrow : In row (legal_documents db')).
  { unfold db'. rewrite E. cbn [legal_documents set_legal_documents].
    apply in_or_app. right. left. reflexivity. }
  assert (Hroles : forall a r, has_role db' a r = has_role db a r).
  { intros a r. unfold db'. rewrite E. reflexivity. }
  assert (Honly : forall d, In d (legal_documents db') -> doc_id d = id -> d = row).
  { intros d Hin Hd. unfold db' in Hin. rewrite E in Hin.
    cbn [legal_documents set_legal_documents] in Hin.
    apply in_app_or in Hin. destruct Hin as [Hin|[<-|[]]]; [|reflexivity].
    exfalso. apply Hid. rewrite <- Hd. apply in_map. exact Hin. }
  split.
  - exists row. split; [|reflexivity].
    unfold fetchDocuments, legal_documents_select. rewrite Hs.
    apply filter_In. split; [exact Hrow|].
    unfold may_view. cbn [row upload_row uploaded_by validated sql_uuid_eq].
    rewrite text_eqb_refl.
    destruct (role_is admin s), (has_role db' (Some uploader) admin),
      (has_role db' (Some uploader) legal_analyst); reflexivity.
  - intros Hstaff Hne.
    assert (Hview : may_view db' (Some viewer) row = role_is admin s).
    { unfold may_view. rewrite !Hroles.
      unfold is_staff in Hstaff. apply orb_false_iff in Hstaff.
      destruct Hstaff as [-> ->].
      cbn [row upload_row uploaded_by validated sql_uuid_eq].
      assert (Eu : text_eqb uploader viewer = false)
        by (apply text_eqb_neq; congruence).
      rewrite Eu. destruct (role_is admin s); reflexivity. }
    unfold legal_documents_select. split.
    + intros (d & Hin & Hd). apply filter_In in Hin. destruct Hin as [Hin Hv].
      rewrite (Honly d Hin Hd), Hview in Hv. apply role_is_spec. exact Hv.
    + intros Hadmin. exists row. split; [|reflexivity].
      apply filter_In. split; [exact Hrow|]. rewrite Hview.
      apply role_is_spec. exact Hadmin.
Qed.

(** X29, witness: an analyst uploads; a plain user is not shown the
    document. *)
Lemma X29_witness :
  let an := lit "an" in
  let u := lit "u" in
  let db := {| auth_users := [an; u]; profiles := [];
               user_roles := [{| user_id := an; role := legal_analyst |};
                              {| user_id := u; role := user |}];
               legal_documents := []; conversations := []; messages := [] |} in
  let s := {| session_user := Some an; session_role := Some legal_analyst |} in
  let f := {| uploadTitle := lit "Lease Act"; uploadDescription := [];
              uploadDomain := property; uploadJurisdiction := [];
              uploadYear := lit "1995"; uploadTags := lit "lease, rent";
              uploadContent := lit "An Act about leases." |} in
  let db' := fst (handleUpload (RT := reference_runtime) Delivered (lit "d1") s f db) in
  (exists d, In d (fetchDocuments Delivered s [] db') /\ doc_id d = lit "d1")
  /\ legal_documents_select (Some u) db' = [].
Proof.
  intros an u db s f db'. split; [|vm_compute; reflexivity].
  exact (proj1 (X29_who_sees_a_new_upload reference_runtime (lit "d1") s f db u
                  eq_refl)).
Defined.

(* ===================================================================== *)
(** * What a handler that reports an error has done *)
(* ===================================================================== *)







